(** * The 3D Building Processor: orchestration of the LiDAR-to-roof-form pipeline

    A shallow embedding of [building_processor_tool.py]: the three module
    functions [check_building_class_code], [validate_roof_forms] and
    [process_las_dataset], and the method [BuildingProcessor.execute].

    The geoprocessing engine (arcpy), the six processing scripts, the file
    system and [os.path] are the host: they are an interface ([Platform]),
    and every theorem holds for every host.  The Python control flow
    ([return], [raise], [try]/[except]/[finally]) is a small monad over the
    run state. *)

From Stdlib Require Import String Ascii List ZArith QArith Bool Lia DecimalString.
Import ListNotations.
Open Scope string_scope.
Open Scope Z_scope.

(** ** Python values the tool handles *)

Module Py.

(** The exception classes the source tells apart: [arcpy.ExecuteError],
    the [ValueError] it raises itself, any other subclass of [Exception],
    and what derives from [BaseException] only ([SystemExit],
    [KeyboardInterrupt]), which [except Exception] lets through and a bare
    [except:] catches. *)
Inductive ExnClass : Type :=
| ExecuteError
| ValueError
| IndexError
| OtherException
| NonException.

(** An exception object: its class and [str(e)]. *)
Record Exn : Type := mkExn { exn_class : ExnClass; exn_str : string }.

Definition isinstance_Exception (e : Exn) : bool :=
  match exn_class e with
  | NonException => false
  | _ => true
  end.

Definition isinstance_ExecuteError (e : Exn) : bool :=
  match exn_class e with
  | ExecuteError => true
  | _ => false
  end.

(** [str] of an [int]. *)
Definition str_int (z : Z) : string := NilZero.string_of_int (Z.to_int z).

(** Truth value of what a call returned: [None] (the callee fell off its
    end) is falsy. *)
Definition truthy (v : option bool) : bool :=
  match v with
  | Some b => b
  | None => false
  end.

End Py.
Export Py.

(** ** The geoprocessing engine's data *)

Record SpatialReference : Type := mkSR { sr_name : string }.

(** What [arcpy.Describe] returns.  Reading a property may raise (a
    describe object has [pointCount] only for some data types).  For the
    spatial reference [None] stands for any value that is false in an
    [if]. *)
Record DescribeObj : Type := mkDescribe {
  dataType : string;
  pointCount : Exn + Z;
  fileCount : Exn + Z;
  spatialReference : Exn + option SpatialReference
}.

(** [arcpy.env], as far as the tool writes it. *)
Record Env : Type := mkEnv {
  overwriteOutput : bool;
  workspace : option string;
  scratchWorkspace : option string;
  cellSize : option string;
  outputCoordinateSystem : option SpatialReference
}.

Definition set_overwriteOutput (b : bool) (e : Env) : Env :=
  mkEnv b (workspace e) (scratchWorkspace e) (cellSize e) (outputCoordinateSystem e).
Definition set_workspace (p : string) (e : Env) : Env :=
  mkEnv (overwriteOutput e) (Some p) (scratchWorkspace e) (cellSize e) (outputCoordinateSystem e).
Definition set_scratchWorkspace (p : string) (e : Env) : Env :=
  mkEnv (overwriteOutput e) (workspace e) (Some p) (cellSize e) (outputCoordinateSystem e).
Definition set_cellSize (c : string) (e : Env) : Env :=
  mkEnv (overwriteOutput e) (workspace e) (scratchWorkspace e) (Some c) (outputCoordinateSystem e).
Definition set_outputCoordinateSystem (r : SpatialReference) (e : Env) : Env :=
  mkEnv (overwriteOutput e) (workspace e) (scratchWorkspace e) (cellSize e) (Some r).

(** ** Keyword arguments of the six stage routines, as the source passes them *)

Record ElevationArgs : Type := mkElevationArgs {
  el_home_directory : string;
  el_project_ws : string;
  el_input_las_dataset : string;
  el_cell_size : string;
  el_only_ground_plus_class_code : bool;
  el_class_code : Z;
  el_output_elevation_raster : string;
  el_classify_noise : bool;
  el_minimum_height : string;
  el_maximum_height : string;
  el_processing_extent : string;
  el_debug : Z
}.

Record MosaicArgs : Type := mkMosaicArgs {
  mo_home_directory : string;
  mo_project_ws : string;
  mo_in_lasd : string;
  mo_out_folder : string;
  mo_out_mosaic : string;
  mo_spatial_ref : SpatialReference;
  mo_cell_size : string;
  mo_debug : Z
}.

Record FocalArgs : Type := mkFocalArgs {
  fo_in_raster : string;
  fo_neighborhood : Z * Z * string;   (* NbrRectangle(3, 3, "CELL") *)
  fo_statistics_type : string;
  fo_ignore_nodata : string
}.

Record FootprintArgs : Type := mkFootprintArgs {
  fp_home_directory : string;
  fp_project_ws : string;
  fp_in_raster : string;
  fp_min_area : string;
  fp_split_features : string;
  fp_simplify_tolerance : string;
  fp_output_poly : string;
  fp_reg_circles : bool;
  fp_circle_min_area : string;
  fp_min_compactness : Q;
  fp_circle_tolerance : string;
  fp_lg_reg_method : string;
  fp_lg_min_area : string;
  fp_lg_tolerance : string;
  fp_med_reg_method : string;
  fp_med_min_area : string;
  fp_med_tolerance : string;
  fp_sm_reg_method : string;
  fp_sm_tolerance : string;
  fp_debug : Z
}.

Record SegmentArgs : Type := mkSegmentArgs {
  sg_home_directory : string;
  sg_project_ws : string;
  sg_features : string;
  sg_dsm : string;
  sg_spectral_detail : string;
  sg_spatial_detail : string;
  sg_minimum_segment_size : Z;
  sg_regularization_tolerance : string;
  sg_flat_only : bool;
  sg_min_slope : Z;
  sg_output_segments_ui : string;
  sg_debug : Z
}.

Record RoofFormArgs : Type := mkRoofFormArgs {
  rf_home_directory : string;
  rf_project_ws : string;
  rf_buildings_layer : string;
  rf_dsm : string;
  rf_dtm : string;
  rf_ndsm : string;
  rf_flat_roofs : bool;
  rf_min_flat_roof_area : string;
  rf_min_slope_roof_area : string;
  rf_min_roof_height : string;
  rf_output_buildings : string;
  rf_simplify_buildings : string;
  rf_simplify_tolerance : string;
  rf_debug : Z
}.

(** ** Calls into the host that can change it or fail *)

Inductive ExtCall : Type :=
| CreateFileGDB (out_folder_path out_name : string)
| Makedirs (path : string)
| ImportScript (module : string)          (* [from scripts.<module> import run] *)
| RunExtractElevation (a : ElevationArgs)
| RunBuildingMosaic (a : MosaicArgs)
| FocalStatistics (a : FocalArgs)
| SaveRaster (path : string)              (* [focal_result.save(path)] *)
| RunFootprintsFromRaster (a : FootprintArgs)
| RunSegmentRoof (a : SegmentArgs)
| RunExtractRoofForm (a : RoofFormArgs)
| CheckInExtension (name : string).

(** Everything the tool asks of the host, in order. *)
Inductive Event : Type :=
| EvExists (path : string)                (* [arcpy.Exists] *)
| EvPathExists (path : string)            (* [os.path.exists] *)
| EvDescribe (path : string)              (* [arcpy.Describe] *)
| EvCall (c : ExtCall).

Inductive Msg : Type :=
| Message (s : string)                    (* [arcpy.AddMessage] *)
| Warning (s : string)                    (* [arcpy.AddWarning] *)
| Error (s : string).                     (* [arcpy.AddError] *)

(** ** The host *)

Record World (Store : Type) : Type := mkWorld { env : Env; store : Store }.
Arguments mkWorld {Store} _ _.
Arguments env {Store} _.
Arguments store {Store} _.

(** [Store] is the state of the disk and the geodatabases.  Paths are looked
    up as given: the tool's [DELasDataset] and [DEFolder] parameters deliver
    full paths.  A call returns the changed world and [None], or the
    exception it raised.  Asking whether something exists and writing a
    message cannot fail; describing a dataset, reading a property of the
    description, importing a script and every call can. *)
Class Platform : Type := {
  Store : Type;
  arc_exists : Store -> string -> bool;
  path_exists : Store -> string -> bool;
  describe : Store -> string -> Exn + DescribeObj;
  run_ext : ExtCall -> World Store -> World Store * option Exn;
  get_messages : Store -> Z -> string;
  os_path_join : string -> string -> string;
  os_path_basename : string -> string;
  os_path_splitext : string -> string * string
}.

(** ** Control flow: a state monad with [return] and [raise] *)

(** The run state: the host's world, the message log of the tool and the
    requests made to the host, both oldest first. *)
Record State {P : Platform} : Type := mkState {
  world : World Store;
  log : list Msg;
  trace : list Event
}.
Arguments mkState {P} _ _ _.

(** How a block of statements ends: it runs to its end, it executes
    [return r], or it raises. *)
Inductive Signal (R A : Type) : Type :=
| Normal (a : A)
| Returned (r : R)
| Raised (e : Exn).
Arguments Normal {R A} _.
Arguments Returned {R A} _.
Arguments Raised {R A} _.

Definition M {P : Platform} (R A : Type) : Type := State -> State * Signal R A.

Section Control.
Context {P : Platform}.

Definition ret {R A} (a : A) : M R A := fun s => (s, Normal a).

Definition bind {R A B} (m : M R A) (f : A -> M R B) : M R B :=
  fun s =>
    match m s with
    | (s', Normal a) => f a s'
    | (s', Returned r) => (s', Returned r)
    | (s', Raised e) => (s', Raised e)
    end.

(** [return r] *)
Definition return_ {R A} (r : R) : M R A := fun s => (s, Returned r).

Definition raise {R A} (e : Exn) : M R A := fun s => (s, Raised e).

Definition raise_ValueError {R A} (msg : string) : M R A :=
  raise (mkExn ValueError msg).

(** [if c: body] *)
Definition when {R} (c : bool) (body : M R unit) : M R unit :=
  if c then body else ret tt.

(** [try: body  except ...: handler]: [handler e] is the clause that
    matches [e], or [None] when no clause does. *)
Definition try_except {R A} (body : M R A) (handler : Exn -> option (M R A))
  : M R A :=
  fun s =>
    match body s with
    | (s', Raised e) =>
        match handler e with
        | Some h => h s'
        | None => (s', Raised e)
        end
    | other => other
    end.

(** [except Exception as e: h e] *)
Definition except_Exception {R A} (h : Exn -> M R A) : Exn -> option (M R A) :=
  fun e => if isinstance_Exception e then Some (h e) else None.

(** [try: body  finally: cleanup]: the cleanup runs however the body
    ends, and the body's outcome stands unless the cleanup itself returns
    or raises. *)
Definition try_finally {R A} (body : M R A) (cleanup : M R unit) : M R A :=
  fun s =>
    match body s with
    | (s', sig) =>
        match cleanup s' with
        | (s'', Normal _) => (s'', sig)
        | (s'', Returned r) => (s'', Returned r)
        | (s'', Raised e) => (s'', Raised e)
        end
    end.

(** Calling a function whose body is [body]: the value of the call is
    what the body returned, [None] when it fell off its end. *)
Definition call {R R'} (body : M R unit) : M R' (option R) :=
  fun s =>
    match body s with
    | (s', Normal _) => (s', Normal None)
    | (s', Returned r) => (s', Normal (Some r))
    | (s', Raised e) => (s', Raised e)
    end.

(** [for x in xs: body x] *)
Fixpoint for_each {R A} (xs : list A) (body : A -> M R unit) : M R unit :=
  match xs with
  | [] => ret tt
  | x :: rest => bind (body x) (fun _ => for_each rest body)
  end.

(** Reading a property that may raise. *)
Definition getattr {R A} (v : Exn + A) : M R A :=
  match v with
  | inl e => raise e
  | inr a => ret a
  end.

(** *** The host's operations *)

Definition add_log (m : Msg) (s : State) : State :=
  mkState (world s) (log s ++ [m]) (trace s).

Definition add_event (ev : Event) (s : State) : State :=
  mkState (world s) (log s) (trace s ++ [ev]).

Definition with_world (w : World Store) (s : State) : State :=
  mkState w (log s) (trace s).

Definition AddMessage {R} (msg : string) : M R unit :=
  fun s => (add_log (Message msg) s, Normal tt).
Definition AddWarning {R} (msg : string) : M R unit :=
  fun s => (add_log (Warning msg) s, Normal tt).
Definition AddError {R} (msg : string) : M R unit :=
  fun s => (add_log (Error msg) s, Normal tt).

(** [arcpy.Exists(path)] *)
Definition arcpy_Exists {R} (path : string) : M R bool :=
  fun s => (add_event (EvExists path) s,
            Normal (arc_exists (store (world s)) path)).

(** [os.path.exists(path)] *)
Definition os_path_exists {R} (path : string) : M R bool :=
  fun s => (add_event (EvPathExists path) s,
            Normal (path_exists (store (world s)) path)).

(** [arcpy.Describe(path)] *)
Definition arcpy_Describe {R} (path : string) : M R DescribeObj :=
  fun s =>
    match describe (store (world s)) path with
    | inl e => (add_event (EvDescribe path) s, Raised e)
    | inr d => (add_event (EvDescribe path) s, Normal d)
    end.

(** A call that may change the world or raise; its value is not used. *)
Definition ext {R} (c : ExtCall) : M R unit :=
  fun s =>
    match run_ext c (world s) with
    | (w', None) => (with_world w' (add_event (EvCall c) s), Normal tt)
    | (w', Some e) => (with_world w' (add_event (EvCall c) s), Raised e)
    end.

(** [arcpy.GetMessages(severity)] *)
Definition arcpy_GetMessages {R} (severity : Z) : M R string :=
  fun s => (s, Normal (get_messages (store (world s)) severity)).

(** [xs[i]] *)
Definition index {R A} (xs : list A) (i : nat) : M R A :=
  match nth_error xs i with
  | Some a => ret a
  | None => raise (mkExn IndexError "list index out of range")
  end.

(** [arcpy.env.<name> = value] *)
Definition set_env {R} (f : Env -> Env) : M R unit :=
  fun s => (with_world (mkWorld (f (env (world s))) (store (world s))) s,
            Normal tt).

End Control.

Declare Scope py_scope.
Delimit Scope py_scope with py.
Notation "x <- m ; k" := (bind m (fun x => k))
  (at level 61, m at next level, right associativity) : py_scope.
Notation "m ;; k" := (bind m (fun _ => k))
  (at level 61, right associativity) : py_scope.
Open Scope py_scope.

(** ** The tool *)

(** The local variables of [process_las_dataset] that later stages read. *)
Record Frame : Type := mkFrame { lasd_name : string; project_ws : string }.

(** A tool parameter, as far as [execute] reads it. *)
Record ToolParameter : Type := mkToolParameter { valueAsText : string }.

Section Tool.
Context {P : Platform}.

(** Lines 9-29. *)
Definition check_building_class_code (las_dataset_path : string) : M bool unit :=
  try_except
    (desc <- arcpy_Describe las_dataset_path;
     when (negb (dataType desc =? "LasDataset")%string)
       (AddError ("Input is not a valid LAS dataset: " ++ las_dataset_path);;
        return_ false);;
     AddMessage "LAS Dataset information:";;
     point_count <- getattr (pointCount desc);
     AddMessage ("  - Point count: " ++ str_int point_count);;
     file_count <- getattr (fileCount desc);
     AddMessage ("  - File count: " ++ str_int file_count);;
     return_ true)
    (except_Exception (fun e =>
       AddWarning ("Error checking LAS dataset: " ++ exn_str e);;
       AddMessage "Continuing processing despite validation check failure...";;
       return_ true)).

(** Lines 32-44. *)
Definition validate_roof_forms (project_ws : string) : M bool unit :=
  let possible_names :=
    [os_path_join project_ws "roof_forms";
     os_path_join project_ws "roof_forms_roofform"] in
  for_each possible_names (fun output_path =>
    found <- arcpy_Exists output_path;
    when found
      (AddMessage ("Found roof forms output at: " ++ output_path);;
       return_ true));;
  return_ false.

(** *** [process_las_dataset], block by block *)

(** Lines 52-66: the overwrite flag and the three input paths. *)
Definition validate_input_paths (las_dataset_path home_directory output_directory : string)
  : M bool unit :=
  set_env (set_overwriteOutput true);;
  las_ok <- arcpy_Exists las_dataset_path;
  when (negb las_ok)
    (AddError ("LAS dataset does not exist: " ++ las_dataset_path);;
     return_ false);;
  home_ok <- os_path_exists home_directory;
  when (negb home_ok)
    (AddError ("Home directory does not exist: " ++ home_directory);;
     return_ false);;
  out_ok <- os_path_exists output_directory;
  when (negb out_ok)
    (AddError ("Output directory does not exist: " ++ output_directory);;
     return_ false).

Definition intermediate_ws_of (output_directory : string) : string :=
  os_path_join output_directory "Intermediate.gdb".

Definition lasd_name_of (las_dataset_path : string) : string :=
  fst (os_path_splitext (os_path_basename las_dataset_path)).

Definition gdb_name_of (las_dataset_path : string) : string :=
  lasd_name_of las_dataset_path ++ "_processing.gdb".

Definition project_ws_of (las_dataset_path output_directory : string) : string :=
  os_path_join output_directory (gdb_name_of las_dataset_path).

(** Lines 68-86: the two geodatabases and the workspace environment. *)
Definition create_workspaces (las_dataset_path output_directory : string)
  : M bool unit :=
  let intermediate_ws := os_path_join output_directory "Intermediate.gdb" in
  have_intermediate <- arcpy_Exists intermediate_ws;
  when (negb have_intermediate)
    (ext (CreateFileGDB output_directory "Intermediate"));;
  let lasd_name := fst (os_path_splitext (os_path_basename las_dataset_path)) in
  let gdb_name := lasd_name ++ "_processing.gdb" in
  let project_ws := os_path_join output_directory gdb_name in
  have_project <- arcpy_Exists project_ws;
  when (negb have_project)
    (AddMessage ("Creating new File Geodatabase: " ++ project_ws);;
     ext (CreateFileGDB output_directory gdb_name));;
  set_env (set_workspace project_ws);;
  set_env (set_scratchWorkspace intermediate_ws).

(** Lines 88-91. *)
Definition check_validity (las_dataset_path : string) : M bool unit :=
  valid <- call (check_building_class_code las_dataset_path);
  when (negb (truthy valid))
    (AddError ("Invalid LAS dataset: " ++ las_dataset_path);;
     return_ false).

(** Lines 93-102: the project geodatabase, once more. *)
Definition create_geodatabase (las_dataset_path output_directory : string)
  : M bool Frame :=
  let lasd_name := fst (os_path_splitext (os_path_basename las_dataset_path)) in
  let gdb_name := lasd_name ++ "_processing.gdb" in
  let project_ws := os_path_join output_directory gdb_name in
  have_project <- arcpy_Exists project_ws;
  when (negb have_project)
    (AddMessage ("Creating new File Geodatabase: " ++ project_ws);;
     ext (CreateFileGDB output_directory gdb_name));;
  set_env (set_workspace project_ws);;
  ret (mkFrame lasd_name project_ws).

(** Lines 52-102: everything before the first stage. *)
Definition prepare (las_dataset_path home_directory output_directory : string)
  : M bool Frame :=
  validate_input_paths las_dataset_path home_directory output_directory;;
  create_workspaces las_dataset_path output_directory;;
  check_validity las_dataset_path;;
  create_geodatabase las_dataset_path output_directory.

(** [except Exception as e: arcpy.AddError(f"<prefix>{str(e)}"); return False] *)
Definition stage_handler {A} (prefix : string) : Exn -> option (M bool A) :=
  except_Exception (fun e => AddError (prefix ++ exn_str e);; return_ false).

(** *** Step 1: elevation extraction (lines 107-134) *)

Definition elevation_args (las_dataset_path home_directory project_ws base : string)
  : ElevationArgs :=
  {| el_home_directory := home_directory;
     el_project_ws := project_ws;
     el_input_las_dataset := las_dataset_path;
     el_cell_size := "0.3";
     el_only_ground_plus_class_code := true;
     el_class_code := 6;
     el_output_elevation_raster := base;
     el_classify_noise := false;
     el_minimum_height := "0.5";
     el_maximum_height := "50";
     el_processing_extent := "#";
     el_debug := 1 |}.

(** Lines 108-124; the value is [output_elevation_raster_base]. *)
Definition elevation_invoke (las_dataset_path home_directory : string) (f : Frame)
  : M bool string :=
  ext (ImportScript "scripts.extract_elevation_from_las");;
  let output_elevation_raster_base := os_path_join (project_ws f) "elev" in
  ext (RunExtractElevation
         (elevation_args las_dataset_path home_directory (project_ws f)
            output_elevation_raster_base));;
  ret output_elevation_raster_base.

(** Lines 127-130. *)
Definition elevation_check (output_elevation_raster_base : string) : M bool unit :=
  for_each ["_dtm"; "_dsm"; "_ndsm"] (fun suffix =>
    let raster_path := output_elevation_raster_base ++ suffix in
    found <- arcpy_Exists raster_path;
    when (negb found)
      (raise_ValueError ("Elevation raster not created: " ++ raster_path))).

Definition elevation_body (las_dataset_path home_directory : string) (f : Frame)
  : M bool unit :=
  base <- elevation_invoke las_dataset_path home_directory f;
  elevation_check base.

Definition elevation_stage (las_dataset_path home_directory : string) (f : Frame)
  : M bool unit :=
  try_except (elevation_body las_dataset_path home_directory f)
    (stage_handler "Error in elevation extraction: ").

(** *** Step 2: draft footprint raster (lines 139-174) *)

(** Lines 140-167; the value is [out_mosaic]. *)
Definition mosaic_invoke (las_dataset_path home_directory output_directory : string)
  (f : Frame) : M bool string :=
  ext (ImportScript "scripts.create_building_mosaic");;
  desc <- arcpy_Describe las_dataset_path;
  las_spatial_ref <- getattr (spatialReference desc);
  match las_spatial_ref with
  | None => raise_ValueError "Could not obtain spatial reference from LAS dataset"
  | Some spatial_ref =>
      AddMessage ("Using spatial reference from LAS dataset: " ++ sr_name spatial_ref);;
      set_env (set_cellSize "0.6 Meters");;
      set_env (set_outputCoordinateSystem spatial_ref);;
      let mosaic_folder :=
        os_path_join output_directory (lasd_name f ++ "_mosaic_rasters") in
      have_folder <- os_path_exists mosaic_folder;
      when (negb have_folder) (ext (Makedirs mosaic_folder));;
      let out_mosaic := os_path_join (project_ws f) "building_mosaic" in
      ext (RunBuildingMosaic
             {| mo_home_directory := home_directory;
                mo_project_ws := project_ws f;
                mo_in_lasd := las_dataset_path;
                mo_out_folder := mosaic_folder;
                mo_out_mosaic := out_mosaic;
                mo_spatial_ref := spatial_ref;
                mo_cell_size := "0.6 Meters";
                mo_debug := 1 |});;
      ret out_mosaic
  end.

(** Lines 169-170. *)
Definition mosaic_check (out_mosaic : string) : M bool unit :=
  found <- arcpy_Exists out_mosaic;
  when (negb found) (raise_ValueError "Building mosaic not created").

Definition mosaic_body (las_dataset_path home_directory output_directory : string)
  (f : Frame) : M bool string :=
  out_mosaic <- mosaic_invoke las_dataset_path home_directory output_directory f;
  mosaic_check out_mosaic;;
  ret out_mosaic.

Definition mosaic_stage (las_dataset_path home_directory output_directory : string)
  (f : Frame) : M bool string :=
  try_except (mosaic_body las_dataset_path home_directory output_directory f)
    (stage_handler "Error in building mosaic creation: ").

(** *** Step 3: focal statistics (lines 179-203) *)

(** Lines 180-194; the value is [out_focal]. *)
Definition focal_invoke (f : Frame) (out_mosaic : string) : M bool string :=
  AddMessage "Running Focal Statistics...";;
  let focal_input := out_mosaic in
  let out_focal := os_path_join (project_ws f) "focal_mosaic" in
  have_input <- arcpy_Exists focal_input;
  when (negb have_input)
    (raise_ValueError
       ("Input raster for focal statistics does not exist: " ++ focal_input));;
  ext (FocalStatistics
         {| fo_in_raster := focal_input;
            fo_neighborhood := (3, 3, "CELL");
            fo_statistics_type := "MAJORITY";
            fo_ignore_nodata := "DATA" |});;
  ext (SaveRaster out_focal);;
  ret out_focal.

(** Lines 196-199. *)
Definition focal_check (out_focal : string) : M bool unit :=
  found <- arcpy_Exists out_focal;
  when (negb found) (raise_ValueError "Focal statistics output not created");;
  AddMessage "Focal Statistics completed successfully".

Definition focal_body (f : Frame) (out_mosaic : string) : M bool unit :=
  out_focal <- focal_invoke f out_mosaic;
  focal_check out_focal.

Definition focal_stage (f : Frame) (out_mosaic : string) : M bool unit :=
  try_except (focal_body f out_mosaic) (stage_handler "Error in Focal Statistics: ").

(** *** Step 4: footprints from the raster (lines 208-249) *)

(** Lines 209-240; the value is [output_poly]. *)
Definition footprint_invoke (home_directory : string) (f : Frame) : M bool string :=
  ext (ImportScript "scripts.footprints_from_raster");;
  AddMessage "Creating footprints from raster...";;
  let in_focal_raster := os_path_join (project_ws f) "focal_mosaic" in
  let output_poly := os_path_join (project_ws f) "final_footprints" in
  have_input <- arcpy_Exists in_focal_raster;
  when (negb have_input)
    (raise_ValueError ("Input focal raster does not exist: " ++ in_focal_raster));;
  ext (RunFootprintsFromRaster
         {| fp_home_directory := home_directory;
            fp_project_ws := project_ws f;
            fp_in_raster := in_focal_raster;
            fp_min_area := "32 SquareMeters";
            fp_split_features := EmptyString;
            fp_simplify_tolerance := "1.5 Meters";
            fp_output_poly := output_poly;
            fp_reg_circles := true;
            fp_circle_min_area := "4000 SquareFeet";
            fp_min_compactness := (85 # 100)%Q;
            fp_circle_tolerance := "10 Feet";
            fp_lg_reg_method := "ANY_ANGLE";
            fp_lg_min_area := "25000 SquareFeet";
            fp_lg_tolerance := "2 Feet";
            fp_med_reg_method := "RIGHT_ANGLES_AND_DIAGONALS";
            fp_med_min_area := "5000 SquareFeet";
            fp_med_tolerance := "4 Feet";
            fp_sm_reg_method := "RIGHT_ANGLES";
            fp_sm_tolerance := "4 Feet";
            fp_debug := 1 |});;
  ret output_poly.

(** Lines 242-245. *)
Definition footprint_check (output_poly : string) : M bool unit :=
  found <- arcpy_Exists output_poly;
  when (negb found) (raise_ValueError "Building footprints not created");;
  AddMessage "Building footprints created successfully".

Definition footprint_body (home_directory : string) (f : Frame) : M bool string :=
  output_poly <- footprint_invoke home_directory f;
  footprint_check output_poly;;
  ret output_poly.

Definition footprint_stage (home_directory : string) (f : Frame) : M bool string :=
  try_except (footprint_body home_directory f)
    (stage_handler "Error in footprints creation: ").

(** *** Step 5: roof segmentation (lines 254-292) *)

(** Lines 255-282; the value is [roof_segments]. *)
Definition segmentation_invoke (home_directory : string) (f : Frame)
  (output_poly : string) : M bool string :=
  ext (ImportScript "scripts.roof_part_segmentation");;
  AddMessage "Starting roof segmentation process...";;
  let roof_segments_folder := os_path_join home_directory "roof_forms" in
  have_folder <- os_path_exists roof_segments_folder;
  when (negb have_folder) (ext (Makedirs roof_segments_folder));;
  let dsm_path := os_path_join (project_ws f) "elev_dsm" in
  let roof_segments := os_path_join (project_ws f) "roof_segments" in
  have_dsm <- arcpy_Exists dsm_path;
  when (negb have_dsm)
    (raise_ValueError ("DSM raster does not exist: " ++ dsm_path));;
  ext (RunSegmentRoof
         {| sg_home_directory := home_directory;
            sg_project_ws := project_ws f;
            sg_features := output_poly;
            sg_dsm := dsm_path;
            sg_spectral_detail := "12";
            sg_spatial_detail := "12";
            sg_minimum_segment_size := 555;
            sg_regularization_tolerance := "3";
            sg_flat_only := false;
            sg_min_slope := 10;
            sg_output_segments_ui := roof_segments;
            sg_debug := 1 |});;
  ret roof_segments.

(** Lines 284-288. *)
Definition segmentation_check (roof_segments : string) : M bool unit :=
  let segmented_output := roof_segments ++ "_segmented" in
  found <- arcpy_Exists segmented_output;
  when (negb found) (raise_ValueError "Roof segmentation failed");;
  AddMessage "Roof segmentation completed successfully".

Definition segmentation_body (home_directory : string) (f : Frame)
  (output_poly : string) : M bool unit :=
  roof_segments <- segmentation_invoke home_directory f output_poly;
  segmentation_check roof_segments.

Definition segmentation_stage (home_directory : string) (f : Frame)
  (output_poly : string) : M bool unit :=
  try_except (segmentation_body home_directory f output_poly)
    (stage_handler "Error in roof segmentation: ").

(** *** Step 6: roof forms (lines 297-342) *)

(** Lines 298-332. *)
Definition roofform_invoke (home_directory : string) (f : Frame) : M bool unit :=
  ext (ImportScript "scripts.extract_roof_form");;
  AddMessage "Starting roof form extraction...";;
  let segmented_roofs := os_path_join (project_ws f) "roof_segments_segmented" in
  let dsm_path := os_path_join (project_ws f) "elev_dsm" in
  let dtm_path := os_path_join (project_ws f) "elev_dtm" in
  let ndsm_path := os_path_join (project_ws f) "elev_ndsm" in
  let output_roofforms := os_path_join (project_ws f) "roof_forms" in
  have_segments <- arcpy_Exists segmented_roofs;
  when (negb have_segments)
    (raise_ValueError ("Segmented roofs file not found: " ++ segmented_roofs));;
  have_dsm <- arcpy_Exists dsm_path;
  when (negb have_dsm) (raise_ValueError ("DSM file not found: " ++ dsm_path));;
  have_dtm <- arcpy_Exists dtm_path;
  when (negb have_dtm) (raise_ValueError ("DTM file not found: " ++ dtm_path));;
  have_ndsm <- arcpy_Exists ndsm_path;
  when (negb have_ndsm) (raise_ValueError ("nDSM file not found: " ++ ndsm_path));;
  ext (RunExtractRoofForm
         {| rf_home_directory := home_directory;
            rf_project_ws := project_ws f;
            rf_buildings_layer := segmented_roofs;
            rf_dsm := dsm_path;
            rf_dtm := dtm_path;
            rf_ndsm := ndsm_path;
            rf_flat_roofs := false;
            rf_min_flat_roof_area := "23";
            rf_min_slope_roof_area := "7";
            rf_min_roof_height := "2.5";
            rf_output_buildings := output_roofforms;
            rf_simplify_buildings := "true";
            rf_simplify_tolerance := "0.3";
            rf_debug := 1 |}).

(** Lines 334-338. *)
Definition roofform_check (f : Frame) : M bool unit :=
  found <- call (validate_roof_forms (project_ws f));
  when (negb (truthy found)) (raise_ValueError "Roof form extraction failed");;
  AddMessage "Roof form extraction completed successfully";;
  return_ true.

Definition roofform_body (home_directory : string) (f : Frame) : M bool unit :=
  roofform_invoke home_directory f;;
  roofform_check f.

Definition roofform_stage (home_directory : string) (f : Frame) : M bool unit :=
  try_except (roofform_body home_directory f)
    (stage_handler "Error in roof form extraction: ").

(** *** The function (lines 47-351) *)

(** Lines 345-351: the two outer [except] clauses. *)
Definition outer_handler (e : Exn) : option (M bool unit) :=
  if isinstance_ExecuteError e then
    Some (AddError "ArcPy error in process:";;
          messages <- arcpy_GetMessages 2;
          AddError messages;;
          return_ false)
  else if isinstance_Exception e then
    Some (AddError ("An unexpected error occurred: " ++ exn_str e);;
          return_ false)
  else None.

Definition pipeline (las_dataset_path home_directory output_directory : string)
  : M bool unit :=
  f <- prepare las_dataset_path home_directory output_directory;
  elevation_stage las_dataset_path home_directory f;;
  out_mosaic <- mosaic_stage las_dataset_path home_directory output_directory f;
  focal_stage f out_mosaic;;
  output_poly <- footprint_stage home_directory f;
  segmentation_stage home_directory f output_poly;;
  roofform_stage home_directory f.

Definition process_las_dataset
  (las_dataset_path home_directory output_directory : string) : M bool unit :=
  try_except (pipeline las_dataset_path home_directory output_directory)
    outer_handler.

(** What a caller of [process_las_dataset] gets. *)
Definition run (las_dataset_path home_directory output_directory : string)
  : State -> State * Signal unit (option bool) :=
  call (process_las_dataset las_dataset_path home_directory output_directory).

End Tool.

(** *** [BuildingProcessor.execute] (lines 458-483) *)

Module BuildingProcessor.
Section Methods.
Context {P : Platform}.

Definition execute (parameters : list ToolParameter) (messages : unit)
  : M unit unit :=
  try_finally
    (try_except
       (p0 <- index parameters 0;
        let las_dataset := valueAsText p0 in
        p1 <- index parameters 1;
        let home_directory := valueAsText p1 in
        p2 <- index parameters 2;
        let output_directory := valueAsText p2 in
        success <- call (process_las_dataset las_dataset home_directory
                           output_directory);
        if truthy success
        then AddMessage "Processing completed successfully"
        else AddError "Processing failed - check messages above")
       (fun e =>
          if isinstance_ExecuteError e then
            Some (messages <- arcpy_GetMessages 2; AddError messages)
          else if isinstance_Exception e then
            Some (AddError ("An unexpected error occurred: " ++ exn_str e))
          else None))
    (try_except (ext (CheckInExtension "Spatial")) (fun _ => Some (ret tt))).

End Methods.
End BuildingProcessor.

(** ** Vocabulary of the properties *)

Inductive Stage : Type :=
| Elevation | Mosaic | Focal | Footprints | Segmentation | RoofForms.

Definition stage_rank (k : Stage) : nat :=
  match k with
  | Elevation => 1
  | Mosaic => 2
  | Focal => 3
  | Footprints => 4
  | Segmentation => 5
  | RoofForms => 6
  end%nat.

(** The stage whose script a module name belongs to. *)
Definition stage_of_module (module : string) : option Stage :=
  if (module =? "scripts.extract_elevation_from_las")%string then Some Elevation
  else if (module =? "scripts.create_building_mosaic")%string then Some Mosaic
  else if (module =? "scripts.footprints_from_raster")%string then Some Footprints
  else if (module =? "scripts.roof_part_segmentation")%string then Some Segmentation
  else if (module =? "scripts.extract_roof_form")%string then Some RoofForms
  else None.

(** The stage a call belongs to: importing or running a stage's routine. *)
Definition stage_of_call (c : ExtCall) : option Stage :=
  match c with
  | ImportScript module => stage_of_module module
  | RunExtractElevation _ => Some Elevation
  | RunBuildingMosaic _ => Some Mosaic
  | FocalStatistics _ => Some Focal
  | SaveRaster _ => Some Focal
  | RunFootprintsFromRaster _ => Some Footprints
  | RunSegmentRoof _ => Some Segmentation
  | RunExtractRoofForm _ => Some RoofForms
  | CreateFileGDB _ _ => None
  | Makedirs _ => None
  | CheckInExtension _ => None
  end.

Definition stage_of_event (ev : Event) : option Stage :=
  match ev with
  | EvCall c => stage_of_call c
  | _ => None
  end.

(** [ev] is no work of a stage after [k]. *)
Definition not_after (k : Stage) (ev : Event) : Prop :=
  match stage_of_event ev with
  | Some j => (stage_rank j <= stage_rank k)%nat
  | None => True
  end.

(** [ev] is no work of any stage. *)
Definition no_stage (ev : Event) : Prop := stage_of_event ev = None.

(** [ev] asks whether something exists and nothing else. *)
Definition is_probe (ev : Event) : Prop :=
  match ev with
  | EvExists _ => True
  | _ => False
  end.

(** If [ev] runs the elevation routine, it does so with the three literals
    of the source. *)
Definition uses_fixed_constants (ev : Event) : Prop :=
  match ev with
  | EvCall (RunExtractElevation a) =>
      el_cell_size a = "0.3" /\ el_class_code a = 6 /\ el_minimum_height a = "0.5"
  | _ => True
  end.

(** A creation of a geodatabase. *)
Definition is_workspace_creation (ev : Event) : Prop :=
  match ev with
  | EvCall (CreateFileGDB _ _) => True
  | _ => False
  end.

Section Reach.
Context {P : Platform}.
Variables las_dataset_path home_directory output_directory : string.

(** The part of [pipeline] that runs before each stage; its value is what
    the stage reads of the local variables. *)
Definition upto_elevation : M bool Frame :=
  prepare las_dataset_path home_directory output_directory.

Definition upto_mosaic : M bool Frame :=
  f <- upto_elevation;
  elevation_stage las_dataset_path home_directory f;;
  ret f.

Definition upto_focal : M bool (Frame * string) :=
  f <- upto_mosaic;
  out_mosaic <- mosaic_stage las_dataset_path home_directory output_directory f;
  ret (f, out_mosaic).

Definition upto_footprint : M bool Frame :=
  fm <- upto_focal;
  focal_stage (fst fm) (snd fm);;
  ret (fst fm).

Definition upto_segmentation : M bool (Frame * string) :=
  f <- upto_footprint;
  output_poly <- footprint_stage home_directory f;
  ret (f, output_poly).

Definition upto_roofform : M bool Frame :=
  fp <- upto_segmentation;
  segmentation_stage home_directory (fst fp) (snd fp);;
  ret (fst fp).

(** The part of [pipeline] before the validity check of the dataset. *)
Definition upto_check_validity : M bool unit :=
  validate_input_paths las_dataset_path home_directory output_directory;;
  create_workspaces las_dataset_path output_directory.

(** A failure inside a stage ends the run there: whenever the run reaches
    the stage in state [s] and the stage's block raises [e] in state [s'],
    the run returns [False] in [s'] with one more message, the error
    that starts with the stage's [prefix], and up to there no later stage
    has been asked anything. *)
Definition failure_contained {X A} (k : Stage) (prefix : string)
  (reach : M bool X) (body : X -> M bool A) : Prop :=
  forall s0 s x s' e,
    reach s0 = (s, Normal x) ->
    body x s = (s', Raised e) ->
    isinstance_Exception e = true ->
    run las_dataset_path home_directory output_directory s0
      = (add_log (Error (prefix ++ exn_str e)) s', Normal (Some false))
    /\ exists evs, trace s' = (trace s0 ++ evs)%list /\ Forall (not_after k) evs.

(** What no stage contains: whenever the run reaches the stage in state
    [s] and the stage's block raises, in state [s'], an [e] that is not
    of class [Exception], no handler takes it: the run ends in [s'],
    with nothing logged for it, and raises [e] to its caller. *)
Definition failure_escapes {X A} (reach : M bool X) (body : X -> M bool A) : Prop :=
  forall s0 s x s' e,
    reach s0 = (s, Normal x) ->
    body x s = (s', Raised e) ->
    isinstance_Exception e = false ->
    run las_dataset_path home_directory output_directory s0 = (s', Raised e).

(** The three rasters the elevation routine is to write. *)
Definition elevation_rasters (base : string) : list string :=
  [(base ++ "_dtm")%string; (base ++ "_dsm")%string; (base ++ "_ndsm")%string].

(** A block that ended without failing: it ran to its end or returned
    [True]. *)
Definition passed {A} (sig : Signal bool A) : Prop :=
  match sig with
  | Normal _ => True
  | Returned b => b = true
  | Raised _ => False
  end.

(** An output check: from [s'] the block [m] only asks whether things
    exist, leaves the world alone, and passes when [ok] and raises a
    [ValueError], with nothing logged, when not. *)
Definition checked {A} (m : M bool A) (ok : bool) (s' : State) : Prop :=
  exists s'' probes,
    world s'' = world s'
    /\ trace s'' = (trace s' ++ probes)%list
    /\ Forall is_probe probes
    /\ if ok then exists sig, m s' = (s'', sig) /\ passed sig
       else log s'' = log s'
            /\ exists msg, m s' = (s'', Raised (mkExn ValueError msg)).

(** The output of a stage decides: whenever the run reaches the stage in
    [s] and the stage's routine has returned without error in [s'], the
    stage passes if its output is [present] in the store of [s'] and
    otherwise the run returns [False] with the stage's error; in between
    the host is only asked whether things exist. *)
Definition output_decides {X V A} (prefix : string) (reach : M bool X)
  (invoke : X -> M bool V) (stage : X -> M bool A)
  (present : X -> V -> Store -> bool) : Prop :=
  forall s0 s x s' v,
    reach s0 = (s, Normal x) ->
    invoke x s = (s', Normal v) ->
    exists sf probes,
      world sf = world s'
      /\ trace sf = (trace s' ++ probes)%list
      /\ Forall is_probe probes
      /\ if present x v (store (world s')) then
           exists sig, stage x s = (sf, sig) /\ passed sig
         else
           run las_dataset_path home_directory output_directory s0
           = (sf, Normal (Some false))
           /\ exists msg, log sf = (log s' ++ [Error (prefix ++ msg)])%list.

End Reach.

(** What a block asks of the host satisfies [Q]: however the block ends,
    it only appends to the trace, and every request it appends satisfies [Q]. *)
Definition emits {P : Platform} {R A} (Q : Event -> Prop) (m : M R A) : Prop :=
  forall s s' sig,
    m s = (s', sig) ->
    exists evs, trace s' = (trace s ++ evs)%list /\ Forall Q evs.

(** Creating the geodatabase [path], which is [name] in [folder], unless it
    is there: the world afterwards and the exception, if any. *)
Definition ensure_gdb {P : Platform} (path folder name : string) (w : World Store)
  : World Store * option Exn :=
  if arc_exists (store w) path then (w, None)
  else run_ext (CreateFileGDB folder name) w.

(** What [ensure_gdb] asks of the host. *)
Definition ensure_events {P : Platform} (path folder name : string) (w : World Store)
  : list Event :=
  EvExists path
  :: (if arc_exists (store w) path then [] else [EvCall (CreateFileGDB folder name)]).

(** ** A test host

    A host that computes: a catalog of existing datasets, a list of existing
    folders, and scripts that write what they are asked to write, except
    for the outputs listed in [omitted] and the calls listed in [faults]. *)

Module Fake.

Record disk : Type := mkDisk {
  catalog : list string;                  (* what [arcpy.Exists] finds *)
  folders : list string;                  (* what [os.path.exists] finds *)
  described : list (string * DescribeObj);
  omitted : list string;                  (* outputs the scripts do not write *)
  alternate_roof_name : bool;             (* roof forms go to [<name>_roofform] *)
  faults : list (string * Exn)            (* calls that raise, by name *)
}.

Definition mem (x : string) (xs : list string) : bool :=
  existsb (String.eqb x) xs.

Fixpoint assoc {A} (x : string) (xs : list (string * A)) : option A :=
  match xs with
  | [] => None
  | (y, a) :: rest => if (x =? y)%string then Some a else assoc x rest
  end.

(** Split at the last occurrence of [c]. *)
Fixpoint rsplit (c : Ascii.ascii) (s : string) : option (string * string) :=
  match s with
  | EmptyString => None
  | String a rest =>
      match rsplit c rest with
      | Some (l, r) => Some (String a l, r)
      | None => if Ascii.eqb a c then Some (EmptyString, rest) else None
      end
  end.

Definition join (a b : string) : string := a ++ "/" ++ b.

Definition basename (p : string) : string :=
  match rsplit "/"%char p with
  | Some (_, r) => r
  | None => p
  end.

Definition splitext (p : string) : string * string :=
  match rsplit "."%char p with
  | Some (EmptyString, _) => (p, EmptyString)
  | Some (l, r) => (l, "." ++ r)
  | None => (p, EmptyString)
  end.

Definition call_name (c : ExtCall) : string :=
  match c with
  | CreateFileGDB _ _ => "CreateFileGDB"
  | Makedirs _ => "makedirs"
  | ImportScript module => module
  | RunExtractElevation _ => "run_extract_elevation"
  | RunBuildingMosaic _ => "run_building_mosaic"
  | FocalStatistics _ => "FocalStatistics"
  | SaveRaster _ => "save"
  | RunFootprintsFromRaster _ => "run_footprints_from_raster"
  | RunSegmentRoof _ => "run_segment_roof"
  | RunExtractRoofForm _ => "run_extract_roof_form"
  | CheckInExtension _ => "CheckInExtension"
  end.

(** The datasets a call writes when it works. *)
Definition written (alt : bool) (c : ExtCall) : list string :=
  match c with
  | CreateFileGDB folder name => [join folder name; join folder (name ++ ".gdb")]
  | RunExtractElevation a =>
      [el_output_elevation_raster a ++ "_dtm";
       el_output_elevation_raster a ++ "_dsm";
       el_output_elevation_raster a ++ "_ndsm"]
  | RunBuildingMosaic a => [mo_out_mosaic a]
  | SaveRaster path => [path]
  | RunFootprintsFromRaster a => [fp_output_poly a]
  | RunSegmentRoof a => [sg_output_segments_ui a ++ "_segmented"]
  | RunExtractRoofForm a =>
      if alt then [rf_output_buildings a ++ "_roofform"]
      else [rf_output_buildings a]
  | _ => []
  end.

Definition made (c : ExtCall) : list string :=
  match c with
  | Makedirs path => [path]
  | _ => []
  end.

Definition run (c : ExtCall) (w : World disk) : World disk * option Exn :=
  match assoc (call_name c) (faults (store w)) with
  | Some e => (w, Some e)
  | None =>
      let st := store w in
      let fresh :=
        filter (fun p => negb (mem p (omitted st))) (written (alternate_roof_name st) c) in
      (mkWorld (env w)
         (mkDisk (catalog st ++ fresh) (folders st ++ made c) (described st)
            (omitted st) (alternate_roof_name st) (faults st)),
       None)
  end.

Definition describe_in (st : disk) (path : string) : Exn + DescribeObj :=
  match assoc path (described st) with
  | Some d => inr d
  | None => inl (mkExn OtherException ("cannot describe " ++ path))
  end.

#[export] Instance platform : Platform := {|
  Store := disk;
  arc_exists st path := mem path (catalog st);
  path_exists st path := mem path (folders st);
  describe := describe_in;
  run_ext := run;
  get_messages _ _ := EmptyString;
  os_path_join := join;
  os_path_basename := basename;
  os_path_splitext := splitext
|}.

Definition empty_env : Env := mkEnv false None None None None.

Definition las : DescribeObj :=
  mkDescribe "LasDataset" (inr 1000) (inr 2) (inr (Some (mkSR "NAD_1983_UTM_Zone_18N"))).

(** A state with the dataset ["/data/city.lasd"] described by [d], the
    folders ["/home"] and ["/out"], and nothing logged or asked yet. *)
Definition initial (d : DescribeObj) (omit : list string) (alt : bool)
  (flt : list (string * Exn)) : State :=
  mkState
    (mkWorld empty_env
       (mkDisk ["/data/city.lasd"] ["/home"; "/out"] [("/data/city.lasd", d)]
          omit alt flt))
    [] [].

Definition good : State := initial las [] false [].

(** The dataset is a feature class. *)
Definition wrong_type : State :=
  initial (mkDescribe "FeatureClass" (inl (mkExn OtherException "no pointCount"))
             (inl (mkExn OtherException "no fileCount")) (inr None))
    [] false [].

(** The roof-form script writes [roof_forms_roofform]. *)
Definition alternate : State := initial las [] true [].

(** The roof-form script writes nothing. *)
Definition no_roof_forms : State :=
  initial las ["/out/city_processing.gdb/roof_forms"] false [].

Definition frame : Frame := mkFrame "city" "/out/city_processing.gdb".

(** The state of a good run when the segmentation routine has returned. *)
Definition segmented : State :=
  fst (segmentation_invoke "/home" frame "/out/city_processing.gdb/final_footprints"
         (fst (upto_segmentation "/data/city.lasd" "/home" "/out" good))).

(** The run reaches the mosaic stage with no spatial reference to find. *)
Definition no_spatial_reference : State :=
  initial (mkDescribe "LasDataset" (inr 1000) (inr 2) (inr None)) [] false [].

(** The mosaic script writes nothing and reports no error. *)
Definition no_mosaic : State :=
  initial las ["/out/city_processing.gdb/building_mosaic"] false [].

(** The three required parameters followed by two choices of the optional
    ones. *)
Definition parameters (cell_size class_code min_height : string) : list ToolParameter :=
  [mkToolParameter "/data/city.lasd"; mkToolParameter "/home"; mkToolParameter "/out";
   mkToolParameter cell_size; mkToolParameter class_code; mkToolParameter min_height].

(** The catalog does not hold the dataset. *)
Definition no_dataset : State :=
  mkState
    (mkWorld empty_env (mkDisk [] ["/home"; "/out"] [] [] false []))
    [] [].

(** The elevation script writes [_dtm] and [_dsm] but not [_ndsm]. *)
Definition no_ndsm : State :=
  initial las ["/out/city_processing.gdb/elev_ndsm"] false [].

End Fake.

(** ** More vocabulary *)

(** The first exception met while the dataset is described and its counts
    are read, as [check_building_class_code] does it. *)
Definition check_failure {P : Platform} (st : Store) (las_dataset_path : string)
  : option Exn :=
  match describe st las_dataset_path with
  | inl e => Some e
  | inr d =>
      if (dataType d =? "LasDataset")%string then
        match pointCount d with
        | inl e => Some e
        | inr _ =>
            match fileCount d with
            | inl e => Some e
            | inr _ => None
            end
        end
      else None
  end.

(** The local variables the stages read, as [create_geodatabase] leaves
    them. *)
Definition frame_of {P : Platform} (las_dataset_path output_directory : string)
  : Frame :=
  mkFrame (lasd_name_of las_dataset_path)
    (project_ws_of las_dataset_path output_directory).

(** Whenever the block executes [return r], [Q] holds of the state and
    of [r]. *)
Definition returns {P : Platform} {A} (Q : State -> bool -> Prop) (m : M bool A)
  : Prop :=
  forall s s' r, m s = (s', Returned r) -> Q s' r.

(** Whenever the block runs to its end, [V] holds of its value. *)
Definition valued {P : Platform} {R A} (V : A -> Prop) (m : M R A) : Prop :=
  forall s s' a, m s = (s', Normal a) -> V a.

(** The last message of the log reports the outcome [r]. *)
Definition ends_with_report (r : bool) (l : list Msg) : Prop :=
  exists l0,
    if r then l = (l0 ++ [Message "Roof form extraction completed successfully"])%list
    else exists msg, l = (l0 ++ [Error msg])%list.

(** If [ev] creates a geodatabase or a folder, it is one of the four the
    tool is written to create. *)
Definition creates_only {P : Platform}
  (las_dataset_path home_directory output_directory : string) (ev : Event) : Prop :=
  match ev with
  | EvCall (CreateFileGDB folder name) =>
      folder = output_directory
      /\ (name = "Intermediate" \/ name = gdb_name_of las_dataset_path)
  | EvCall (Makedirs path) =>
      path = os_path_join output_directory
               (lasd_name_of las_dataset_path ++ "_mosaic_rasters")
      \/ path = os_path_join home_directory "roof_forms"
  | _ => True
  end.

(** The stage whose routine [ev] runs. *)
Definition routine_stage (ev : Event) : option Stage :=
  match ev with
  | EvCall (RunExtractElevation _) => Some Elevation
  | EvCall (RunBuildingMosaic _) => Some Mosaic
  | EvCall (FocalStatistics _) => Some Focal
  | EvCall (RunFootprintsFromRaster _) => Some Footprints
  | EvCall (RunSegmentRoof _) => Some Segmentation
  | EvCall (RunExtractRoofForm _) => Some RoofForms
  | _ => None
  end.

(** The routines run in a trace, in order. *)
Fixpoint work (evs : list Event) : list Stage :=
  match evs with
  | [] => []
  | ev :: rest =>
      match routine_stage ev with
      | Some k => k :: work rest
      | None => work rest
      end
  end.

Definition stage_order : list Stage :=
  [Elevation; Mosaic; Focal; Footprints; Segmentation; RoofForms].

(** A block that ended the run without success: it returned [False] or
    raised. *)
Definition stops {A} (sig : Signal bool A) : Prop :=
  match sig with
  | Normal _ => False
  | Returned r => r = false
  | Raised _ => True
  end.

(** More states of the test host. *)
Module Scenario.

(** The home directory is missing. *)
Definition no_home : State :=
  mkState (P := Fake.platform)
    (mkWorld Fake.empty_env
       (Fake.mkDisk ["/data/city.lasd"] ["/out"]
          [("/data/city.lasd", Fake.las)] [] false []))
    [] [].

(** The dataset is there and cannot be described. *)
Definition undescribed : State :=
  mkState (P := Fake.platform)
    (mkWorld Fake.empty_env
       (Fake.mkDisk ["/data/city.lasd"] ["/home"; "/out"] [] [] false []))
    [] [].

(** The engine cannot create a geodatabase. *)
Definition no_gdb : State :=
  Fake.initial Fake.las [] false
    [("CreateFileGDB", mkExn ExecuteError "ERROR 000732")].

(** The footprint routine exits the interpreter: what it raises is a
    [SystemExit], which is not of class [Exception]. *)
Definition interrupted : State :=
  Fake.initial Fake.las [] false
    [("run_footprints_from_raster", mkExn NonException "SystemExit")].

End Scenario.

(** What a stage has done when it ends: its routine has run unless the
    stage stopped the run before, and only the last stage ends the run
    with success. *)
Definition stage_did {A} (k : Stage) (sig : Signal bool A) (evs : list Event) : Prop :=
  match sig with
  | Normal _ => work evs = [k]
  | Returned true => work evs = [k] /\ k = RoofForms
  | _ => work evs = [] \/ work evs = [k]
  end.

(** The inputs the roof-form stage looks for, in order, each with the
    text its absence is reported with. *)
Definition roofform_inputs {P : Platform} (project_ws : string)
  : list (string * string) :=
  [("Segmented roofs file not found: ",
    os_path_join project_ws "roof_segments_segmented");
   ("DSM file not found: ", os_path_join project_ws "elev_dsm");
   ("DTM file not found: ", os_path_join project_ws "elev_dtm");
   ("nDSM file not found: ", os_path_join project_ws "elev_ndsm")].

Module Scenario2.

(** A state in which the roof-form stage finds the segments and the DSM
    and no DTM. *)
Definition no_dtm_left : State :=
  mkState (P := Fake.platform)
    (mkWorld Fake.empty_env
       (Fake.mkDisk ["/out/city_processing.gdb/roof_segments_segmented";
                     "/out/city_processing.gdb/elev_dsm"]
          ["/home"; "/out"] [] [] false []))
    [] [].

End Scenario2.

(** ** The other methods of the tool class *)

(** The licence calls of the engine: [arcpy.CheckExtension] answers with
    a status or raises; [arcpy.CheckOutExtension] may change the world
    and may raise. *)
Class Licensing {P : Platform} : Type := {
  check_extension : string -> World Store -> Exn + string;
  check_out_extension : string -> World Store -> World Store * option Exn
}.

(** The message a parameter carries after validation. *)
Inductive ParamMessage : Type :=
| NoMessage
| ErrorMessage (text : string)        (* [setErrorMessage] *)
| WarningMessage (text : string).     (* [setWarningMessage] *)

(** A parameter as [updateMessages] sees it: [param_value] is [None] for a
    parameter without a value and otherwise holds [valueAsText]. *)
Record ParameterObj : Type := mkParameterObj {
  param_value : option string;
  param_message : ParamMessage
}.

(** [parameters[i].setErrorMessage(..)] and [setWarningMessage]: the
    parameter at [i] gets the message, the others stay. *)
Fixpoint setMessage (i : nat) (m : ParamMessage) (parameters : list ParameterObj)
  : list ParameterObj :=
  match parameters, i with
  | [], _ => []
  | p :: rest, O => mkParameterObj (param_value p) m :: rest
  | p :: rest, S j => p :: setMessage j m rest
  end.

Definition is_error (m : ParamMessage) : bool :=
  match m with
  | ErrorMessage _ => true
  | _ => false
  end.

Section ToolClass.
Context {P : Platform} {L : Licensing}.

(** [arcpy.CheckExtension(name)] *)
Definition arcpy_CheckExtension {R} (name : string) : M R string :=
  fun s =>
    match check_extension name (world s) with
    | inl e => (s, Raised e)
    | inr status => (s, Normal status)
    end.

(** [arcpy.CheckOutExtension(name)] *)
Definition arcpy_CheckOutExtension {R} (name : string) : M R unit :=
  fun s =>
    match check_out_extension name (world s) with
    | (w', None) => (with_world w' s, Normal tt)
    | (w', Some e) => (with_world w' s, Raised e)
    end.

(** [BuildingProcessor.isLicensed] (lines 420-429). *)
Definition isLicensed : M bool unit :=
  try_except
    (status <- arcpy_CheckExtension "Spatial";
     if (status =? "Available")%string
     then arcpy_CheckOutExtension "Spatial"
     else raise (mkExn ExecuteError "Spatial Analyst license is unavailable"))
    (fun _ => Some (return_ false));;
  return_ true.

(** [BuildingProcessor.updateMessages] (lines 435-456).  The method
    changes the parameter objects in place; here the list it leaves is
    the value of the block. *)
Definition updateMessages (parameters : list ParameterObj)
  : M unit (list ParameterObj) :=
  p0 <- index parameters 0;
  parameters <-
    match param_value p0 with
    | Some text =>
        found <- arcpy_Exists text;
        if negb found
        then ret (setMessage 0 (ErrorMessage "LAS dataset does not exist") parameters)
        else ret parameters
    | None => ret parameters
    end;
  p1 <- index parameters 1;
  parameters <-
    match param_value p1 with
    | Some text =>
        found <- os_path_exists text;
        if negb found
        then ret (setMessage 1 (ErrorMessage "Home directory does not exist") parameters)
        else
          has_scripts <- os_path_exists (os_path_join text "scripts");
          if negb has_scripts
          then ret (setMessage 1
                      (WarningMessage "No 'scripts' folder found in home directory")
                      parameters)
          else ret parameters
    | None => ret parameters
    end;
  p2 <- index parameters 2;
  match param_value p2 with
  | Some text =>
      found <- os_path_exists text;
      if negb found
      then
        try_except (ext (Makedirs text);; ret parameters)
          (fun _ =>
             Some (ret (setMessage 2 (ErrorMessage "Cannot create output directory")
                          parameters)))
      else ret parameters
  | None => ret parameters
  end.

End ToolClass.

(** What [updateMessages] may ask of the host for the parameters it is
    given: whether the dataset exists, whether the home directory, its
    [scripts] folder and the output directory exist, and the creation of
    the output directory. *)
Definition validation_request {P : Platform} (parameters : list ParameterObj)
  (ev : Event) : Prop :=
  match ev with
  | EvExists path => option_map param_value (nth_error parameters 0) = Some (Some path)
  | EvPathExists path =>
      option_map param_value (nth_error parameters 1) = Some (Some path)
      \/ (exists home, option_map param_value (nth_error parameters 1) = Some (Some home)
                       /\ path = os_path_join home "scripts")
      \/ option_map param_value (nth_error parameters 2) = Some (Some path)
  | EvCall (Makedirs path) =>
      option_map param_value (nth_error parameters 2) = Some (Some path)
  | _ => False
  end.

Module FakeLicence.

(** The extension is available unless it is listed in [omitted]; the
    calls raise when they are listed in [faults]. *)
Definition check (name : string) (w : World Fake.disk) : Exn + string :=
  match Fake.assoc "CheckExtension" (Fake.faults (store w)) with
  | Some e => inl e
  | None =>
      inr (if Fake.mem name (Fake.omitted (store w))
           then "Unavailable" else "Available")
  end.

Definition check_out (name : string) (w : World Fake.disk)
  : World Fake.disk * option Exn :=
  (w, Fake.assoc "CheckOutExtension" (Fake.faults (store w))).

#[export] Instance licensing : @Licensing Fake.platform :=
  @Build_Licensing Fake.platform check check_out.

(** No licence for the extension. *)
Definition unlicensed : State := Fake.initial Fake.las ["Spatial"] false [].

(** The parameters of the tool as the dialog holds them, all valid. *)
Definition dialog : list ParameterObj :=
  [mkParameterObj (Some "/data/city.lasd") NoMessage;
   mkParameterObj (Some "/home") NoMessage;
   mkParameterObj (Some "/out") NoMessage;
   mkParameterObj (Some "0.3") NoMessage;
   mkParameterObj (Some "6") NoMessage;
   mkParameterObj (Some "0.5") NoMessage].

End FakeLicence.

(** * Properties *)

#[local] Arguments String.append : simpl never.

(** ** The control operators, pointwise *)

Section ControlFacts.
Context {P : Platform}.

Lemma bind_Normal {R A B} (m : M R A) (f : A -> M R B) s s' a :
  m s = (s', Normal a) -> bind m f s = f a s'.
Proof. intros H. unfold bind. now rewrite H. Qed.

Lemma bind_Returned {R A B} (m : M R A) (f : A -> M R B) s s' r :
  m s = (s', Returned r) -> bind m f s = (s', Returned r).
Proof. intros H. unfold bind. now rewrite H. Qed.

Lemma bind_Raised {R A B} (m : M R A) (f : A -> M R B) s s' e :
  m s = (s', Raised e) -> bind m f s = (s', Raised e).
Proof. intros H. unfold bind. now rewrite H. Qed.

Lemma try_except_Normal {R A} (body : M R A) h s s' a :
  body s = (s', Normal a) -> try_except body h s = (s', Normal a).
Proof. intros H. unfold try_except. now rewrite H. Qed.

Lemma try_except_Returned {R A} (body : M R A) h s s' r :
  body s = (s', Returned r) -> try_except body h s = (s', Returned r).
Proof. intros H. unfold try_except. now rewrite H. Qed.

(** A stage's [except] clause turns what the block raised into the
    stage's error message and [return False]. *)
Lemma stage_catches {A} (body : M bool A) prefix s s' e :
  body s = (s', Raised e) ->
  isinstance_Exception e = true ->
  try_except body (stage_handler prefix) s
    = (add_log (Error (prefix ++ exn_str e)) s', Returned false).
Proof.
  intros H He. unfold try_except, stage_handler, except_Exception.
  now rewrite H, He.
Qed.

(** The clause takes nothing else. *)
Lemma stage_lets_through {A} (body : M bool A) prefix s s' e :
  body s = (s', Raised e) ->
  isinstance_Exception e = false ->
  try_except body (stage_handler prefix) s = (s', Raised e).
Proof.
  intros H He. unfold try_except, stage_handler, except_Exception.
  now rewrite H, He.
Qed.

Lemma call_Returned {R R'} (body : M R unit) s s' r :
  body s = (s', Returned r) -> call (R' := R') body s = (s', Normal (Some r)).
Proof. intros H. unfold call. now rewrite H. Qed.

(** *** What a block asks of the host *)

Lemma emits_weaken {R A} (Q Q' : Event -> Prop) (m : M R A) :
  (forall ev, Q ev -> Q' ev) -> emits Q m -> emits Q' m.
Proof.
  intros HQ Hm s s' sig H. destruct (Hm _ _ _ H) as (evs & E & F).
  exists evs. split; [assumption|]. eapply Forall_impl; eauto.
Qed.

Lemma emits_silent {R A} Q (m : M R A) :
  (forall s s' sig, m s = (s', sig) -> trace s' = trace s) -> emits Q m.
Proof.
  intros Hm s s' sig H. exists []. rewrite app_nil_r. split; [eauto | constructor].
Qed.

Lemma emits_one {R A} (Q : Event -> Prop) (m : M R A) ev :
  Q ev ->
  (forall s s' sig, m s = (s', sig) -> trace s' = (trace s ++ [ev])%list) ->
  emits Q m.
Proof.
  intros HQ Hm s s' sig H. exists [ev]. split; [eauto | repeat constructor; assumption].
Qed.

Lemma emits_ret {R A} Q (a : A) : emits Q (ret (R := R) a).
Proof. apply emits_silent. unfold ret. now intros s s' sig [= <- _]. Qed.

Lemma emits_return {R A} Q (r : R) : emits Q (return_ (A := A) r).
Proof. apply emits_silent. unfold return_. now intros s s' sig [= <- _]. Qed.

Lemma emits_raise {R A} Q e : emits Q (raise (R := R) (A := A) e).
Proof. apply emits_silent. unfold raise. now intros s s' sig [= <- _]. Qed.

Lemma emits_raise_ValueError {R A} Q msg :
  emits Q (raise_ValueError (R := R) (A := A) msg).
Proof. apply emits_raise. Qed.

Lemma emits_getattr {R A} Q (v : Exn + A) : emits Q (getattr (R := R) v).
Proof. destruct v; [apply emits_raise | apply emits_ret]. Qed.

Lemma emits_index {R A} Q (xs : list A) i : emits Q (index (R := R) xs i).
Proof. unfold index. destruct (nth_error xs i); [apply emits_ret | apply emits_raise]. Qed.

Lemma emits_AddMessage {R} Q msg : emits Q (AddMessage (R := R) msg).
Proof. apply emits_silent. unfold AddMessage. now intros s s' sig [= <- _]. Qed.

Lemma emits_AddWarning {R} Q msg : emits Q (AddWarning (R := R) msg).
Proof. apply emits_silent. unfold AddWarning. now intros s s' sig [= <- _]. Qed.

Lemma emits_AddError {R} Q msg : emits Q (AddError (R := R) msg).
Proof. apply emits_silent. unfold AddError. now intros s s' sig [= <- _]. Qed.

Lemma emits_GetMessages {R} Q n : emits Q (arcpy_GetMessages (R := R) n).
Proof. apply emits_silent. unfold arcpy_GetMessages. now intros s s' sig [= <- _]. Qed.

Lemma emits_set_env {R} Q f : emits Q (set_env (R := R) f).
Proof. apply emits_silent. unfold set_env. now intros s s' sig [= <- _]. Qed.

Lemma emits_Exists {R} (Q : Event -> Prop) path :
  Q (EvExists path) -> emits Q (arcpy_Exists (R := R) path).
Proof.
  intros HQ. apply emits_one with (ev := EvExists path); [assumption|].
  unfold arcpy_Exists. now intros s s' sig [= <- _].
Qed.

Lemma emits_path_exists {R} (Q : Event -> Prop) path :
  Q (EvPathExists path) -> emits Q (os_path_exists (R := R) path).
Proof.
  intros HQ. apply emits_one with (ev := EvPathExists path); [assumption|].
  unfold os_path_exists. now intros s s' sig [= <- _].
Qed.

Lemma emits_Describe {R} (Q : Event -> Prop) path :
  Q (EvDescribe path) -> emits Q (arcpy_Describe (R := R) path).
Proof.
  intros HQ. apply emits_one with (ev := EvDescribe path); [assumption|].
  unfold arcpy_Describe. intros s s' sig.
  destruct (describe (store (world s)) path); now intros [= <- _].
Qed.

Lemma emits_ext {R} (Q : Event -> Prop) c :
  Q (EvCall c) -> emits Q (ext (R := R) c).
Proof.
  intros HQ. apply emits_one with (ev := EvCall c); [assumption|].
  unfold ext. intros s s' sig.
  destruct (run_ext c (world s)) as [w' [e|]]; now intros [= <- _].
Qed.

Lemma emits_bind {R A B} Q (m : M R A) (f : A -> M R B) :
  emits Q m -> (forall a, emits Q (f a)) -> emits Q (bind m f).
Proof.
  intros Hm Hf s s' sig. unfold bind.
  destruct (m s) as [s1 [a|r|e]] eqn:E; destruct (Hm _ _ _ E) as (evs & Et & F).
  - intros H. destruct (Hf a _ _ _ H) as (evs' & Et' & F').
    exists (evs ++ evs')%list. split.
    + now rewrite Et', Et, app_assoc.
    + apply Forall_app. now split.
  - intros [= <- _]. eauto.
  - intros [= <- _]. eauto.
Qed.

Lemma emits_when {R} Q c (m : M R unit) : emits Q m -> emits Q (when c m).
Proof. intros Hm. destruct c; [exact Hm | apply emits_ret]. Qed.

Lemma emits_for_each {R A} Q (xs : list A) (f : A -> M R unit) :
  (forall x, emits Q (f x)) -> emits Q (for_each xs f).
Proof.
  intros Hf. induction xs as [|x xs IH]; cbn.
  - apply emits_ret.
  - apply emits_bind; auto.
Qed.

Lemma emits_try_except {R A} Q (body : M R A) h :
  emits Q body -> (forall e k, h e = Some k -> emits Q k) ->
  emits Q (try_except body h).
Proof.
  intros Hb Hh s s' sig. unfold try_except.
  destruct (body s) as [s1 [a|r|e]] eqn:E; destruct (Hb _ _ _ E) as (evs & Et & F).
  - intros [= <- _]. eauto.
  - intros [= <- _]. eauto.
  - destruct (h e) as [k|] eqn:Ek.
    + intros H. destruct (Hh _ _ Ek _ _ _ H) as (evs' & Et' & F').
      exists (evs ++ evs')%list. split.
      * now rewrite Et', Et, app_assoc.
      * apply Forall_app. now split.
    + intros [= <- _]. eauto.
Qed.

Lemma emits_call {R R'} Q (body : M R unit) :
  emits Q body -> emits Q (call (R' := R') body).
Proof.
  intros Hb s s' sig. unfold call.
  destruct (body s) as [s1 [a|r|e]] eqn:E; destruct (Hb _ _ _ E) as (evs & Et & F);
    intros [= <- _]; eauto.
Qed.

Lemma emits_try_finally {R A} Q (body : M R A) cleanup :
  emits Q body -> emits Q cleanup -> emits Q (try_finally body cleanup).
Proof.
  intros Hb Hc s s' sig. unfold try_finally.
  destruct (body s) as [s1 sig1] eqn:E. destruct (Hb _ _ _ E) as (evs & Et & F).
  destruct (cleanup s1) as [s2 [a|r|e]] eqn:E2;
    destruct (Hc _ _ _ E2) as (evs' & Et' & F'); intros [= <- _];
    exists (evs ++ evs')%list; (split; [now rewrite Et', Et, app_assoc | apply Forall_app; now split]).
Qed.

Lemma emits_stage_handler {A} Q prefix e (k : M bool A) :
  stage_handler prefix e = Some k -> emits Q k.
Proof.
  unfold stage_handler, except_Exception.
  destruct (isinstance_Exception e); [|discriminate].
  intros [= <-]. apply emits_bind; [apply emits_AddError | intros; apply emits_return].
Qed.

End ControlFacts.

(** ** What each block of the tool asks of the host *)

Ltac emits_leaf :=
  first
    [ apply emits_ret | apply emits_return | apply emits_raise_ValueError
    | apply emits_raise | apply emits_getattr | apply emits_index
    | apply emits_AddMessage | apply emits_AddWarning | apply emits_AddError
    | apply emits_GetMessages | apply emits_set_env
    | eapply emits_stage_handler; eassumption ].

(** [side] proves that a single request satisfies the predicate at hand. *)
Ltac emits_with side :=
  repeat first
    [ emits_leaf
    | apply emits_bind; [| intros ?]
    | apply emits_when
    | apply emits_for_each; intros ?
    | apply emits_call
    | apply emits_try_except; [| intros ? ? ?]
    | apply emits_try_finally
    | apply emits_Exists; side
    | apply emits_path_exists; side
    | apply emits_Describe; side
    | apply emits_ext; side
    | match goal with
      | |- emits _ (match ?x with _ => _ end) => destruct x
      | H : except_Exception _ ?e = Some _ |- _ =>
          unfold except_Exception in H; destruct (isinstance_Exception e);
          [injection H as <- | discriminate H]
      | H : (if ?c then _ else _) = Some _ |- _ => destruct c
      | H : Some _ = Some _ |- _ => injection H as <-
      | H : None = Some _ |- _ => discriminate H
      end ].

Ltac rank_side := unfold not_after, no_stage; cbn; first [exact I | reflexivity | lia].

Section BlockFacts.
Context {P : Platform}.
Variables las home out : string.

Lemma prepare_no_stage : emits no_stage (prepare las home out).
Proof.
  unfold prepare, validate_input_paths, create_workspaces, check_validity,
    create_geodatabase.
  emits_with rank_side.
Qed.

Lemma elevation_body_rank f : emits (not_after Elevation) (elevation_body las home f).
Proof.
  unfold elevation_body, elevation_invoke, elevation_check.
  emits_with rank_side.
Qed.

Lemma mosaic_body_rank f : emits (not_after Mosaic) (mosaic_body las home out f).
Proof.
  unfold mosaic_body, mosaic_invoke, mosaic_check.
  emits_with rank_side.
Qed.

Lemma focal_body_rank f out_mosaic : emits (not_after Focal) (focal_body f out_mosaic).
Proof.
  unfold focal_body, focal_invoke, focal_check.
  emits_with rank_side.
Qed.

Lemma footprint_body_rank f : emits (not_after Footprints) (footprint_body home f).
Proof.
  unfold footprint_body, footprint_invoke, footprint_check.
  emits_with rank_side.
Qed.

Lemma segmentation_body_rank f output_poly :
  emits (not_after Segmentation) (segmentation_body home f output_poly).
Proof.
  unfold segmentation_body, segmentation_invoke, segmentation_check.
  emits_with rank_side.
Qed.

Lemma roofform_body_rank f : emits (not_after RoofForms) (roofform_body home f).
Proof.
  unfold roofform_body, roofform_invoke, roofform_check, validate_roof_forms.
  emits_with rank_side.
Qed.

Lemma not_after_mono j k ev :
  (stage_rank j <= stage_rank k)%nat -> not_after j ev -> not_after k ev.
Proof.
  unfold not_after. destruct (stage_of_event ev); [lia | trivial].
Qed.

Lemma no_stage_not_after k ev : no_stage ev -> not_after k ev.
Proof. unfold no_stage, not_after. now intros ->. Qed.

Lemma stage_rank_emits {A} j k prefix (body : M bool A) :
  (stage_rank j <= stage_rank k)%nat ->
  emits (not_after j) body ->
  emits (not_after k) (try_except body (stage_handler prefix)).
Proof.
  intros Hjk Hb. apply emits_try_except.
  - eapply emits_weaken; [|exact Hb]. intros ev. now apply not_after_mono.
  - intros e h Hh. eapply emits_stage_handler; eassumption.
Qed.

Lemma upto_elevation_rank k : emits (not_after k) (upto_elevation las home out).
Proof.
  eapply emits_weaken; [|apply prepare_no_stage].
  intros ev. apply no_stage_not_after.
Qed.

Lemma upto_mosaic_rank k :
  (1 <= stage_rank k)%nat -> emits (not_after k) (upto_mosaic las home out).
Proof.
  intros Hk. unfold upto_mosaic.
  apply emits_bind; [apply upto_elevation_rank | intros f].
  apply emits_bind; [| intros; apply emits_ret].
  apply stage_rank_emits with (j := Elevation); [exact Hk | apply elevation_body_rank].
Qed.

Lemma upto_focal_rank k :
  (2 <= stage_rank k)%nat -> emits (not_after k) (upto_focal las home out).
Proof.
  intros Hk. unfold upto_focal.
  apply emits_bind; [apply upto_mosaic_rank; lia | intros f].
  apply emits_bind; [| intros; apply emits_ret].
  apply stage_rank_emits with (j := Mosaic); [exact Hk | apply mosaic_body_rank].
Qed.

Lemma upto_footprint_rank k :
  (3 <= stage_rank k)%nat -> emits (not_after k) (upto_footprint las home out).
Proof.
  intros Hk. unfold upto_footprint.
  apply emits_bind; [apply upto_focal_rank; lia | intros f].
  apply emits_bind; [| intros; apply emits_ret].
  apply stage_rank_emits with (j := Focal); [exact Hk | apply focal_body_rank].
Qed.

Lemma upto_segmentation_rank k :
  (4 <= stage_rank k)%nat -> emits (not_after k) (upto_segmentation las home out).
Proof.
  intros Hk. unfold upto_segmentation.
  apply emits_bind; [apply upto_footprint_rank; lia | intros f].
  apply emits_bind; [| intros; apply emits_ret].
  apply stage_rank_emits with (j := Footprints); [exact Hk | apply footprint_body_rank].
Qed.

Lemma upto_roofform_rank k :
  (5 <= stage_rank k)%nat -> emits (not_after k) (upto_roofform las home out).
Proof.
  intros Hk. unfold upto_roofform.
  apply emits_bind; [apply upto_segmentation_rank; lia | intros f].
  apply emits_bind; [| intros; apply emits_ret].
  apply stage_rank_emits with (j := Segmentation);
    [exact Hk | apply segmentation_body_rank].
Qed.

(** *** The pipeline from the point a stage is reached *)

Ltac follow H :=
  repeat match type of H with
         | context [match ?x with (_, _) => _ end] =>
             lazymatch x with
             | context [match _ with (_, _) => _ end] => fail
             | _ =>
                 let E := fresh "E" in
                 destruct x as [? [?|?|?]] eqn:E; try discriminate H;
                 cbn [fst snd] in H
             end
         end;
  try (injection H as; subst).

Lemma pipeline_stops_at_elevation s0 s f sf r :
  upto_elevation las home out s0 = (s, Normal f) ->
  elevation_stage las home f s = (sf, Returned r) ->
  pipeline las home out s0 = (sf, Returned r).
Proof.
  unfold upto_elevation, pipeline. intros H Hs.
  erewrite bind_Normal by exact H. now erewrite bind_Returned by exact Hs.
Qed.

Lemma pipeline_stops_at_mosaic s0 s f sf r :
  upto_mosaic las home out s0 = (s, Normal f) ->
  mosaic_stage las home out f s = (sf, Returned r) ->
  pipeline las home out s0 = (sf, Returned r).
Proof.
  unfold upto_mosaic, upto_elevation, pipeline, bind, ret. intros H Hs.
  follow H. now rewrite Hs.
Qed.

Lemma pipeline_stops_at_focal s0 s f out_mosaic sf r :
  upto_focal las home out s0 = (s, Normal (f, out_mosaic)) ->
  focal_stage f out_mosaic s = (sf, Returned r) ->
  pipeline las home out s0 = (sf, Returned r).
Proof.
  unfold upto_focal, upto_mosaic, upto_elevation, pipeline, bind, ret. intros H Hs.
  follow H. now rewrite Hs.
Qed.

Lemma pipeline_stops_at_footprint s0 s f sf r :
  upto_footprint las home out s0 = (s, Normal f) ->
  footprint_stage home f s = (sf, Returned r) ->
  pipeline las home out s0 = (sf, Returned r).
Proof.
  unfold upto_footprint, upto_focal, upto_mosaic, upto_elevation, pipeline, bind, ret.
  intros H Hs. follow H. cbn in *. now rewrite Hs.
Qed.

Lemma pipeline_stops_at_segmentation s0 s f output_poly sf r :
  upto_segmentation las home out s0 = (s, Normal (f, output_poly)) ->
  segmentation_stage home f output_poly s = (sf, Returned r) ->
  pipeline las home out s0 = (sf, Returned r).
Proof.
  unfold upto_segmentation, upto_footprint, upto_focal, upto_mosaic, upto_elevation,
    pipeline, bind, ret.
  intros H Hs. follow H. cbn in *. now rewrite Hs.
Qed.

Lemma pipeline_stops_at_roofform s0 s f sf r :
  upto_roofform las home out s0 = (s, Normal f) ->
  roofform_stage home f s = (sf, Returned r) ->
  pipeline las home out s0 = (sf, Returned r).
Proof.
  unfold upto_roofform, upto_segmentation, upto_footprint, upto_focal, upto_mosaic,
    upto_elevation, pipeline, bind, ret.
  intros H Hs. follow H. cbn in *. now rewrite Hs.
Qed.

Lemma run_of_pipeline s0 sf r :
  pipeline las home out s0 = (sf, Returned r) ->
  run las home out s0 = (sf, Normal (Some r)).
Proof.
  intros H. unfold run, process_las_dataset.
  apply call_Returned. now apply try_except_Returned.
Qed.

(** What is not of class [Exception] passes the six stage handlers and
    the two outer ones. *)
Lemma pipeline_raises_at_elevation s0 s f sf e :
  upto_elevation las home out s0 = (s, Normal f) ->
  elevation_stage las home f s = (sf, Raised e) ->
  pipeline las home out s0 = (sf, Raised e).
Proof.
  unfold upto_elevation, pipeline. intros H Hs.
  erewrite bind_Normal by exact H. now erewrite bind_Raised by exact Hs.
Qed.

Lemma pipeline_raises_at_mosaic s0 s f sf e :
  upto_mosaic las home out s0 = (s, Normal f) ->
  mosaic_stage las home out f s = (sf, Raised e) ->
  pipeline las home out s0 = (sf, Raised e).
Proof.
  unfold upto_mosaic, upto_elevation, pipeline, bind, ret. intros H Hs.
  follow H. now rewrite Hs.
Qed.

Lemma pipeline_raises_at_focal s0 s f out_mosaic sf e :
  upto_focal las home out s0 = (s, Normal (f, out_mosaic)) ->
  focal_stage f out_mosaic s = (sf, Raised e) ->
  pipeline las home out s0 = (sf, Raised e).
Proof.
  unfold upto_focal, upto_mosaic, upto_elevation, pipeline, bind, ret. intros H Hs.
  follow H. now rewrite Hs.
Qed.

Lemma pipeline_raises_at_footprint s0 s f sf e :
  upto_footprint las home out s0 = (s, Normal f) ->
  footprint_stage home f s = (sf, Raised e) ->
  pipeline las home out s0 = (sf, Raised e).
Proof.
  unfold upto_footprint, upto_focal, upto_mosaic, upto_elevation, pipeline, bind, ret.
  intros H Hs. follow H. cbn in *. now rewrite Hs.
Qed.

Lemma pipeline_raises_at_segmentation s0 s f output_poly sf e :
  upto_segmentation las home out s0 = (s, Normal (f, output_poly)) ->
  segmentation_stage home f output_poly s = (sf, Raised e) ->
  pipeline las home out s0 = (sf, Raised e).
Proof.
  unfold upto_segmentation, upto_footprint, upto_focal, upto_mosaic, upto_elevation,
    pipeline, bind, ret.
  intros H Hs. follow H. cbn in *. now rewrite Hs.
Qed.

Lemma pipeline_raises_at_roofform s0 s f sf e :
  upto_roofform las home out s0 = (s, Normal f) ->
  roofform_stage home f s = (sf, Raised e) ->
  pipeline las home out s0 = (sf, Raised e).
Proof.
  unfold upto_roofform, upto_segmentation, upto_footprint, upto_focal, upto_mosaic,
    upto_elevation, pipeline, bind, ret.
  intros H Hs. follow H. cbn in *. now rewrite Hs.
Qed.

Lemma run_of_raising_pipeline s0 sf e :
  pipeline las home out s0 = (sf, Raised e) ->
  isinstance_Exception e = false ->
  run las home out s0 = (sf, Raised e).
Proof.
  intros H He.
  assert (Hx : isinstance_ExecuteError e = false).
  { unfold isinstance_Exception in He. unfold isinstance_ExecuteError.
    destruct (exn_class e); [discriminate He | reflexivity ..]. }
  unfold run, call, process_las_dataset, try_except, outer_handler.
  now rewrite H, Hx, He.
Qed.

End BlockFacts.

(** ** Failure containment *)

Section Containment.
Context {P : Platform}.
Variables las home out : string.

Lemma contain {X A} (k : Stage) prefix (reach : M bool X) (body : X -> M bool A) :
  emits (not_after k) reach ->
  (forall x, emits (not_after k) (body x)) ->
  (forall s0 s x sf r,
      reach s0 = (s, Normal x) ->
      try_except (body x) (stage_handler prefix) s = (sf, Returned r) ->
      pipeline las home out s0 = (sf, Returned r)) ->
  failure_contained las home out k prefix reach body.
Proof.
  intros Hreach Hbody Hstop s0 s x s' e H Hb He. split.
  - apply run_of_pipeline. eapply Hstop; [exact H|].
    now apply stage_catches.
  - destruct (Hreach _ _ _ H) as (evs & E & F).
    destruct (Hbody x _ _ _ Hb) as (evs' & E' & F').
    exists (evs ++ evs')%list. split.
    + now rewrite E', E, app_assoc.
    + apply Forall_app. now split.
Qed.

Lemma escape {X A} prefix (reach : M bool X) (body : X -> M bool A) :
  (forall s0 s x sf e,
      reach s0 = (s, Normal x) ->
      try_except (body x) (stage_handler prefix) s = (sf, Raised e) ->
      pipeline las home out s0 = (sf, Raised e)) ->
  failure_escapes las home out reach body.
Proof.
  intros Hpass s0 s x s' e H Hb He.
  apply run_of_raising_pipeline; [|exact He].
  eapply Hpass; [exact H|]. now apply stage_lets_through.
Qed.

Lemma nothing_of_class_Exception_escapes s0 sf e :
  run las home out s0 = (sf, Raised e) -> isinstance_Exception e = false.
Proof.
  unfold run, call, process_las_dataset, try_except, outer_handler.
  destruct (pipeline las home out s0) as [s1 [[]|r|e1]]; try discriminate.
  destruct (isinstance_ExecuteError e1) eqn:Ex.
  - cbn. discriminate.
  - destruct (isinstance_Exception e1) eqn:Ec.
    + cbn. discriminate.
    + now intros [= _ <-].
Qed.

(** C1.  Each of the six stages contains its failures of class
    [Exception], and only those: when the block of a stage raises an
    exception of class [Exception] (the routine's own, an import error,
    or the [ValueError] of a failed input or output check), the run ends
    there, returns [False], reports one error that names the stage, and
    no later stage has been asked anything.  Nothing of class
    [Exception] leaves [process_las_dataset].  What a stage raises that
    is not of that class ([SystemExit], [KeyboardInterrupt]) is caught
    nowhere: the run ends in the state of the raise, with no error
    reported, and raises it to its caller. *)
Theorem stage_failures_are_contained :
  (forall s0 sf e,
      run las home out s0 = (sf, Raised e) -> isinstance_Exception e = false)
  /\ failure_contained las home out Elevation "Error in elevation extraction: "
       (upto_elevation las home out) (elevation_body las home)
  /\ failure_contained las home out Mosaic "Error in building mosaic creation: "
       (upto_mosaic las home out) (mosaic_body las home out)
  /\ failure_contained las home out Focal "Error in Focal Statistics: "
       (upto_focal las home out) (fun fm => focal_body (fst fm) (snd fm))
  /\ failure_contained las home out Footprints "Error in footprints creation: "
       (upto_footprint las home out) (footprint_body home)
  /\ failure_contained las home out Segmentation "Error in roof segmentation: "
       (upto_segmentation las home out)
       (fun fp => segmentation_body home (fst fp) (snd fp))
  /\ failure_contained las home out RoofForms "Error in roof form extraction: "
       (upto_roofform las home out) (roofform_body home)
  /\ failure_escapes las home out
       (upto_elevation las home out) (elevation_body las home)
  /\ failure_escapes las home out
       (upto_mosaic las home out) (mosaic_body las home out)
  /\ failure_escapes las home out
       (upto_focal las home out) (fun fm => focal_body (fst fm) (snd fm))
  /\ failure_escapes las home out
       (upto_footprint las home out) (footprint_body home)
  /\ failure_escapes las home out
       (upto_segmentation las home out)
       (fun fp => segmentation_body home (fst fp) (snd fp))
  /\ failure_escapes las home out
       (upto_roofform las home out) (roofform_body home).
Proof.
  split; [exact nothing_of_class_Exception_escapes|].
  repeat apply conj.
  7: eapply escape; intros *; apply pipeline_raises_at_elevation.
  7: eapply escape; intros *; apply pipeline_raises_at_mosaic.
  7: eapply escape; intros s0 s [f m] sf e; apply pipeline_raises_at_focal.
  7: eapply escape; intros *; apply pipeline_raises_at_footprint.
  7: eapply escape; intros s0 s [f p] sf e; apply pipeline_raises_at_segmentation.
  7: eapply escape; intros *; apply pipeline_raises_at_roofform.
  - apply contain.
    + apply upto_elevation_rank.
    + apply elevation_body_rank.
    + intros *. apply pipeline_stops_at_elevation.
  - apply contain.
    + apply upto_mosaic_rank. cbn. lia.
    + apply mosaic_body_rank.
    + intros *. apply pipeline_stops_at_mosaic.
  - apply contain.
    + apply upto_focal_rank. cbn. lia.
    + intros [f m]. apply focal_body_rank.
    + intros s0 s [f m] sf r. apply pipeline_stops_at_focal.
  - apply contain.
    + apply upto_footprint_rank. cbn. lia.
    + apply footprint_body_rank.
    + intros *. apply pipeline_stops_at_footprint.
  - apply contain.
    + apply upto_segmentation_rank. cbn. lia.
    + intros [f p]. apply segmentation_body_rank.
    + intros s0 s [f p] sf r. apply pipeline_stops_at_segmentation.
  - apply contain.
    + apply upto_roofform_rank. cbn. lia.
    + apply roofform_body_rank.
    + intros *. apply pipeline_stops_at_roofform.
Qed.

End Containment.

(** The elevation script leaves out [_ndsm]: the run stops in the first
    stage and says so. *)
Lemma stage_failures_are_contained_witness :
  snd (run "/data/city.lasd" "/home" "/out" Fake.no_ndsm) = Normal (Some false)
  /\ last (log (fst (run "/data/city.lasd" "/home" "/out" Fake.no_ndsm))) (Message "-")
     = Error "Error in elevation extraction: Elevation raster not created: /out/city_processing.gdb/elev_ndsm".
Proof.
  pose (s := fst (upto_elevation "/data/city.lasd" "/home" "/out" Fake.no_ndsm)).
  pose (f := mkFrame "city" "/out/city_processing.gdb").
  pose (s' := fst (elevation_body "/data/city.lasd" "/home" f s)).
  pose (e := mkExn ValueError
               "Elevation raster not created: /out/city_processing.gdb/elev_ndsm").
  destruct (proj1 (proj2 (stage_failures_are_contained
                            "/data/city.lasd" "/home" "/out"))
              Fake.no_ndsm s f s' e) as [Hrun _].
  - vm_compute. reflexivity.
  - vm_compute. reflexivity.
  - reflexivity.
  - rewrite Hrun. split; vm_compute; reflexivity.
Defined.

(** C1 as worded fails when what a stage raises is not of class
    [Exception]: the run reaches the footprint stage, the footprint
    routine raises [SystemExit], and the exception crosses the stage's
    boundary and the outer handlers; the run does not return [False], no
    error is reported, and [execute] raises it as well. *)
Lemma system_exit_crosses_the_stage_boundary :
  (exists s f,
      upto_footprint "/data/city.lasd" "/home" "/out" Scenario.interrupted
      = (s, Normal f)
      /\ snd (footprint_body "/home" f s) = Raised (mkExn NonException "SystemExit"))
  /\ snd (footprint_stage "/home" (mkFrame "city" "/out/city_processing.gdb")
            (fst (upto_footprint "/data/city.lasd" "/home" "/out" Scenario.interrupted)))
     = Raised (mkExn NonException "SystemExit")
  /\ snd (run "/data/city.lasd" "/home" "/out" Scenario.interrupted)
     = Raised (mkExn NonException "SystemExit")
  /\ forallb (fun m => match m with Error _ => false | _ => true end)
       (log (fst (run "/data/city.lasd" "/home" "/out" Scenario.interrupted)))
     = true
  /\ snd (BuildingProcessor.execute (Fake.parameters "0.3" "6" "0.5") tt
            Scenario.interrupted)
     = Raised (mkExn NonException "SystemExit").
Proof.
  split.
  { eexists. eexists. split; vm_compute; reflexivity. }
  repeat split; vm_compute; reflexivity.
Qed.

(** ** Validation of the inputs *)

Section Validation.
Context {P : Platform}.
Variables las home out : string.

Lemma validate_input_paths_missing_dataset s0 :
  arc_exists (store (world s0)) las = false ->
  validate_input_paths las home out s0
  = (mkState
       (mkWorld (set_overwriteOutput true (env (world s0))) (store (world s0)))
       (log s0 ++ [Error ("LAS dataset does not exist: " ++ las)])
       (trace s0 ++ [EvExists las]),
     Returned false).
Proof.
  intros H. unfold validate_input_paths, bind, set_env, arcpy_Exists. cbn.
  rewrite H. reflexivity.
Qed.

(** C7.  When [arcpy.Exists] does not find the dataset, the run returns
    [False] with the missing-dataset error after a single request to the
    host, the existence test itself: no geodatabase has been created and
    the store is as it was. *)
Theorem missing_dataset_fails_before_workspaces s0 :
  arc_exists (store (world s0)) las = false ->
  let sf := fst (run las home out s0) in
  snd (run las home out s0) = Normal (Some false)
  /\ log sf = (log s0 ++ [Error ("LAS dataset does not exist: " ++ las)])%list
  /\ trace sf = (trace s0 ++ [EvExists las])%list
  /\ store (world sf) = store (world s0)
  /\ (forall ev, In ev (trace sf) -> is_workspace_creation ev -> In ev (trace s0)).
Proof.
  intros H.
  assert (E : run las home out s0
              = (mkState
                   (mkWorld (set_overwriteOutput true (env (world s0)))
                      (store (world s0)))
                   (log s0 ++ [Error ("LAS dataset does not exist: " ++ las)])
                   (trace s0 ++ [EvExists las]),
                 Normal (Some false))).
  { apply run_of_pipeline. unfold pipeline, prepare.
    do 2 (apply bind_Returned). now apply validate_input_paths_missing_dataset. }
  rewrite E. cbn. repeat split.
  intros ev Hin Hc. apply in_app_or in Hin. destruct Hin as [Hin|[<-|[]]].
  - exact Hin.
  - destruct Hc.
Qed.

End Validation.

(** With no dataset in the catalog the run stops at the first test. *)
Lemma missing_dataset_fails_before_workspaces_witness :
  snd (run "/data/city.lasd" "/home" "/out" Fake.no_dataset) = Normal (Some false)
  /\ trace (fst (run "/data/city.lasd" "/home" "/out" Fake.no_dataset))
     = [EvExists "/data/city.lasd"].
Proof.
  destruct (missing_dataset_fails_before_workspaces
              "/data/city.lasd" "/home" "/out" Fake.no_dataset)
    as (Hret & _ & Htrace & _).
  - reflexivity.
  - split; [exact Hret | exact Htrace].
Defined.

(** ** The validity check and the workspaces *)

Section Workspaces.
Context {P : Platform}.
Variables las home out : string.

(** The check answers [False] exactly when the dataset is described with
    another type than [LasDataset]. *)
Lemma check_building_class_code_wrong_type s d :
  describe (store (world s)) las = inr d ->
  (dataType d =? "LasDataset")%string = false ->
  call (R' := bool) (check_building_class_code las) s
  = (add_log (Error ("Input is not a valid LAS dataset: " ++ las))
       (add_event (EvDescribe las) s),
     Normal (Some false)).
Proof.
  intros Hd Ht.
  unfold call, check_building_class_code, try_except, bind, arcpy_Describe.
  rewrite Hd. cbn. rewrite Ht. reflexivity.
Qed.

Lemma check_building_class_code_False s s2 :
  call (R' := bool) (check_building_class_code las) s = (s2, Normal (Some false)) ->
  exists d,
    describe (store (world s)) las = inr d
    /\ (dataType d =? "LasDataset")%string = false
    /\ s2 = add_log (Error ("Input is not a valid LAS dataset: " ++ las))
              (add_event (EvDescribe las) s).
Proof.
  unfold call, check_building_class_code, try_except, bind, arcpy_Describe,
    except_Exception.
  destruct (describe (store (world s)) las) as [e|d] eqn:Hd.
  - destruct (isinstance_Exception e); cbn; discriminate.
  - cbn. destruct (dataType d =? "LasDataset")%string eqn:Ht; cbn.
    + destruct (pointCount d) as [e|n]; cbn.
      * destruct (isinstance_Exception e); cbn; discriminate.
      * destruct (fileCount d) as [e|m]; cbn.
        -- destruct (isinstance_Exception e); cbn; discriminate.
        -- discriminate.
    + intros [= <-]. eauto.
Qed.

(** The check does not stop a run when the dataset cannot be described. *)
Lemma check_building_class_code_undescribed s e :
  describe (store (world s)) las = inl e ->
  isinstance_Exception e = true ->
  call (R' := bool) (check_building_class_code las) s
  = (add_log (Message "Continuing processing despite validation check failure...")
       (add_log (Warning ("Error checking LAS dataset: " ++ exn_str e))
          (add_event (EvDescribe las) s)),
     Normal (Some true)).
Proof.
  intros Hd He.
  unfold call, check_building_class_code, try_except, bind, arcpy_Describe,
    except_Exception.
  rewrite Hd, He. reflexivity.
Qed.

Lemma prepare_from_check s0 s1 :
  upto_check_validity las home out s0 = (s1, Normal tt) ->
  prepare las home out s0
  = (check_validity las;; create_geodatabase las out) s1.
Proof.
  unfold upto_check_validity, prepare. intros H.
  unfold bind at 1 in H. unfold bind at 1.
  destruct (validate_input_paths las home out s0) as [sa [[]|r|e]]; try discriminate H.
  now erewrite bind_Normal by exact H.
Qed.

Lemma check_validity_False s1 s2 :
  call (R' := bool) (check_building_class_code las) s1 = (s2, Normal (Some false)) ->
  check_validity las s1
  = (add_log (Error ("Invalid LAS dataset: " ++ las)) s2, Returned false).
Proof.
  intros H. unfold check_validity, bind. rewrite H. reflexivity.
Qed.

Lemma run_stops_at_check s0 s1 s2 :
  upto_check_validity las home out s0 = (s1, Normal tt) ->
  call (R' := bool) (check_building_class_code las) s1 = (s2, Normal (Some false)) ->
  run las home out s0
  = (add_log (Error ("Invalid LAS dataset: " ++ las)) s2, Normal (Some false)).
Proof.
  intros H1 H2. apply run_of_pipeline. unfold pipeline.
  apply bind_Returned. rewrite (prepare_from_check _ _ H1).
  apply bind_Returned. now apply check_validity_False.
Qed.

Lemma upto_check_validity_Normal s0 s1 :
  upto_check_validity las home out s0 = (s1, Normal tt) ->
  let w0 := mkWorld (set_overwriteOutput true (env (world s0))) (store (world s0)) in
  exists w1 w2,
    ensure_gdb (intermediate_ws_of out) out "Intermediate" w0 = (w1, None)
    /\ ensure_gdb (project_ws_of las out) out (gdb_name_of las) w1 = (w2, None)
    /\ world s1
       = mkWorld (set_scratchWorkspace (intermediate_ws_of out)
                    (set_workspace (project_ws_of las out) (env w2)))
           (store w2)
    /\ log s1 = (log s0 ++ (if arc_exists (store w1) (project_ws_of las out) then []
                           else [Message ("Creating new File Geodatabase: "
                                          ++ project_ws_of las out)]))%list
    /\ trace s1
       = (trace s0
          ++ [EvExists las; EvPathExists home; EvPathExists out]
          ++ ensure_events (intermediate_ws_of out) out "Intermediate" w0
          ++ ensure_events (project_ws_of las out) out (gdb_name_of las) w1)%list.
Proof.
  unfold upto_check_validity, validate_input_paths, create_workspaces.
  unfold ensure_gdb, ensure_events, intermediate_ws_of, project_ws_of, gdb_name_of,
    lasd_name_of.
  unfold bind, set_env, arcpy_Exists, os_path_exists, when, ext, AddError,
    AddMessage, return_, ret.
  cbn.
  destruct (arc_exists (store (world s0)) las); cbn; [|discriminate].
  destruct (path_exists (store (world s0)) home); cbn; [|discriminate].
  destruct (path_exists (store (world s0)) out); cbn; [|discriminate].
  set (w0 := mkWorld (set_overwriteOutput true (env (world s0))) (store (world s0))).
  set (iws := os_path_join out "Intermediate.gdb").
  set (gdb := (fst (os_path_splitext (os_path_basename las)) ++ "_processing.gdb")%string).
  set (pws := os_path_join out gdb).
  destruct (arc_exists (store (world s0)) iws) eqn:E1; cbn.
  - destruct (arc_exists (store (world s0)) pws) eqn:E2; cbn.
    + intros [= <-]. exists w0, w0. cbn. rewrite E2. cbn.
      rewrite <- !app_assoc. repeat split. now rewrite app_nil_r.
    + destruct (run_ext (CreateFileGDB out gdb) w0) as [w2 [e|]] eqn:E3; cbn;
        [discriminate|].
      intros [= <-]. exists w0, w2. cbn. rewrite E2. cbn.
      rewrite <- !app_assoc. repeat split. exact E3.
  - destruct (run_ext (CreateFileGDB out "Intermediate") w0) as [w1 [e|]] eqn:E3; cbn;
      [discriminate|].
    destruct (arc_exists (store w1) pws) eqn:E2; cbn.
    + intros [= <-]. exists w1, w1. cbn. rewrite E2. cbn.
      rewrite <- !app_assoc. repeat split. now rewrite app_nil_r.
    + destruct (run_ext (CreateFileGDB out gdb) w1) as [w2 [e|]] eqn:E4; cbn;
        [discriminate|].
      intros [= <-]. exists w1, w2. cbn. rewrite E2. cbn.
      rewrite <- !app_assoc. repeat split. exact E4.
Qed.

(** C10.  When the check of the dataset answers [False], the run returns
    [False] only then: both geodatabases have been looked for and, where
    absent, created without error, the workspace and the scratch workspace
    are set to them, and what the creations did to the store is still
    there when the run returns. *)
Theorem invalid_dataset_fails_after_workspaces s0 s1 s2 :
  upto_check_validity las home out s0 = (s1, Normal tt) ->
  call (R' := bool) (check_building_class_code las) s1 = (s2, Normal (Some false)) ->
  let w0 := mkWorld (set_overwriteOutput true (env (world s0))) (store (world s0)) in
  let sf := fst (run las home out s0) in
  run las home out s0
  = (add_log (Error ("Invalid LAS dataset: " ++ las)) s2, Normal (Some false))
  /\ workspace (env (world sf)) = Some (project_ws_of las out)
  /\ scratchWorkspace (env (world sf)) = Some (intermediate_ws_of out)
  /\ exists w1 w2,
      ensure_gdb (intermediate_ws_of out) out "Intermediate" w0 = (w1, None)
      /\ ensure_gdb (project_ws_of las out) out (gdb_name_of las) w1 = (w2, None)
      /\ store (world sf) = store w2
      /\ trace sf
         = (trace s0
            ++ [EvExists las; EvPathExists home; EvPathExists out]
            ++ ensure_events (intermediate_ws_of out) out "Intermediate" w0
            ++ ensure_events (project_ws_of las out) out (gdb_name_of las) w1
            ++ [EvDescribe las])%list.
Proof.
  intros H1 H2 w0 sf.
  pose proof (run_stops_at_check _ _ _ H1 H2) as Hrun.
  destruct (check_building_class_code_False _ _ H2) as (d & Hd & Ht & Hs2).
  destruct (upto_check_validity_Normal _ _ H1) as (w1 & w2 & E1 & E2 & Hw & _ & Htr).
  subst sf. rewrite Hrun. cbn [fst]. subst s2. cbn.
  rewrite Hw. cbn. repeat split.
  exists w1, w2. repeat split; try assumption.
  rewrite Htr. now rewrite <- !app_assoc.
Qed.

(** C8, as the code has it.  When the dataset exists but is described with
    another type than [LasDataset], the check logs its error and the
    failure is fatal: the run logs a second error and returns [False]
    without asking anything of any stage. *)
Theorem wrong_type_is_fatal s0 s1 d :
  upto_check_validity las home out s0 = (s1, Normal tt) ->
  describe (store (world s1)) las = inr d ->
  dataType d <> "LasDataset" ->
  let sf := fst (run las home out s0) in
  snd (run las home out s0) = Normal (Some false)
  /\ log sf = (log s1 ++ [Error ("Input is not a valid LAS dataset: " ++ las);
                          Error ("Invalid LAS dataset: " ++ las)])%list
  /\ exists evs, trace sf = (trace s0 ++ evs)%list /\ Forall no_stage evs.
Proof.
  intros H1 Hd Ht sf. apply String.eqb_neq in Ht.
  pose proof (check_building_class_code_wrong_type _ _ Hd Ht) as H2.
  pose proof (run_stops_at_check _ _ _ H1 H2) as Hrun.
  subst sf. rewrite Hrun. cbn. repeat split.
  - now rewrite <- app_assoc.
  - assert (Hp : prepare las home out s0
                 = (add_log (Error ("Invalid LAS dataset: " ++ las))
                      (add_log (Error ("Input is not a valid LAS dataset: " ++ las))
                         (add_event (EvDescribe las) s1)),
                    Returned false)).
    { rewrite (prepare_from_check _ _ H1). apply bind_Returned.
      now apply check_validity_False. }
    destruct (prepare_no_stage las home out _ _ _ Hp) as (evs & E & F).
    exists evs. split; [exact E | exact F].
Qed.

End Workspaces.

(** A feature class in place of the dataset: both geodatabases are created
    before the run gives up. *)
Lemma invalid_dataset_fails_after_workspaces_witness :
  snd (run "/data/city.lasd" "/home" "/out" Fake.wrong_type) = Normal (Some false)
  /\ trace (fst (run "/data/city.lasd" "/home" "/out" Fake.wrong_type))
     = [EvExists "/data/city.lasd"; EvPathExists "/home"; EvPathExists "/out";
        EvExists "/out/Intermediate.gdb";
        EvCall (CreateFileGDB "/out" "Intermediate");
        EvExists "/out/city_processing.gdb";
        EvCall (CreateFileGDB "/out" "city_processing.gdb");
        EvDescribe "/data/city.lasd"]
  /\ workspace (env (world (fst (run "/data/city.lasd" "/home" "/out" Fake.wrong_type))))
     = Some "/out/city_processing.gdb".
Proof.
  pose (s1 := fst (upto_check_validity "/data/city.lasd" "/home" "/out" Fake.wrong_type)).
  pose (s2 := fst (call (R' := bool) (check_building_class_code "/data/city.lasd") s1)).
  destruct (invalid_dataset_fails_after_workspaces
              "/data/city.lasd" "/home" "/out" Fake.wrong_type s1 s2)
    as (Hrun & Hws & _).
  - vm_compute. reflexivity.
  - vm_compute. reflexivity.
  - split; [now rewrite Hrun|]. split; [|exact Hws].
    rewrite Hrun. vm_compute. reflexivity.
Defined.

(** C8 fails on a feature class: the dataset exists, its type is not
    [LasDataset], and the run is aborted with no stage asked anything. *)
Lemma wrong_type_aborts_the_run :
  arc_exists (store (world Fake.wrong_type)) "/data/city.lasd" = true
  /\ (exists d, describe (store (world Fake.wrong_type)) "/data/city.lasd" = inr d
                /\ dataType d <> "LasDataset")
  /\ snd (run "/data/city.lasd" "/home" "/out" Fake.wrong_type) = Normal (Some false)
  /\ In (Error "Invalid LAS dataset: /data/city.lasd")
       (log (fst (run "/data/city.lasd" "/home" "/out" Fake.wrong_type)))
  /\ Forall no_stage (trace (fst (run "/data/city.lasd" "/home" "/out" Fake.wrong_type))).
Proof.
  split; [reflexivity|]. split.
  - eexists. split; [reflexivity | discriminate].
  - split; [reflexivity|]. split.
    + vm_compute. auto.
    + vm_compute. repeat constructor.
Qed.

Lemma wrong_type_is_fatal_witness :
  snd (run "/data/city.lasd" "/home" "/out" Fake.wrong_type) = Normal (Some false)
  /\ exists evs,
      trace (fst (run "/data/city.lasd" "/home" "/out" Fake.wrong_type))
      = (trace Fake.wrong_type ++ evs)%list
      /\ Forall no_stage evs.
Proof.
  pose (s1 := fst (upto_check_validity "/data/city.lasd" "/home" "/out" Fake.wrong_type)).
  destruct (wrong_type_is_fatal "/data/city.lasd" "/home" "/out" Fake.wrong_type s1
              (mkDescribe "FeatureClass" (inl (mkExn OtherException "no pointCount"))
                 (inl (mkExn OtherException "no fileCount")) (inr None)))
    as (Hret & _ & Htrace).
  - vm_compute. reflexivity.
  - reflexivity.
  - discriminate.
  - split; [exact Hret | exact Htrace].
Defined.

(** ** The output checks of the last two stages *)

Section OutputNames.
Context {P : Platform}.
Variables las home out : string.

Lemma validate_roof_forms_call project_ws s :
  let p1 := os_path_join project_ws "roof_forms" in
  let p2 := os_path_join project_ws "roof_forms_roofform" in
  call (R' := bool) (validate_roof_forms project_ws) s
  = if arc_exists (store (world s)) p1 then
      (add_log (Message ("Found roof forms output at: " ++ p1))
         (add_event (EvExists p1) s),
       Normal (Some true))
    else if arc_exists (store (world s)) p2 then
      (add_log (Message ("Found roof forms output at: " ++ p2))
         (add_event (EvExists p2) (add_event (EvExists p1) s)),
       Normal (Some true))
    else (add_event (EvExists p2) (add_event (EvExists p1) s), Normal (Some false)).
Proof.
  intros p1 p2.
  unfold call, validate_roof_forms, for_each, bind, arcpy_Exists, when. cbn.
  fold p1 p2.
  destruct (arc_exists (store (world s)) p1); cbn; [reflexivity|].
  destruct (arc_exists (store (world s)) p2); reflexivity.
Qed.

Lemma roofform_check_cases f s :
  let p1 := os_path_join (project_ws f) "roof_forms" in
  let p2 := os_path_join (project_ws f) "roof_forms_roofform" in
  roofform_check f s
  = if arc_exists (store (world s)) p1 then
      (add_log (Message "Roof form extraction completed successfully")
         (add_log (Message ("Found roof forms output at: " ++ p1))
            (add_event (EvExists p1) s)),
       Returned true)
    else if arc_exists (store (world s)) p2 then
      (add_log (Message "Roof form extraction completed successfully")
         (add_log (Message ("Found roof forms output at: " ++ p2))
            (add_event (EvExists p2) (add_event (EvExists p1) s))),
       Returned true)
    else (add_event (EvExists p2) (add_event (EvExists p1) s),
          Raised (mkExn ValueError "Roof form extraction failed")).
Proof.
  intros p1 p2. unfold roofform_check. unfold bind at 1.
  rewrite validate_roof_forms_call. fold p1 p2.
  destruct (arc_exists (store (world s)) p1); [reflexivity|].
  destruct (arc_exists (store (world s)) p2); reflexivity.
Qed.

(** C5.  Once the roof-form routine has returned, the outcome of the run
    is decided by two names in the project workspace, [roof_forms] and
    [roof_forms_roofform]: they are looked for in that order, the second
    only when the first is absent, the run returns [True] when either is
    there and [False], with the stage's error, when neither is; nothing
    else is asked of the host and the world is left as the routine left it. *)
Theorem roof_forms_accepted_under_either_name s0 s f s' :
  upto_roofform las home out s0 = (s, Normal f) ->
  roofform_invoke home f s = (s', Normal tt) ->
  let p1 := os_path_join (project_ws f) "roof_forms" in
  let p2 := os_path_join (project_ws f) "roof_forms_roofform" in
  let e1 := arc_exists (store (world s')) p1 in
  let e2 := arc_exists (store (world s')) p2 in
  let sf := fst (run las home out s0) in
  snd (run las home out s0) = Normal (Some (e1 || e2))
  /\ trace sf
     = (trace s' ++ (if e1 then [EvExists p1] else [EvExists p1; EvExists p2]))%list
  /\ world sf = world s'
  /\ (e1 || e2 = false ->
      log sf = (log s' ++ [Error "Error in roof form extraction: Roof form extraction failed"])%list).
Proof.
  intros Hreach Hinv p1 p2 e1 e2 sf.
  assert (Hbody : roofform_body home f s = roofform_check f s').
  { unfold roofform_body. now erewrite bind_Normal by exact Hinv. }
  pose proof (roofform_check_cases f s') as Hc. cbn zeta in Hc.
  fold p1 p2 e1 e2 in Hc. rewrite <- Hbody in Hc.
  assert (Hrun : forall sx b,
             roofform_stage home f s = (sx, Returned b) ->
             run las home out s0 = (sx, Normal (Some b))).
  { intros sx b Hst. apply run_of_pipeline.
    eapply pipeline_stops_at_roofform; eassumption. }
  subst sf. destruct e1.
  - erewrite Hrun by (apply try_except_Returned; exact Hc).
    cbn. repeat split. discriminate.
  - destruct e2.
    + erewrite Hrun by (apply try_except_Returned; exact Hc).
      cbn. rewrite <- app_assoc. repeat split. discriminate.
    + erewrite Hrun by (apply stage_catches; [exact Hc | reflexivity]).
      cbn. rewrite <- app_assoc. repeat split.
Qed.

Lemma length_append (a b : string) :
  String.length (a ++ b) = (String.length a + String.length b)%nat.
Proof.
  induction a as [|c a IH]; [reflexivity|].
  change (String c a ++ b)%string with (String c (a ++ b)).
  cbn [String.length]. now rewrite IH.
Qed.

Lemma suffixed_differs (a : string) : (a ++ "_segmented")%string <> a.
Proof.
  intros H. apply (f_equal String.length) in H.
  rewrite length_append in H. cbn in H. lia.
Qed.

Lemma segmentation_invoke_Normal f output_poly s s' roof_segments :
  segmentation_invoke home f output_poly s = (s', Normal roof_segments) ->
  roof_segments = os_path_join (project_ws f) "roof_segments"
  /\ exists a tr,
      trace s' = (tr ++ [EvCall (RunSegmentRoof a)])%list
      /\ sg_output_segments_ui a = roof_segments.
Proof.
  unfold segmentation_invoke, bind, ext, AddMessage, os_path_exists, arcpy_Exists,
    when, raise_ValueError, raise, ret.
  cbn.
  repeat match goal with
         | |- context [run_ext ?c ?w] =>
             destruct (run_ext c w) as [? [?|]]; cbn; try discriminate
         | |- context [if negb ?b then _ else _] => destruct b; cbn; try discriminate
         end;
    intros [= <- <-]; (split; [reflexivity|]); eexists; eexists; cbn;
    (split; [reflexivity | reflexivity]).
Qed.

(** C6.  The segmentation routine is asked to write [roof_segments] in the
    project workspace; once it has returned, the stage asks the host one
    thing, whether that name with [_segmented] appended exists, and
    passes or raises on the answer alone.  The name tested is never the
    requested name itself. *)
Theorem segmentation_checks_the_derived_name f output_poly s s' roof_segments :
  segmentation_invoke home f output_poly s = (s', Normal roof_segments) ->
  let derived := (roof_segments ++ "_segmented")%string in
  roof_segments = os_path_join (project_ws f) "roof_segments"
  /\ (exists a tr,
         trace s' = (tr ++ [EvCall (RunSegmentRoof a)])%list
         /\ sg_output_segments_ui a = roof_segments)
  /\ segmentation_check roof_segments s'
     = (if arc_exists (store (world s')) derived then
          (add_log (Message "Roof segmentation completed successfully")
             (add_event (EvExists derived) s'),
           Normal tt)
        else (add_event (EvExists derived) s',
              Raised (mkExn ValueError "Roof segmentation failed")))
  /\ segmentation_body home f output_poly s = segmentation_check roof_segments s'
  /\ EvExists derived <> EvExists roof_segments.
Proof.
  intros Hinv derived.
  destruct (segmentation_invoke_Normal _ _ _ _ _ Hinv) as (Hname & Hcall).
  split; [exact Hname|]. split; [exact Hcall|]. split; [|split].
  - unfold segmentation_check, bind, arcpy_Exists, when. cbn. fold derived.
    destruct (arc_exists (store (world s')) derived); reflexivity.
  - unfold segmentation_body. now erewrite bind_Normal by exact Hinv.
  - intros [= H]. now apply suffixed_differs in H.
Qed.

End OutputNames.

(** The roof forms arrive as [roof_forms_roofform] and the run succeeds. *)
Lemma roof_forms_accepted_under_either_name_witness :
  snd (run "/data/city.lasd" "/home" "/out" Fake.alternate) = Normal (Some true)
  /\ arc_exists
       (store (world (fst (run "/data/city.lasd" "/home" "/out" Fake.alternate))))
       "/out/city_processing.gdb/roof_forms" = false.
Proof.
  pose (s := fst (upto_roofform "/data/city.lasd" "/home" "/out" Fake.alternate)).
  pose (f := mkFrame "city" "/out/city_processing.gdb").
  pose (s' := fst (roofform_invoke "/home" f s)).
  destruct (roof_forms_accepted_under_either_name
              "/data/city.lasd" "/home" "/out" Fake.alternate s f s')
    as (Hret & _ & Hworld & _).
  - vm_compute. reflexivity.
  - vm_compute. reflexivity.
  - split.
    + rewrite Hret. vm_compute. reflexivity.
    + rewrite Hworld. vm_compute. reflexivity.
Defined.

(** On the test host the segments arrive as [roof_segments_segmented],
    [roof_segments] itself does not exist, and the check passes. *)
Lemma segmentation_checks_the_derived_name_witness :
  snd (segmentation_check "/out/city_processing.gdb/roof_segments" Fake.segmented)
  = Normal tt
  /\ arc_exists (store (world Fake.segmented))
       "/out/city_processing.gdb/roof_segments" = false.
Proof.
  destruct (segmentation_checks_the_derived_name "/home" Fake.frame
              "/out/city_processing.gdb/final_footprints"
              (fst (upto_segmentation "/data/city.lasd" "/home" "/out" Fake.good))
              Fake.segmented "/out/city_processing.gdb/roof_segments")
    as (_ & _ & Hcheck & _).
  - vm_compute. reflexivity.
  - split.
    + rewrite Hcheck. vm_compute. reflexivity.
    + vm_compute. reflexivity.
Defined.

(** ** The output checks *)

Section OutputChecks.
Context {P : Platform}.
Variables las home out : string.

Lemma decides_from_check {X V A} prefix (reach : M bool X) (invoke : X -> M bool V)
  (rest : X -> V -> M bool A) (present : X -> V -> Store -> bool) :
  (forall s0 s x sf r,
      reach s0 = (s, Normal x) ->
      try_except (bind (invoke x) (rest x)) (stage_handler prefix) s
      = (sf, Returned r) ->
      pipeline las home out s0 = (sf, Returned r)) ->
  (forall x v s', checked (rest x v) (present x v (store (world s'))) s') ->
  output_decides las home out prefix reach invoke
    (fun x => try_except (bind (invoke x) (rest x)) (stage_handler prefix)) present.
Proof.
  intros Hstop Hcheck s0 s x s' v Hreach Hinv.
  assert (Hbody : bind (invoke x) (rest x) s = rest x v s')
    by now apply bind_Normal.
  destruct (Hcheck x v s') as (s'' & probes & Hw & Ht & Hp & Hok).
  destruct (present x v (store (world s'))).
  - destruct Hok as (sig & Hm & Hsig). rewrite <- Hbody in Hm.
    exists s'', probes. repeat split; try assumption.
    exists sig. split; [|exact Hsig].
    unfold try_except. rewrite Hm. destruct sig; [reflexivity | reflexivity | destruct Hsig].
  - destruct Hok as (Hlog & msg & Hm). rewrite <- Hbody in Hm.
    exists (add_log (Error (prefix ++ msg)) s''), probes. cbn.
    repeat split; try assumption.
    + apply run_of_pipeline. eapply Hstop; [exact Hreach|].
      apply (stage_catches _ prefix _ _ _ Hm). reflexivity.
    + exists msg. now rewrite Hlog.
Qed.

Ltac probe_case :=
  do 2 eexists;
  match goal with
  | |- ?A /\ ?B /\ ?C /\ ?D =>
      assert (HD : D);
      [ first [ split; [| eexists; reflexivity]; reflexivity
              | eexists; split; [reflexivity | first [exact I | reflexivity]] ]
      | split; [reflexivity |
         split; [cbn; rewrite <- ?app_assoc; reflexivity |
           split; [repeat (constructor; try exact I) | exact HD]]] ]
  end.

Ltac probe_cases :=
  unfold checked, bind, arcpy_Exists, when, raise_ValueError, raise, ret, AddMessage,
    call;
  cbn;
  repeat match goal with
         | |- context [arc_exists ?st ?p] => destruct (arc_exists st p); cbn
         end;
  probe_case.

Lemma elevation_check_checked base s' :
  checked (elevation_check base)
    (forallb (arc_exists (store (world s'))) (elevation_rasters base)) s'.
Proof.
  unfold elevation_check, elevation_rasters, for_each, forallb. probe_cases.
Qed.

Lemma mosaic_check_checked out_mosaic s' :
  checked (mosaic_check out_mosaic;; ret out_mosaic)
    (arc_exists (store (world s')) out_mosaic) s'.
Proof. unfold mosaic_check. probe_cases. Qed.

Lemma focal_check_checked out_focal s' :
  checked (focal_check out_focal) (arc_exists (store (world s')) out_focal) s'.
Proof. unfold focal_check. probe_cases. Qed.

Lemma footprint_check_checked output_poly s' :
  checked (footprint_check output_poly;; ret output_poly)
    (arc_exists (store (world s')) output_poly) s'.
Proof. unfold footprint_check. probe_cases. Qed.

Lemma segmentation_check_checked roof_segments s' :
  checked (segmentation_check roof_segments)
    (arc_exists (store (world s')) (roof_segments ++ "_segmented")) s'.
Proof. unfold segmentation_check. probe_cases. Qed.

Lemma roofform_check_checked f s' :
  checked (roofform_check f)
    (arc_exists (store (world s')) (os_path_join (project_ws f) "roof_forms")
     || arc_exists (store (world s'))
          (os_path_join (project_ws f) "roof_forms_roofform")) s'.
Proof.
  unfold roofform_check, validate_roof_forms, for_each. probe_cases.
Qed.

(** C2.  In each of the six stages the declared output decides: once the
    stage's routine has returned without error, the stage asks the host
    only whether its output exists; it passes when the output is there,
    and when it is not the run returns [False] with the stage's error,
    whatever the routine reported. *)
Theorem outputs_decide_success :
  output_decides las home out "Error in elevation extraction: "
    (upto_elevation las home out) (elevation_invoke las home)
    (elevation_stage las home)
    (fun _ base st => forallb (arc_exists st) (elevation_rasters base))
  /\ output_decides las home out "Error in building mosaic creation: "
       (upto_mosaic las home out) (mosaic_invoke las home out)
       (mosaic_stage las home out)
       (fun _ out_mosaic st => arc_exists st out_mosaic)
  /\ output_decides las home out "Error in Focal Statistics: "
       (upto_focal las home out) (fun fm => focal_invoke (fst fm) (snd fm))
       (fun fm => focal_stage (fst fm) (snd fm))
       (fun _ out_focal st => arc_exists st out_focal)
  /\ output_decides las home out "Error in footprints creation: "
       (upto_footprint las home out) (footprint_invoke home)
       (footprint_stage home)
       (fun _ output_poly st => arc_exists st output_poly)
  /\ output_decides las home out "Error in roof segmentation: "
       (upto_segmentation las home out)
       (fun fp => segmentation_invoke home (fst fp) (snd fp))
       (fun fp => segmentation_stage home (fst fp) (snd fp))
       (fun _ roof_segments st => arc_exists st (roof_segments ++ "_segmented"))
  /\ output_decides las home out "Error in roof form extraction: "
       (upto_roofform las home out) (roofform_invoke home)
       (roofform_stage home)
       (fun f _ st =>
          arc_exists st (os_path_join (project_ws f) "roof_forms")
          || arc_exists st (os_path_join (project_ws f) "roof_forms_roofform")).
Proof.
  repeat apply conj.
  - apply (decides_from_check _ _ _ (fun _ base => elevation_check base)).
    + intros *. apply pipeline_stops_at_elevation.
    + intros _ base s'. apply elevation_check_checked.
  - apply (decides_from_check _ _ _ (fun _ out_mosaic => mosaic_check out_mosaic;; ret out_mosaic)).
    + intros *. apply pipeline_stops_at_mosaic.
    + intros _ m s'. apply mosaic_check_checked.
  - apply (decides_from_check _ _ _ (fun _ out_focal => focal_check out_focal)).
    + intros s0 s [f m] sf r. apply pipeline_stops_at_focal.
    + intros _ v s'. apply focal_check_checked.
  - apply (decides_from_check _ _ _ (fun _ output_poly => footprint_check output_poly;; ret output_poly)).
    + intros *. apply pipeline_stops_at_footprint.
    + intros _ v s'. apply footprint_check_checked.
  - apply (decides_from_check _ _ _ (fun _ roof_segments => segmentation_check roof_segments)).
    + intros s0 s [f p] sf r. apply pipeline_stops_at_segmentation.
    + intros _ v s'. apply segmentation_check_checked.
  - apply (decides_from_check _ _ _ (fun f _ => roofform_check f)).
    + intros *. apply pipeline_stops_at_roofform.
    + intros f v s'. apply roofform_check_checked.
Qed.

End OutputChecks.

(** The mosaic script reports no error and writes nothing: the run fails
    in the mosaic stage. *)
Lemma outputs_decide_success_witness :
  snd (run "/data/city.lasd" "/home" "/out" Fake.no_mosaic) = Normal (Some false).
Proof.
  destruct (proj1 (proj2 (outputs_decide_success "/data/city.lasd" "/home" "/out"))
              Fake.no_mosaic
              (fst (upto_mosaic "/data/city.lasd" "/home" "/out" Fake.no_mosaic))
              Fake.frame
              (fst (mosaic_invoke "/data/city.lasd" "/home" "/out" Fake.frame
                      (fst (upto_mosaic "/data/city.lasd" "/home" "/out" Fake.no_mosaic))))
              "/out/city_processing.gdb/building_mosaic")
    as (sf & probes & _ & _ & _ & Hout).
  - vm_compute. reflexivity.
  - vm_compute. reflexivity.
  - replace (arc_exists _ _) with false in Hout by (vm_compute; reflexivity).
    destruct Hout as [Hrun _]. now rewrite Hrun.
Defined.

(** ** The first two stages *)

Section FirstStages.
Context {P : Platform}.
Variables las home out : string.

Lemma elevation_invoke_Normal f s s' base :
  elevation_invoke las home f s = (s', Normal base) ->
  base = os_path_join (project_ws f) "elev".
Proof.
  unfold elevation_invoke, bind, ext, ret. cbn.
  repeat match goal with
         | |- context [run_ext ?c ?w] =>
             destruct (run_ext c w) as [? [?|]]; cbn; try discriminate
         end.
  now intros [= _ <-].
Qed.

Lemma elevation_check_cases base s' :
  match find (fun p => negb (arc_exists (store (world s')) p)) (elevation_rasters base) with
  | None =>
      exists s'', elevation_check base s' = (s'', Normal tt) /\ world s'' = world s'
  | Some p =>
      exists s'',
        elevation_check base s'
        = (s'', Raised (mkExn ValueError ("Elevation raster not created: " ++ p)))
        /\ world s'' = world s' /\ log s'' = log s'
  end.
Proof.
  unfold elevation_check, elevation_rasters, for_each, find.
  unfold bind, arcpy_Exists, when, raise_ValueError, raise, ret. cbn.
  repeat match goal with
         | |- context [arc_exists ?st ?p] => destruct (arc_exists st p); cbn
         end;
    eexists; repeat split.
Qed.

Lemma elevation_stage_Normal f s s2 :
  elevation_stage las home f s = (s2, Normal tt) ->
  forall p,
    In p (elevation_rasters (os_path_join (project_ws f) "elev")) ->
    arc_exists (store (world s2)) p = true.
Proof.
  unfold elevation_stage, try_except, elevation_body. unfold bind at 1.
  destruct (elevation_invoke las home f s) as [s' [base|r|e]] eqn:Hinv.
  - pose proof (elevation_invoke_Normal _ _ _ _ Hinv) as <-.
    pose proof (elevation_check_cases base s') as Hc.
    destruct (find _ (elevation_rasters base)) as [q|] eqn:Hfind.
    + destruct Hc as (s'' & -> & _). unfold stage_handler, except_Exception. cbn.
      discriminate.
    + destruct Hc as (s'' & -> & Hw). intros [= <-] p Hin.
      rewrite Hw. pose proof (find_none _ _ Hfind p Hin) as Hn.
      now apply negb_false_iff in Hn.
  - discriminate.
  - unfold stage_handler, except_Exception.
    destruct (isinstance_Exception e); cbn; discriminate.
Qed.

(** C3.  The elevation stage runs to its end only if [_dtm], [_dsm] and
    [_ndsm] all exist then.  Once the routine has returned, the stage
    looks for them in that order: it passes when none is missing, and
    when one is, the first missing one is named in the stage's error, the
    run returns [False], and nothing has been asked of the mosaic, focal,
    footprint, segmentation or roof-form stage. *)
Theorem elevation_needs_all_three :
  (forall f s s2,
      elevation_stage las home f s = (s2, Normal tt) ->
      forall p,
        In p (elevation_rasters (os_path_join (project_ws f) "elev")) ->
        arc_exists (store (world s2)) p = true)
  /\ forall s0 s f s' base,
      upto_elevation las home out s0 = (s, Normal f) ->
      elevation_invoke las home f s = (s', Normal base) ->
      let st := store (world s') in
      let sf := fst (run las home out s0) in
      base = os_path_join (project_ws f) "elev"
      /\ match find (fun p => negb (arc_exists st p)) (elevation_rasters base) with
         | None =>
             (forall p, In p (elevation_rasters base) -> arc_exists st p = true)
             /\ exists s'',
                 elevation_stage las home f s = (s'', Normal tt)
                 /\ world s'' = world s'
         | Some p =>
             In p (elevation_rasters base)
             /\ arc_exists st p = false
             /\ snd (run las home out s0) = Normal (Some false)
             /\ log sf
                = (log s' ++ [Error ("Error in elevation extraction: "
                                     ++ "Elevation raster not created: " ++ p)])%list
             /\ world sf = world s'
             /\ exists evs,
                 trace sf = (trace s0 ++ evs)%list
                 /\ Forall (not_after Elevation) evs
         end.
Proof.
  split; [exact elevation_stage_Normal|].
  intros s0 s f s' base Hreach Hinv st sf.
  split; [exact (elevation_invoke_Normal _ _ _ _ Hinv)|].
  assert (Hbody : elevation_body las home f s = elevation_check base s').
  { unfold elevation_body. now erewrite bind_Normal by exact Hinv. }
  pose proof (elevation_check_cases base s') as Hc. fold st in Hc.
  destruct (find (fun p => negb (arc_exists st p)) (elevation_rasters base))
    as [p|] eqn:Hfind.
  - destruct Hc as (s'' & Hcheck & Hw & Hl).
    apply find_some in Hfind. destruct Hfind as [Hin Hp].
    apply negb_true_iff in Hp.
    rewrite <- Hbody in Hcheck.
    destruct (contain las home out Elevation "Error in elevation extraction: "
                (upto_elevation las home out) (elevation_body las home)
                (upto_elevation_rank las home out Elevation)
                (elevation_body_rank las home)
                (fun s0 s x sf r => pipeline_stops_at_elevation las home out s0 s x sf r)
                s0 s f s'' _ Hreach Hcheck eq_refl)
      as (Hrun & evs & Ht & HF).
    subst sf. rewrite Hrun. cbn.
    repeat split; try assumption.
    + now rewrite Hl.
    + exists evs. now split.
  - destruct Hc as (s'' & Hcheck & Hw). split.
    + intros p Hin. pose proof (find_none _ _ Hfind p Hin) as Hn.
      now apply negb_false_iff in Hn.
    + exists s''. split; [|exact Hw].
      unfold elevation_stage. apply try_except_Normal. now rewrite Hbody.
Qed.

Lemma mosaic_body_no_spatial_reference f s s1 d :
  ext (R := bool) (ImportScript "scripts.create_building_mosaic") s = (s1, Normal tt) ->
  describe (store (world s1)) las = inr d ->
  spatialReference d = inr None ->
  mosaic_body las home out f s
  = (add_event (EvDescribe las) s1,
     Raised (mkExn ValueError "Could not obtain spatial reference from LAS dataset")).
Proof.
  intros Himp Hd Hsr. unfold mosaic_body, mosaic_invoke.
  apply bind_Raised. erewrite bind_Normal by exact Himp.
  unfold bind, arcpy_Describe. rewrite Hd. cbn. rewrite Hsr. reflexivity.
Qed.

Lemma ext_trace {R} c s s1 (sig : Signal R unit) :
  ext c s = (s1, sig) -> trace s1 = (trace s ++ [EvCall c])%list.
Proof.
  unfold ext. destruct (run_ext c (world s)) as [w [e|]]; now intros [= <- _].
Qed.

(** C4.  When the dataset is described without a spatial reference, the
    mosaic stage raises before it does anything else: the run returns
    [False] with the stage's error, the world is as the import of the
    script left it, and the mosaic routine has not been called. *)
Theorem no_spatial_reference_stops_mosaic s0 s f s1 d :
  upto_mosaic las home out s0 = (s, Normal f) ->
  ext (R := bool) (ImportScript "scripts.create_building_mosaic") s = (s1, Normal tt) ->
  describe (store (world s1)) las = inr d ->
  spatialReference d = inr None ->
  let sf := fst (run las home out s0) in
  snd (run las home out s0) = Normal (Some false)
  /\ log sf
     = (log s1 ++ [Error ("Error in building mosaic creation: "
                          ++ "Could not obtain spatial reference from LAS dataset")])%list
  /\ world sf = world s1
  /\ exists evs,
      trace sf
      = (trace s0 ++ evs
         ++ [EvCall (ImportScript "scripts.create_building_mosaic"); EvDescribe las])%list
      /\ Forall (not_after Elevation) evs
      /\ forall a, ~ In (EvCall (RunBuildingMosaic a)) evs.
Proof.
  intros Hreach Himp Hd Hsr sf.
  pose proof (mosaic_body_no_spatial_reference f s s1 d Himp Hd Hsr) as Hbody.
  assert (Hrun : run las home out s0
                 = (add_log (Error ("Error in building mosaic creation: "
                                    ++ "Could not obtain spatial reference from LAS dataset"))
                      (add_event (EvDescribe las) s1),
                    Normal (Some false))).
  { apply run_of_pipeline. eapply pipeline_stops_at_mosaic; [exact Hreach|].
    apply (stage_catches _ _ _ _ _ Hbody). reflexivity. }
  destruct (upto_mosaic_rank las home out Elevation (le_n _) _ _ _ Hreach)
    as (evs & Ht & HF).
  subst sf. rewrite Hrun. cbn. repeat split.
  exists evs. split; [|split].
  - rewrite (ext_trace _ _ _ _ Himp), Ht. now rewrite <- !app_assoc.
  - exact HF.
  - intros a Hin. rewrite Forall_forall in HF. specialize (HF _ Hin).
    unfold not_after in HF. cbn in HF. lia.
Qed.

End FirstStages.

(** ** The optional parameters *)

Section Execute.
Context {P : Platform}.

Lemma process_las_dataset_fixed_constants las home out :
  emits uses_fixed_constants (process_las_dataset las home out).
Proof.
  unfold process_las_dataset, outer_handler, pipeline, prepare.
  unfold validate_input_paths, create_workspaces, check_validity, create_geodatabase,
    check_building_class_code.
  unfold elevation_stage, elevation_body, elevation_invoke, elevation_check,
    mosaic_stage, mosaic_body, mosaic_invoke, mosaic_check,
    focal_stage, focal_body, focal_invoke, focal_check,
    footprint_stage, footprint_body, footprint_invoke, footprint_check,
    segmentation_stage, segmentation_body, segmentation_invoke, segmentation_check,
    roofform_stage, roofform_body, roofform_invoke, roofform_check, validate_roof_forms.
  emits_with ltac:(cbn; first [exact I | repeat split]).
Qed.

Lemma execute_fixed_constants parameters messages :
  emits uses_fixed_constants (BuildingProcessor.execute parameters messages).
Proof.
  unfold BuildingProcessor.execute. apply emits_try_finally.
  - apply emits_try_except.
    + do 3 (apply emits_bind; [apply emits_index | intros ?]).
      apply emits_bind.
      * apply emits_call. apply process_las_dataset_fixed_constants.
      * intros success. destruct (truthy success);
          [apply emits_AddMessage | apply emits_AddError].
    + intros e k Hk. emits_with ltac:(exact I).
  - emits_with ltac:(exact I).
Qed.

(** C9.  Two parameter lists that agree on the dataset, the home directory
    and the output directory make [execute] do the same, whatever else
    they hold: the values after the third are not read.  Whenever the
    elevation routine is run, it is with cell size ["0.3"], class code [6]
    and minimum height ["0.5"]. *)
Theorem optional_parameters_are_ignored parameters parameters' messages s :
  nth_error parameters 0 = nth_error parameters' 0 ->
  nth_error parameters 1 = nth_error parameters' 1 ->
  nth_error parameters 2 = nth_error parameters' 2 ->
  BuildingProcessor.execute parameters messages s
  = BuildingProcessor.execute parameters' messages s
  /\ exists evs,
      trace (fst (BuildingProcessor.execute parameters messages s)) = (trace s ++ evs)%list
      /\ Forall uses_fixed_constants evs.
Proof.
  intros H0 H1 H2. split.
  - unfold BuildingProcessor.execute, index. now rewrite H0, H1, H2.
  - destruct (BuildingProcessor.execute parameters messages s) as [sf sig] eqn:E.
    exact (execute_fixed_constants _ _ _ _ _ E).
Qed.

End Execute.

(** [_dtm] and [_dsm] are written, [_ndsm] is not: the run fails in the
    elevation stage. *)
Lemma elevation_needs_all_three_witness :
  arc_exists (store (world (fst (run "/data/city.lasd" "/home" "/out" Fake.no_ndsm))))
    "/out/city_processing.gdb/elev_dtm" = true
  /\ arc_exists (store (world (fst (run "/data/city.lasd" "/home" "/out" Fake.no_ndsm))))
       "/out/city_processing.gdb/elev_dsm" = true
  /\ snd (run "/data/city.lasd" "/home" "/out" Fake.no_ndsm) = Normal (Some false)
  /\ exists evs,
      trace (fst (run "/data/city.lasd" "/home" "/out" Fake.no_ndsm))
      = (trace Fake.no_ndsm ++ evs)%list
      /\ Forall (not_after Elevation) evs.
Proof.
  destruct (proj2 (elevation_needs_all_three "/data/city.lasd" "/home" "/out")
              Fake.no_ndsm
              (fst (upto_elevation "/data/city.lasd" "/home" "/out" Fake.no_ndsm))
              Fake.frame
              (fst (elevation_invoke "/data/city.lasd" "/home" Fake.frame
                      (fst (upto_elevation "/data/city.lasd" "/home" "/out"
                              Fake.no_ndsm))))
              "/out/city_processing.gdb/elev")
    as [_ H].
  - vm_compute. reflexivity.
  - vm_compute. reflexivity.
  - cbv zeta in H.
    replace (find _ (elevation_rasters _))
      with (Some "/out/city_processing.gdb/elev_ndsm") in H
      by (vm_compute; reflexivity).
    destruct H as (_ & _ & Hret & _ & _ & Htrace).
    split; [vm_compute; reflexivity|]. split; [vm_compute; reflexivity|].
    split; [exact Hret | exact Htrace].
Defined.

(** The dataset has no spatial reference: the run fails in the mosaic
    stage, and the mosaic is not there. *)
Lemma no_spatial_reference_stops_mosaic_witness :
  snd (run "/data/city.lasd" "/home" "/out" Fake.no_spatial_reference)
  = Normal (Some false)
  /\ arc_exists
       (store (world (fst (run "/data/city.lasd" "/home" "/out"
                             Fake.no_spatial_reference))))
       "/out/city_processing.gdb/building_mosaic" = false.
Proof.
  destruct (no_spatial_reference_stops_mosaic "/data/city.lasd" "/home" "/out"
              Fake.no_spatial_reference
              (fst (upto_mosaic "/data/city.lasd" "/home" "/out"
                      Fake.no_spatial_reference))
              Fake.frame
              (fst (ext (R := bool) (ImportScript "scripts.create_building_mosaic")
                      (fst (upto_mosaic "/data/city.lasd" "/home" "/out"
                              Fake.no_spatial_reference))))
              (mkDescribe "LasDataset" (inr 1000) (inr 2) (inr None)))
    as (Hret & _ & Hworld & _).
  - vm_compute. reflexivity.
  - vm_compute. reflexivity.
  - vm_compute. reflexivity.
  - reflexivity.
  - split; [exact Hret|]. rewrite Hworld. vm_compute. reflexivity.
Defined.

(** Other values for the three optional parameters change nothing. *)
Lemma optional_parameters_are_ignored_witness :
  BuildingProcessor.execute (Fake.parameters "0.3" "6" "0.5") tt Fake.good
  = BuildingProcessor.execute (Fake.parameters "1.0" "2" "3.0") tt Fake.good.
Proof.
  destruct (optional_parameters_are_ignored
              (Fake.parameters "0.3" "6" "0.5") (Fake.parameters "1.0" "2" "3.0")
              tt Fake.good)
    as [H _].
  - reflexivity.
  - reflexivity.
  - reflexivity.
  - exact H.
Defined.

(** * More properties of the tool *)

(** ** The input paths and the validity check *)

Section InputChecks.
Context {P : Platform}.
Variables las home out : string.

Lemma validate_input_paths_missing_directory s0 :
  arc_exists (store (world s0)) las = true ->
  path_exists (store (world s0)) home && path_exists (store (world s0)) out = false ->
  validate_input_paths las home out s0
  = (mkState
       (mkWorld (set_overwriteOutput true (env (world s0))) (store (world s0)))
       (log s0
        ++ [Error (if path_exists (store (world s0)) home
                   then "Output directory does not exist: " ++ out
                   else "Home directory does not exist: " ++ home)])
       (trace s0
        ++ EvExists las :: EvPathExists home
           :: (if path_exists (store (world s0)) home then [EvPathExists out] else [])),
     Returned false).
Proof.
  intros Hlas Hdir.
  unfold validate_input_paths, bind, set_env, arcpy_Exists, os_path_exists. cbn.
  rewrite Hlas. cbn.
  destruct (path_exists (store (world s0)) home); cbn.
  - cbn in Hdir. rewrite Hdir. cbn.
    unfold return_, add_log, add_event, with_world. cbn. now rewrite <- !app_assoc.
  - unfold return_, add_log, add_event, with_world. cbn. now rewrite <- !app_assoc.
Qed.

(** When the dataset exists and the home directory or the output
    directory does not, the run returns [False] with the error that names
    the first missing directory; the host has only been asked whether the
    three paths exist (the output directory only when the home directory
    does), and no geodatabase or folder has been created. *)
Theorem missing_directory_fails_before_workspaces s0 :
  arc_exists (store (world s0)) las = true ->
  path_exists (store (world s0)) home && path_exists (store (world s0)) out = false ->
  let sf := fst (run las home out s0) in
  snd (run las home out s0) = Normal (Some false)
  /\ log sf
     = (log s0
        ++ [Error (if path_exists (store (world s0)) home
                   then "Output directory does not exist: " ++ out
                   else "Home directory does not exist: " ++ home)])%list
  /\ trace sf
     = (trace s0
        ++ EvExists las :: EvPathExists home
           :: (if path_exists (store (world s0)) home then [EvPathExists out] else []))%list
  /\ store (world sf) = store (world s0).
Proof.
  intros Hlas Hdir sf.
  pose proof (validate_input_paths_missing_directory s0 Hlas Hdir) as Hv.
  assert (E : run las home out s0 = (fst (validate_input_paths las home out s0),
                                     Normal (Some false))).
  { apply run_of_pipeline. unfold pipeline, prepare.
    do 2 (apply bind_Returned). now rewrite Hv. }
  subst sf. rewrite E, Hv. cbn. repeat split.
Qed.

(** The validity check, outcome by outcome: it answers [False] only for
    a dataset that is described with another type than [LasDataset]; an
    exception of class [Exception] met while describing the dataset or
    reading its counts makes it answer [True]; it never falls off its
    end, raises only what is not of class [Exception], asks the host for
    one description and leaves the world as it is. *)
Theorem check_building_class_code_outcomes s s2 sig :
  call (R' := bool) (check_building_class_code las) s = (s2, sig) ->
  world s2 = world s
  /\ trace s2 = (trace s ++ [EvDescribe las])%list
  /\ match sig with
     | Normal (Some false) =>
         exists d, describe (store (world s)) las = inr d
                   /\ dataType d <> "LasDataset"
     | Normal (Some true) =>
         match check_failure (store (world s)) las with
         | Some e => isinstance_Exception e = true
         | None => exists d, describe (store (world s)) las = inr d
                             /\ dataType d = "LasDataset"
         end
     | Normal None => False
     | Returned _ => False
     | Raised e =>
         check_failure (store (world s)) las = Some e
         /\ isinstance_Exception e = false
     end.
Proof.
  unfold call, check_building_class_code, try_except, bind, arcpy_Describe,
    except_Exception, check_failure.
  destruct (describe (store (world s)) las) as [e|d] eqn:Hd.
  - destruct (isinstance_Exception e) eqn:He; cbn; intros [= <- <-]; cbn; auto.
  - cbn. destruct (dataType d =? "LasDataset")%string eqn:Ht; cbn.
    + apply String.eqb_eq in Ht.
      destruct (pointCount d) as [e|n]; cbn.
      * destruct (isinstance_Exception e) eqn:He; cbn; intros [= <- <-]; cbn; auto.
      * destruct (fileCount d) as [e|m]; cbn.
        -- destruct (isinstance_Exception e) eqn:He; cbn; intros [= <- <-]; cbn; auto.
        -- intros [= <- <-]. cbn. eauto.
    + apply String.eqb_neq in Ht. intros [= <- <-]. cbn. eauto.
Qed.

(** A failure of the check itself does not stop the run: when describing
    the dataset or reading its counts raises an exception of class
    [Exception], the check logs a warning with the exception's text and
    that processing continues, and the run goes on past the check. *)
Theorem check_failure_is_a_warning s1 e :
  check_failure (store (world s1)) las = Some e ->
  isinstance_Exception e = true ->
  exists s2 l,
    check_validity las s1 = (s2, Normal tt)
    /\ world s2 = world s1
    /\ log s2
       = (log s1 ++ l
          ++ [Warning ("Error checking LAS dataset: " ++ exn_str e);
              Message "Continuing processing despite validation check failure..."])%list
    /\ Forall (fun m => exists text, m = Message text) l.
Proof.
  unfold check_failure, check_validity, call, check_building_class_code, try_except,
    bind, arcpy_Describe, except_Exception.
  destruct (describe (store (world s1)) las) as [e0|d] eqn:Hd.
  - intros [= ->] He. rewrite He. cbn.
    eexists. exists []. split; [reflexivity|].
    unfold add_log, add_event. cbn. rewrite <- ?app_assoc.
    repeat split. constructor.
  - cbn. destruct (dataType d =? "LasDataset")%string; cbn; [|discriminate].
    destruct (pointCount d) as [e0|n]; cbn.
    + intros [= ->] He. rewrite He. cbn.
      eexists. exists [Message "LAS Dataset information:"].
      split; [reflexivity|].
      unfold add_log, add_event. cbn. rewrite <- ?app_assoc.
      repeat split. repeat constructor. eauto.
    + destruct (fileCount d) as [e0|m]; cbn; [|discriminate].
      intros [= ->] He. rewrite He. cbn.
      eexists. exists [Message "LAS Dataset information:";
                       Message ("  - Point count: " ++ str_int n)].
      split; [reflexivity|].
      unfold add_log, add_event. cbn. rewrite <- ?app_assoc.
      repeat split. repeat constructor; eauto.
Qed.

(** An exception of class [Exception] raised before the first stage, by
    the creation of a geodatabase, is reported by the outer handlers:
    for an [ExecuteError] the engine's messages of severity 2 are logged
    after ["ArcPy error in process:"], for any other the exception's
    text; the run returns [False] and no stage has been asked anything. *)
Theorem setup_failure_is_reported s0 s' e :
  prepare las home out s0 = (s', Raised e) ->
  isinstance_Exception e = true ->
  let sf := fst (run las home out s0) in
  snd (run las home out s0) = Normal (Some false)
  /\ log sf
     = (log s'
        ++ (if isinstance_ExecuteError e
            then [Error "ArcPy error in process:";
                  Error (get_messages (store (world s')) 2)]
            else [Error ("An unexpected error occurred: " ++ exn_str e)]))%list
  /\ world sf = world s'
  /\ exists evs, trace sf = (trace s0 ++ evs)%list /\ Forall no_stage evs.
Proof.
  intros Hp He sf.
  assert (Hpipe : pipeline las home out s0 = (s', Raised e)).
  { unfold pipeline. now apply bind_Raised. }
  destruct (prepare_no_stage las home out _ _ _ Hp) as (evs & Ht & HF).
  subst sf. unfold run, call, process_las_dataset, try_except, outer_handler.
  rewrite Hpipe, He.
  destruct (isinstance_ExecuteError e); cbn.
  - rewrite <- app_assoc. repeat split. exists evs. now split.
  - repeat split. exists evs. now split.
Qed.

End InputChecks.

(** No home directory: the run stops at the second test. *)
Lemma missing_directory_fails_before_workspaces_witness :
  snd (run "/data/city.lasd" "/home" "/out" Scenario.no_home) = Normal (Some false)
  /\ log (fst (run "/data/city.lasd" "/home" "/out" Scenario.no_home))
     = [Error "Home directory does not exist: /home"].
Proof.
  destruct (missing_directory_fails_before_workspaces
              "/data/city.lasd" "/home" "/out" Scenario.no_home)
    as (Hret & Hlog & _).
  - reflexivity.
  - reflexivity.
  - split; [exact Hret | exact Hlog].
Defined.

(** On a feature class the check answers [False]. *)
Lemma check_building_class_code_outcomes_witness :
  exists d,
    describe (store (world Fake.wrong_type)) "/data/city.lasd" = inr d
    /\ dataType d <> "LasDataset".
Proof.
  destruct (check_building_class_code_outcomes "/data/city.lasd" Fake.wrong_type
              (fst (call (R' := bool) (check_building_class_code "/data/city.lasd")
                      Fake.wrong_type))
              (Normal (Some false)))
    as (_ & _ & H).
  - vm_compute. reflexivity.
  - exact H.
Defined.

(** A dataset that cannot be described passes the check with a warning. *)
Lemma check_failure_is_a_warning_witness :
  exists s2 l,
    check_validity "/data/city.lasd" Scenario.undescribed = (s2, Normal tt)
    /\ world s2 = world Scenario.undescribed
    /\ log s2
       = (log Scenario.undescribed ++ l
          ++ [Warning "Error checking LAS dataset: cannot describe /data/city.lasd";
              Message "Continuing processing despite validation check failure..."])%list
    /\ Forall (fun m => exists text, m = Message text) l.
Proof.
  apply (check_failure_is_a_warning "/data/city.lasd" Scenario.undescribed
           (mkExn OtherException "cannot describe /data/city.lasd")).
  - reflexivity.
  - reflexivity.
Defined.

(** The engine refuses to create the geodatabase: the run reports the
    engine's error and stops. *)
Lemma setup_failure_is_reported_witness :
  snd (run "/data/city.lasd" "/home" "/out" Scenario.no_gdb) = Normal (Some false)
  /\ exists evs,
      trace (fst (run "/data/city.lasd" "/home" "/out" Scenario.no_gdb))
      = (trace Scenario.no_gdb ++ evs)%list
      /\ Forall no_stage evs.
Proof.
  destruct (setup_failure_is_reported "/data/city.lasd" "/home" "/out" Scenario.no_gdb
              (fst (prepare "/data/city.lasd" "/home" "/out" Scenario.no_gdb))
              (mkExn ExecuteError "ERROR 000732"))
    as (Hret & _ & _ & Htrace).
  - vm_compute. reflexivity.
  - reflexivity.
  - split; [exact Hret | exact Htrace].
Defined.


(** ** Where a block returns and what it hands on *)

Section ReturnFacts.
Context {P : Platform}.

Lemma returns_never {A} Q (m : M bool A) :
  (forall s s' r, m s <> (s', Returned r)) -> returns Q m.
Proof. intros H s s' r E. now apply H in E. Qed.

Lemma returns_ret {A} Q (a : A) : returns Q (ret a).
Proof. apply returns_never. unfold ret. intros s s' r [=]. Qed.

Lemma returns_raise {A} Q e : returns Q (raise (A := A) e).
Proof. apply returns_never. unfold raise. intros s s' r [=]. Qed.

Lemma returns_getattr {A} Q (v : Exn + A) : returns Q (getattr v).
Proof. destruct v; [apply returns_raise | apply returns_ret]. Qed.

Lemma returns_AddMessage Q msg : returns Q (AddMessage msg).
Proof. apply returns_never. unfold AddMessage. intros s s' r [=]. Qed.

Lemma returns_AddError Q msg : returns Q (AddError msg).
Proof. apply returns_never. unfold AddError. intros s s' r [=]. Qed.

Lemma returns_GetMessages Q n : returns Q (arcpy_GetMessages n).
Proof. apply returns_never. unfold arcpy_GetMessages. intros s s' r [=]. Qed.

Lemma returns_set_env Q f : returns Q (set_env f).
Proof. apply returns_never. unfold set_env. intros s s' r [=]. Qed.

Lemma returns_Exists Q path : returns Q (arcpy_Exists path).
Proof. apply returns_never. unfold arcpy_Exists. intros s s' r [=]. Qed.

Lemma returns_path_exists Q path : returns Q (os_path_exists path).
Proof. apply returns_never. unfold os_path_exists. intros s s' r [=]. Qed.

Lemma returns_Describe Q path : returns Q (arcpy_Describe path).
Proof.
  apply returns_never. unfold arcpy_Describe. intros s s' r.
  destruct (describe (store (world s)) path); intros [=].
Qed.

Lemma returns_ext Q c : returns Q (ext c).
Proof.
  apply returns_never. unfold ext. intros s s' r.
  destruct (run_ext c (world s)) as [w [e|]]; intros [=].
Qed.

Lemma returns_call {R} Q (body : M R unit) : returns Q (call body).
Proof.
  apply returns_never. unfold call. intros s s' r.
  destruct (body s) as [s1 [a|r1|e]]; intros [=].
Qed.

Lemma returns_return {A} (Q : State -> bool -> Prop) r :
  (forall s, Q s r) -> returns Q (return_ (A := A) r).
Proof. intros H s s' r'. unfold return_. intros [= <- <-]. apply H. Qed.

Lemma returns_AddError_return {A} (Q : State -> bool -> Prop) msg r :
  (forall s, Q (add_log (Error msg) s) r) ->
  returns Q (AddError msg;; return_ (A := A) r).
Proof. intros H s s' r'. unfold bind, AddError, return_. intros [= <- <-]. apply H. Qed.

Lemma returns_AddMessage_return {A} (Q : State -> bool -> Prop) msg r :
  (forall s, Q (add_log (Message msg) s) r) ->
  returns Q (AddMessage msg;; return_ (A := A) r).
Proof. intros H s s' r'. unfold bind, AddMessage, return_. intros [= <- <-]. apply H. Qed.

Lemma returns_bind {A B} Q (m : M bool A) (k : A -> M bool B) :
  returns Q m -> (forall a, returns Q (k a)) -> returns Q (bind m k).
Proof.
  intros Hm Hk s s' r. unfold bind.
  destruct (m s) as [s1 [a|r1|e]] eqn:E.
  - apply Hk.
  - intros [= <- <-]. now apply (Hm _ _ _ E).
  - intros [=].
Qed.

Lemma returns_when Q c (m : M bool unit) : returns Q m -> returns Q (when c m).
Proof. intros H. destruct c; [exact H | apply returns_ret]. Qed.

Lemma returns_for_each {A} Q (xs : list A) (f : A -> M bool unit) :
  (forall x, returns Q (f x)) -> returns Q (for_each xs f).
Proof.
  intros Hf. induction xs as [|x xs IH]; cbn.
  - apply returns_ret.
  - apply returns_bind; auto.
Qed.

Lemma returns_try_except {A} Q (body : M bool A) h :
  returns Q body -> (forall e k, h e = Some k -> returns Q k) ->
  returns Q (try_except body h).
Proof.
  intros Hb Hh s s' r. unfold try_except.
  destruct (body s) as [s1 [a|r1|e]] eqn:E.
  - intros [=].
  - intros [= <- <-]. now apply (Hb _ _ _ E).
  - destruct (h e) as [k|] eqn:Ek.
    + apply (Hh _ _ Ek).
    + intros [=].
Qed.

Lemma returns_stage_handler {A} (Q : State -> bool -> Prop) prefix e (k : M bool A) :
  (forall s msg, Q (add_log (Error msg) s) false) ->
  stage_handler prefix e = Some k -> returns Q k.
Proof.
  intros HQ. unfold stage_handler, except_Exception.
  destruct (isinstance_Exception e); [|discriminate].
  intros [= <-]. apply returns_AddError_return. intros s. apply HQ.
Qed.

Lemma valued_bind {R A B} V (m : M R A) (k : A -> M R B) :
  (forall a, valued V (k a)) -> valued V (bind m k).
Proof.
  intros Hk s s' b. unfold bind.
  destruct (m s) as [s1 [a|r1|e]].
  - apply Hk.
  - intros [=].
  - intros [=].
Qed.

Lemma valued_try_except {R A} V (body : M R A) h :
  valued V body -> (forall e k, h e = Some k -> valued V k) ->
  valued V (try_except body h).
Proof.
  intros Hb Hh s s' a. unfold try_except.
  destruct (body s) as [s1 [a1|r1|e]] eqn:E.
  - intros [= <- <-]. now apply (Hb _ _ _ E).
  - intros [=].
  - destruct (h e) as [k|] eqn:Ek.
    + apply (Hh _ _ Ek).
    + intros [=].
Qed.

Lemma valued_ret {R A} (V : A -> Prop) a : V a -> valued V (ret (R := R) a).
Proof. intros H s s' a'. unfold ret. now intros [= _ <-]. Qed.

Lemma valued_return {R A} (V : A -> Prop) r : valued V (return_ (R := R) (A := A) r).
Proof. intros s s' a. unfold return_. intros [=]. Qed.

Lemma valued_stage_handler {A} V prefix e (k : M bool A) :
  stage_handler prefix e = Some k -> valued V k.
Proof.
  unfold stage_handler, except_Exception.
  destruct (isinstance_Exception e); [|discriminate].
  intros [= <-]. apply valued_bind. intros _. apply valued_return.
Qed.

Lemma emits_bind_valued {R A B} Q V (m : M R A) (k : A -> M R B) :
  emits Q m -> valued V m -> (forall a, V a -> emits Q (k a)) ->
  emits Q (bind m k).
Proof.
  intros Hm Hv Hk s s' sig. unfold bind.
  destruct (m s) as [s1 [a|r|e]] eqn:E; destruct (Hm _ _ _ E) as (evs & Et & F).
  - intros H. destruct (Hk a (Hv _ _ _ E) _ _ _ H) as (evs' & Et' & F').
    exists (evs ++ evs')%list. split.
    + now rewrite Et', Et, app_assoc.
    + apply Forall_app. now split.
  - intros [= <- _]. eauto.
  - intros [= <- _]. eauto.
Qed.

End ReturnFacts.

Ltac returns_leaf :=
  first
    [ apply returns_call | apply returns_ret | apply returns_raise
    | apply returns_getattr | apply returns_AddMessage | apply returns_AddError
    | apply returns_GetMessages | apply returns_set_env | apply returns_Exists
    | apply returns_path_exists | apply returns_Describe | apply returns_ext ].

(** [side] proves the property at a [return]. *)
Ltac returns_with side :=
  repeat first
    [ apply returns_AddError_return; intros ?; side
    | apply returns_AddMessage_return; intros ?; side
    | apply returns_return; intros ?; side
    | returns_leaf
    | apply returns_bind; [| intros ?]
    | apply returns_when
    | apply returns_for_each; intros ?
    | apply returns_try_except; [| intros ? ? ?]
    | eapply returns_stage_handler; [intros ? ?; side | eassumption]
    | match goal with
      | |- returns _ (match ?x with _ => _ end) => destruct x
      | H : (if ?c then _ else _) = Some _ |- _ => destruct c
      | H : Some _ = Some _ |- _ => injection H as <-
      | H : None = Some _ |- _ => discriminate H
      end ].

Section Reports.
Context {P : Platform}.
Variables las home out : string.

Lemma process_las_dataset_reports :
  returns (fun s r => ends_with_report r (log s)) (process_las_dataset las home out).
Proof.
  unfold process_las_dataset, outer_handler, pipeline, prepare.
  unfold validate_input_paths, create_workspaces, check_validity, create_geodatabase.
  unfold elevation_stage, elevation_body, elevation_invoke, elevation_check,
    mosaic_stage, mosaic_body, mosaic_invoke, mosaic_check,
    focal_stage, focal_body, focal_invoke, focal_check,
    footprint_stage, footprint_body, footprint_invoke, footprint_check,
    segmentation_stage, segmentation_body, segmentation_invoke, segmentation_check,
    roofform_stage, roofform_body, roofform_invoke, roofform_check.
  returns_with ltac:(unfold ends_with_report; cbn; eauto).
Qed.

Lemma roofform_stage_never_ends f : valued (fun _ => False) (roofform_stage home f).
Proof.
  unfold roofform_stage. apply valued_try_except.
  - unfold roofform_body, roofform_check.
    repeat (apply valued_bind; intros ?). apply valued_return.
  - intros e k. apply valued_stage_handler.
Qed.

Lemma pipeline_never_ends : valued (fun _ => False) (pipeline las home out).
Proof.
  unfold pipeline. repeat (apply valued_bind; intros ?).
  apply roofform_stage_never_ends.
Qed.

(** The last message of a run tells its outcome.  [process_las_dataset]
    never falls off its end; when it returns [False] the last message
    logged is an error, and when it returns [True] it is
    ["Roof form extraction completed successfully"]. *)
Theorem last_message_reports_the_outcome s0 sf v :
  run las home out s0 = (sf, Normal v) ->
  exists r, v = Some r /\ ends_with_report r (log sf).
Proof.
  unfold run, call.
  destruct (process_las_dataset las home out s0) as [s1 [[]|r|e]] eqn:E;
    intros [= <- <-].
  - exfalso. unfold process_las_dataset, try_except in E.
    destruct (pipeline las home out s0) as [s2 [[]|r|e]] eqn:Ep.
    + exact (pipeline_never_ends _ _ _ Ep).
    + discriminate.
    + unfold outer_handler in E.
      destruct (isinstance_ExecuteError e); [cbn in E; discriminate|].
      destruct (isinstance_Exception e); cbn in E; discriminate.
  - exists r. split; [reflexivity|].
    exact (process_las_dataset_reports _ _ _ E).
Qed.

End Reports.

Lemma last_message_reports_the_outcome_witness :
  exists r,
    Some true = Some r
    /\ ends_with_report r (log (fst (run "/data/city.lasd" "/home" "/out" Fake.good))).
Proof.
  apply (last_message_reports_the_outcome "/data/city.lasd" "/home" "/out" Fake.good).
  vm_compute. reflexivity.
Defined.


(** ** What the tool creates *)

Section Creations.
Context {P : Platform}.
Variables las home out : string.

Lemma prepare_frame : valued (fun f => f = frame_of las out) (prepare las home out).
Proof.
  unfold prepare, create_geodatabase.
  repeat (apply valued_bind; intros ?). now apply valued_ret.
Qed.

Ltac creation_side :=
  cbn; first [exact I | unfold gdb_name_of, lasd_name_of; intuition auto].

Lemma process_las_dataset_creations :
  emits (creates_only las home out) (process_las_dataset las home out).
Proof.
  unfold process_las_dataset. apply emits_try_except.
  - unfold pipeline.
    apply emits_bind_valued with (V := fun f => f = frame_of las out).
    + unfold prepare, validate_input_paths, create_workspaces, check_validity,
        create_geodatabase, check_building_class_code.
      emits_with creation_side.
    + apply prepare_frame.
    + intros f ->.
      unfold elevation_stage, elevation_body, elevation_invoke, elevation_check,
        mosaic_stage, mosaic_body, mosaic_invoke, mosaic_check,
        focal_stage, focal_body, focal_invoke, focal_check,
        footprint_stage, footprint_body, footprint_invoke, footprint_check,
        segmentation_stage, segmentation_body, segmentation_invoke, segmentation_check,
        roofform_stage, roofform_body, roofform_invoke, roofform_check,
        validate_roof_forms.
      emits_with creation_side.
  - intros e k Hk. unfold outer_handler in Hk. emits_with creation_side.
Qed.

(** The tool creates nothing but its own four containers: in any run,
    every geodatabase it asks for is [Intermediate] or
    [<dataset name>_processing.gdb] in the output directory, and every
    folder it makes is [<dataset name>_mosaic_rasters] in the output
    directory or [roof_forms] in the home directory.  It never creates the
    home directory or the output directory. *)
Theorem tool_creates_only_its_containers s0 :
  exists evs,
    trace (fst (run las home out s0)) = (trace s0 ++ evs)%list
    /\ Forall (creates_only las home out) evs.
Proof.
  destruct (run las home out s0) as [sf sig] eqn:E.
  refine (emits_call _ _ process_las_dataset_creations _ _ _ E).
Qed.

End Creations.


(** ** The order of the stages *)

Ltac explore :=
  repeat match goal with
         | |- context [run_ext ?c ?w] =>
             let w' := fresh "w" in
             let e := fresh "e" in
             destruct (run_ext c w) as [w' [e|]]; cbn
         | |- context [arc_exists ?st ?p] => destruct (arc_exists st p); cbn
         | |- context [path_exists ?st ?p] => destruct (path_exists st p); cbn
         | |- context [describe ?st ?p] =>
             let e := fresh "e" in
             let d := fresh "d" in
             destruct (describe st p) as [e|d]; cbn
         | |- context [spatialReference ?d] =>
             let e := fresh "e" in
             let r := fresh "r" in
             destruct (spatialReference d) as [e|[r|]]; cbn
         | |- context [isinstance_Exception ?e] =>
             destruct (isinstance_Exception e); cbn
         end.

Ltac show_trace :=
  cbn; rewrite <- ?app_assoc; cbn;
  first [reflexivity | symmetry; apply app_nil_r].

Section StageOrder.
Context {P : Platform}.
Variables las home out : string.

Ltac stage_work :=
  cbn [for_each];
  unfold try_except, stage_handler, except_Exception, bind, ext, arcpy_Exists,
    os_path_exists, arcpy_Describe, getattr, when, raise_ValueError, raise, ret,
    return_, AddMessage, AddError, set_env, call;
  cbn; explore;
  intros [= <- <-]; eexists; (split; [show_trace|]); cbn; auto.

Lemma elevation_stage_work f s sf sig :
  elevation_stage las home f s = (sf, sig) ->
  exists evs, trace sf = (trace s ++ evs)%list /\ stage_did Elevation sig evs.
Proof.
  unfold elevation_stage, elevation_body, elevation_invoke, elevation_check.
  stage_work.
Qed.

Lemma mosaic_stage_work f s sf sig :
  mosaic_stage las home out f s = (sf, sig) ->
  exists evs, trace sf = (trace s ++ evs)%list /\ stage_did Mosaic sig evs.
Proof.
  unfold mosaic_stage, mosaic_body, mosaic_invoke, mosaic_check.
  stage_work.
Qed.

Lemma focal_stage_work f out_mosaic s sf sig :
  focal_stage f out_mosaic s = (sf, sig) ->
  exists evs, trace sf = (trace s ++ evs)%list /\ stage_did Focal sig evs.
Proof.
  unfold focal_stage, focal_body, focal_invoke, focal_check.
  stage_work.
Qed.

Lemma footprint_stage_work f s sf sig :
  footprint_stage home f s = (sf, sig) ->
  exists evs, trace sf = (trace s ++ evs)%list /\ stage_did Footprints sig evs.
Proof.
  unfold footprint_stage, footprint_body, footprint_invoke, footprint_check.
  stage_work.
Qed.

Lemma segmentation_stage_work f output_poly s sf sig :
  segmentation_stage home f output_poly s = (sf, sig) ->
  exists evs, trace sf = (trace s ++ evs)%list /\ stage_did Segmentation sig evs.
Proof.
  unfold segmentation_stage, segmentation_body, segmentation_invoke,
    segmentation_check.
  stage_work.
Qed.

Lemma roofform_stage_work f s sf sig :
  roofform_stage home f s = (sf, sig) ->
  exists evs, trace sf = (trace s ++ evs)%list /\ stage_did RoofForms sig evs.
Proof.
  unfold roofform_stage, roofform_body, roofform_invoke, roofform_check,
    validate_roof_forms.
  stage_work.
Qed.

Lemma work_app evs evs' : work (evs ++ evs') = (work evs ++ work evs')%list.
Proof.
  induction evs as [|ev evs IH]; cbn; [reflexivity|].
  destruct (routine_stage ev); cbn; now rewrite IH.
Qed.

Lemma work_no_stage evs : Forall no_stage evs -> work evs = [].
Proof.
  induction 1 as [|ev evs Hev _ IH]; cbn; [reflexivity|].
  rewrite IH. unfold no_stage in Hev.
  destruct ev as [| | |c]; cbn; try reflexivity.
  destruct c; cbn in *; try reflexivity; discriminate.
Qed.

Lemma prepare_work s0 s sig :
  prepare las home out s0 = (s, sig) ->
  (exists evs, trace s = (trace s0 ++ evs)%list /\ work evs = firstn 0 stage_order)
  /\ sig <> Returned true.
Proof.
  intros H. split.
  - destruct (prepare_no_stage las home out _ _ _ H) as (evs & Ht & HF).
    exists evs. split; [exact Ht | now apply work_no_stage].
  - intros ->.
    assert (Hr : returns (fun _ r => r = false) (prepare las home out)).
    { unfold prepare, validate_input_paths, create_workspaces, check_validity,
        create_geodatabase.
      returns_with ltac:(reflexivity). }
    specialize (Hr _ _ _ H). discriminate.
Qed.

Lemma firstn_snoc {A} (l : list A) n k :
  nth_error l n = Some k -> firstn (S n) l = (firstn n l ++ [k])%list.
Proof.
  revert n. induction l as [|a l IH]; intros [|n]; cbn; try discriminate.
  - now intros [= ->].
  - intros H. now rewrite <- IH.
Qed.

Lemma order_step {A} k n (sig : Signal bool A) s0 s sf evs' :
  (exists evs, trace s = (trace s0 ++ evs)%list /\ work evs = firstn n stage_order) ->
  nth_error stage_order n = Some k ->
  trace sf = (trace s ++ evs')%list ->
  stage_did k sig evs' ->
  match sig with
  | Normal _ =>
      exists evs, trace sf = (trace s0 ++ evs)%list
                  /\ work evs = firstn (S n) stage_order
  | _ =>
      exists evs m, trace sf = (trace s0 ++ evs)%list
                    /\ work evs = firstn m stage_order
                    /\ (sig = Returned true -> m = 6%nat)
  end.
Proof.
  intros (evs & Ht & Hw) Hk Ht' Hd.
  assert (Hcat : trace sf = (trace s0 ++ evs ++ evs')%list)
    by now rewrite Ht', Ht, app_assoc.
  assert (Hnext : work evs' = [k] ->
                  work (evs ++ evs') = firstn (S n) stage_order).
  { intros Hk'. now rewrite work_app, Hw, Hk', (firstn_snoc _ _ _ Hk). }
  assert (Hsame : work evs' = [] -> work (evs ++ evs') = firstn n stage_order).
  { intros Hk'. now rewrite work_app, Hw, Hk', app_nil_r. }
  destruct sig as [a|[|]|e]; cbn in Hd.
  - exists (evs ++ evs')%list. auto.
  - destruct Hd as [Hd ->]. exists (evs ++ evs')%list, (S n).
    repeat split; auto. intros _.
    destruct n as [|[|[|[|[|[|n]]]]]]; cbn in Hk; try discriminate;
      [reflexivity | destruct n; discriminate].
  - destruct Hd as [Hd|Hd].
    + exists (evs ++ evs')%list, n. repeat split; auto. discriminate.
    + exists (evs ++ evs')%list, (S n). repeat split; auto. discriminate.
  - destruct Hd as [Hd|Hd].
    + exists (evs ++ evs')%list, n. repeat split; auto. discriminate.
    + exists (evs ++ evs')%list, (S n). repeat split; auto. discriminate.
Qed.

Ltac stop_with I :=
  let evs := fresh "evs" in
  let m := fresh "m" in
  let Ht := fresh "Ht" in
  let Hw := fresh "Hw" in
  let Hm := fresh "Hm" in
  let Hq := fresh "Hq" in
  intros [= <- <-]; destruct I as (evs & m & Ht & Hw & Hm);
  exists evs, m; split; [exact Ht|]; split; [exact Hw|];
  intros Hq; first [discriminate Hq | injection Hq as ->; now apply Hm].

Lemma pipeline_work s0 sf sig :
  pipeline las home out s0 = (sf, sig) ->
  exists evs m,
    trace sf = (trace s0 ++ evs)%list
    /\ work evs = firstn m stage_order
    /\ (sig = Returned true -> m = 6%nat).
Proof.
  unfold pipeline. unfold bind at 1.
  destruct (prepare las home out s0) as [s1 [f|r|e]] eqn:E0;
    destruct (prepare_work _ _ _ E0) as [I0 N0].
  2: { intros [= <- <-]. destruct I0 as (evs & Ht & Hw). exists evs, 0%nat.
       repeat split; auto. intros [= ->]. now elim N0. }
  2: { intros [= <- <-]. destruct I0 as (evs & Ht & Hw). exists evs, 0%nat.
       repeat split; auto. discriminate. }
  unfold bind at 1.
  destruct (elevation_stage las home f s1) as [s2 sig1] eqn:E1.
  destruct (elevation_stage_work _ _ _ _ E1) as (evs1 & Ht1 & Hd1).
  pose proof (order_step Elevation 0 sig1 s0 s1 s2 evs1 I0 eq_refl Ht1 Hd1) as I1.
  destruct sig1 as [[]|r|e]; [|stop_with I1|stop_with I1].
  unfold bind at 1.
  destruct (mosaic_stage las home out f s2) as [s3 sig2] eqn:E2.
  destruct (mosaic_stage_work _ _ _ _ E2) as (evs2 & Ht2 & Hd2).
  pose proof (order_step Mosaic 1 sig2 s0 s2 s3 evs2 I1 eq_refl Ht2 Hd2) as I2.
  destruct sig2 as [out_mosaic|r|e]; [|stop_with I2|stop_with I2].
  unfold bind at 1.
  destruct (focal_stage f out_mosaic s3) as [s4 sig3] eqn:E3.
  destruct (focal_stage_work _ _ _ _ _ E3) as (evs3 & Ht3 & Hd3).
  pose proof (order_step Focal 2 sig3 s0 s3 s4 evs3 I2 eq_refl Ht3 Hd3) as I3.
  destruct sig3 as [[]|r|e]; [|stop_with I3|stop_with I3].
  unfold bind at 1.
  destruct (footprint_stage home f s4) as [s5 sig4] eqn:E4.
  destruct (footprint_stage_work _ _ _ _ E4) as (evs4 & Ht4 & Hd4).
  pose proof (order_step Footprints 3 sig4 s0 s4 s5 evs4 I3 eq_refl Ht4 Hd4) as I4.
  destruct sig4 as [output_poly|r|e]; [|stop_with I4|stop_with I4].
  unfold bind at 1.
  destruct (segmentation_stage home f output_poly s5) as [s6 sig5] eqn:E5.
  destruct (segmentation_stage_work _ _ _ _ _ E5) as (evs5 & Ht5 & Hd5).
  pose proof (order_step Segmentation 4 sig5 s0 s5 s6 evs5 I4 eq_refl Ht5 Hd5) as I5.
  destruct sig5 as [[]|r|e]; [|stop_with I5|stop_with I5].
  intros E6.
  destruct (roofform_stage_work _ _ _ _ E6) as (evs6 & Ht6 & Hd6).
  pose proof (order_step RoofForms 5 sig s0 s6 sf evs6 I5 eq_refl Ht6 Hd6) as I6.
  destruct sig as [[]|r|e]; try exact I6.
  exfalso. exact (roofform_stage_never_ends home f _ _ _ E6).
Qed.

(** The stages run in their fixed order.  In any run the routines that
    have been run are, in this order and once each, the first [m] of
    elevation extraction, building mosaic, focal statistics, footprints,
    roof segmentation and roof form extraction; a run that returns
    [True] has run all six. *)
Theorem stages_run_in_order s0 :
  exists evs m,
    trace (fst (run las home out s0)) = (trace s0 ++ evs)%list
    /\ work evs = firstn m stage_order
    /\ (snd (run las home out s0) = Normal (Some true) -> m = 6%nat).
Proof.
  unfold run, call, process_las_dataset, try_except.
  destruct (pipeline las home out s0) as [s1 [[]|r|e]] eqn:E;
    destruct (pipeline_work _ _ _ E) as (evs & m & Ht & Hw & Hm).
  - exists evs, m. repeat split; auto. discriminate.
  - exists evs, m. cbn. repeat split; auto. intros [= ->]. now apply Hm.
  - exists evs, m. unfold outer_handler.
    destruct (isinstance_ExecuteError e); cbn.
    + repeat split; auto. discriminate.
    + destruct (isinstance_Exception e); cbn; repeat split; auto; discriminate.
Qed.

End StageOrder.


(** ** A run that succeeds *)

Section Success.
Context {P : Platform}.
Variables las home out : string.

Lemma valued_bind_valued {R A B} (V : A -> Prop) (W : B -> Prop)
  (m : M R A) (k : A -> M R B) :
  valued V m -> (forall a, V a -> valued W (k a)) -> valued W (bind m k).
Proof.
  intros Hm Hk s s' b. unfold bind.
  destruct (m s) as [s1 [a|r1|e]] eqn:E.
  - apply Hk. exact (Hm _ _ _ E).
  - intros [=].
  - intros [=].
Qed.

Lemma upto_mosaic_frame :
  valued (fun f => f = frame_of las out) (upto_mosaic las home out).
Proof.
  unfold upto_mosaic, upto_elevation.
  apply valued_bind_valued with (V := fun f => f = frame_of las out);
    [apply prepare_frame|].
  intros f Hf. apply valued_bind. intros _. now apply valued_ret.
Qed.

Lemma upto_focal_frame :
  valued (fun fm => fst fm = frame_of las out) (upto_focal las home out).
Proof.
  unfold upto_focal.
  apply valued_bind_valued with (V := fun f => f = frame_of las out);
    [apply upto_mosaic_frame|].
  intros f Hf. apply valued_bind. intros m. now apply valued_ret.
Qed.

Lemma upto_footprint_frame :
  valued (fun f => f = frame_of las out) (upto_footprint las home out).
Proof.
  unfold upto_footprint.
  apply valued_bind_valued with (V := fun fm => fst fm = frame_of las out);
    [apply upto_focal_frame|].
  intros f Hf. apply valued_bind. intros _. now apply valued_ret.
Qed.

Lemma upto_segmentation_frame :
  valued (fun fp => fst fp = frame_of las out) (upto_segmentation las home out).
Proof.
  unfold upto_segmentation.
  apply valued_bind_valued with (V := fun f => f = frame_of las out);
    [apply upto_footprint_frame|].
  intros f Hf. apply valued_bind. intros m. now apply valued_ret.
Qed.

Lemma upto_roofform_frame :
  valued (fun f => f = frame_of las out) (upto_roofform las home out).
Proof.
  unfold upto_roofform.
  apply valued_bind_valued with (V := fun fp => fst fp = frame_of las out);
    [apply upto_segmentation_frame|].
  intros f Hf. apply valued_bind. intros _. now apply valued_ret.
Qed.

Lemma pipeline_True s0 sf :
  pipeline las home out s0 = (sf, Returned true) ->
  exists s f,
    upto_roofform las home out s0 = (s, Normal f)
    /\ roofform_stage home f s = (sf, Returned true).
Proof.
  unfold pipeline, upto_roofform, upto_segmentation, upto_footprint, upto_focal,
    upto_mosaic, upto_elevation, bind, ret.
  destruct (prepare las home out s0) as [s1 [f|r|e]] eqn:E0; [| |discriminate].
  2: { intros [= <- ->]. now elim (proj2 (prepare_work las home out _ _ _ E0)). }
  destruct (elevation_stage las home f s1) as [s2 [[]|r|e]] eqn:E1; [| |discriminate].
  2: { intros [= <- ->].
       destruct (elevation_stage_work _ _ _ _ _ _ E1) as (evs & _ & Hd).
       cbn in Hd. destruct Hd as [_ Hd]. discriminate Hd. }
  destruct (mosaic_stage las home out f s2) as [s3 [m|r|e]] eqn:E2; [| |discriminate].
  2: { intros [= <- ->].
       destruct (mosaic_stage_work _ _ _ _ _ _ _ E2) as (evs & _ & Hd).
       cbn in Hd. destruct Hd as [_ Hd]. discriminate Hd. }
  cbn [fst snd].
  destruct (focal_stage f m s3) as [s4 [[]|r|e]] eqn:E3; [| |discriminate].
  2: { intros [= <- ->].
       destruct (focal_stage_work _ _ _ _ _ E3) as (evs & _ & Hd).
       cbn in Hd. destruct Hd as [_ Hd]. discriminate Hd. }
  destruct (footprint_stage home f s4) as [s5 [p|r|e]] eqn:E4; [| |discriminate].
  2: { intros [= <- ->].
       destruct (footprint_stage_work _ _ _ _ _ E4) as (evs & _ & Hd).
       cbn in Hd. destruct Hd as [_ Hd]. discriminate Hd. }
  cbn [fst snd].
  destruct (segmentation_stage home f p s5) as [s6 [[]|r|e]] eqn:E5; [| |discriminate].
  2: { intros [= <- ->].
       destruct (segmentation_stage_work _ _ _ _ _ _ E5) as (evs & _ & Hd).
       cbn in Hd. destruct Hd as [_ Hd]. discriminate Hd. }
  intros E6. exists s6, f. now split.
Qed.

Lemma roofform_invoke_never_returns f :
  returns (fun _ _ => False) (roofform_invoke home f).
Proof. unfold roofform_invoke. returns_with fail. Qed.

(** A run answers [True] only when the roof forms are there: at the
    moment [process_las_dataset] returns [True], [roof_forms] or
    [roof_forms_roofform] exists in the project workspace
    [<output directory>/<dataset name>_processing.gdb], and the world is
    as the roof-form routine left it. *)
Theorem success_means_roof_forms_exist s0 sf :
  run las home out s0 = (sf, Normal (Some true)) ->
  arc_exists (store (world sf))
    (os_path_join (project_ws_of las out) "roof_forms")
  || arc_exists (store (world sf))
       (os_path_join (project_ws_of las out) "roof_forms_roofform") = true
  /\ exists s f s',
      upto_roofform las home out s0 = (s, Normal f)
      /\ roofform_invoke home f s = (s', Normal tt)
      /\ world sf = world s'.
Proof.
  unfold run, call, process_las_dataset, try_except.
  destruct (pipeline las home out s0) as [s1 [[]|r|e]] eqn:E; try discriminate.
  2: { unfold outer_handler. destruct (isinstance_ExecuteError e); cbn; [discriminate|].
       destruct (isinstance_Exception e); cbn; discriminate. }
  intros [= <- ->].
  destruct (pipeline_True _ _ E) as (s & f & Hreach & Hstage).
  pose proof (upto_roofform_frame _ _ _ Hreach) as Hf. cbn in Hf.
  unfold roofform_stage, try_except in Hstage.
  destruct (roofform_body home f s) as [s2 [[]|r|e]] eqn:Hbody; try discriminate.
  2: { unfold stage_handler, except_Exception in Hstage.
       destruct (isinstance_Exception e); cbn in Hstage; discriminate. }
  injection Hstage as <- ->.
  unfold roofform_body in Hbody. unfold bind at 1 in Hbody.
  destruct (roofform_invoke home f s) as [s' [[]|r|e]] eqn:Hinv; try discriminate.
  2: { injection Hbody as <- ->.
       elim (roofform_invoke_never_returns f _ _ _ Hinv). }
  pose proof (roofform_check_cases f s') as Hc. cbn zeta in Hc.
  rewrite Hbody in Hc. subst f. cbn [project_ws frame_of] in Hc.
  destruct (arc_exists (store (world s')) (os_path_join (project_ws_of las out) "roof_forms"))
    eqn:E1.
  - injection Hc as ->. cbn. rewrite E1. split; [reflexivity|].
    exists s, (frame_of las out), s'. repeat split; assumption.
  - destruct (arc_exists (store (world s'))
                (os_path_join (project_ws_of las out) "roof_forms_roofform")) eqn:E2.
    + injection Hc as ->. cbn. rewrite E1, E2. split; [reflexivity|].
      exists s, (frame_of las out), s'. repeat split; assumption.
    + discriminate Hc.
Qed.

End Success.

Lemma success_means_roof_forms_exist_witness :
  arc_exists (store (world (fst (run "/data/city.lasd" "/home" "/out" Fake.alternate))))
    "/out/city_processing.gdb/roof_forms_roofform" = true.
Proof.
  destruct (success_means_roof_forms_exist "/data/city.lasd" "/home" "/out"
              Fake.alternate
              (fst (run "/data/city.lasd" "/home" "/out" Fake.alternate)))
    as [H _].
  - vm_compute. reflexivity.
  - apply orb_true_iff in H. destruct H as [H|H]; [|exact H].
    vm_compute in H. discriminate H.
Defined.

Lemma stages_run_in_order_witness :
  exists evs,
    trace (fst (run "/data/city.lasd" "/home" "/out" Fake.good))
    = (trace Fake.good ++ evs)%list
    /\ work evs = stage_order.
Proof.
  destruct (stages_run_in_order "/data/city.lasd" "/home" "/out" Fake.good)
    as (evs & m & Ht & Hw & Hm).
  exists evs. split; [exact Ht|].
  rewrite Hw, Hm; [reflexivity | vm_compute; reflexivity].
Defined.


(** ** What one stage hands to the next *)

Section HandOver.
Context {P : Platform}.
Variables las home out : string.

Lemma valued_raise {R A} (V : A -> Prop) e : valued V (raise (R := R) (A := A) e).
Proof. intros s s' a. unfold raise. intros [=]. Qed.

Lemma passes_with_output {V A} (invoke : M bool V) (rest : V -> M bool A)
  (present : V -> Store -> bool) prefix s sf a :
  (forall v s', checked (rest v) (present v (store (world s'))) s') ->
  try_except (bind invoke rest) (stage_handler prefix) s = (sf, Normal a) ->
  exists v s',
    invoke s = (s', Normal v)
    /\ rest v s' = (sf, Normal a)
    /\ present v (store (world sf)) = true
    /\ world sf = world s'.
Proof.
  intros Hcheck. unfold try_except.
  destruct (bind invoke rest s) as [s2 [a2|r|e]] eqn:Hbody.
  - intros [= <- <-]. unfold bind in Hbody.
    destruct (invoke s) as [s' [v|r|e]] eqn:Hinv; try discriminate.
    exists v, s'. split; [reflexivity|]. split; [exact Hbody|].
    destruct (Hcheck v s') as (s'' & probes & Hw & _ & _ & Hok).
    destruct (present v (store (world s'))) eqn:Hp.
    + destruct Hok as (sig & Hm & _). rewrite Hbody in Hm.
      injection Hm as <- _. rewrite Hw. now split.
    + destruct Hok as (_ & msg & Hm). rewrite Hbody in Hm. discriminate.
  - discriminate.
  - unfold stage_handler, except_Exception.
    destruct (isinstance_Exception e); cbn; discriminate.
Qed.

Lemma mosaic_invoke_value f :
  valued (fun v => v = os_path_join (project_ws f) "building_mosaic")
    (mosaic_invoke las home out f).
Proof.
  unfold mosaic_invoke. do 3 (apply valued_bind; intros ?).
  destruct a1 as [sr|]; [|apply valued_raise].
  repeat (apply valued_bind; intros ?). now apply valued_ret.
Qed.

Lemma focal_invoke_value f m :
  valued (fun v => v = os_path_join (project_ws f) "focal_mosaic") (focal_invoke f m).
Proof.
  unfold focal_invoke. repeat (apply valued_bind; intros ?). now apply valued_ret.
Qed.

Lemma footprint_invoke_value f :
  valued (fun v => v = os_path_join (project_ws f) "final_footprints")
    (footprint_invoke home f).
Proof.
  unfold footprint_invoke. repeat (apply valued_bind; intros ?). now apply valued_ret.
Qed.

Lemma segmentation_invoke_value f p :
  valued (fun v => v = os_path_join (project_ws f) "roof_segments")
    (segmentation_invoke home f p).
Proof.
  unfold segmentation_invoke. repeat (apply valued_bind; intros ?).
  now apply valued_ret.
Qed.

Ltac reached H :=
  unfold bind, ret in H;
  repeat match type of H with
         | context [match ?x with (_, _) => _ end] =>
             lazymatch x with
             | context [match _ with (_, _) => _ end] => fail
             | _ =>
                 let E := fresh "E" in
                 destruct x as [? [?|?|?]] eqn:E; try discriminate H;
                 cbn [fst snd] in H
             end
         end;
  injection H as ? ?; subst.

Lemma upto_focal_mosaic s0 s fm :
  upto_focal las home out s0 = (s, Normal fm) ->
  fst fm = frame_of las out
  /\ snd fm = os_path_join (project_ws_of las out) "building_mosaic"
  /\ arc_exists (store (world s)) (snd fm) = true.
Proof.
  intros H. pose proof (upto_focal_frame las home out _ _ _ H) as Hf. cbn in Hf.
  split; [exact Hf|].
  unfold upto_focal in H. reached H. cbn in Hf. subst.
  destruct (passes_with_output _ (fun v => mosaic_check v;; ret v)
              (fun v st => arc_exists st v) _ _ _ _
              (fun v s' => mosaic_check_checked v s') E0)
    as (v & s' & Hinv & Hrest & Hp & _).
  pose proof (mosaic_invoke_value _ _ _ _ Hinv) as Hv. cbn in Hv.
  assert (Ha : valued (fun a => a = v) (mosaic_check v;; ret v))
    by (apply valued_bind; intros _; now apply valued_ret).
  apply Ha in Hrest. subst. cbn. now split.
Qed.

Lemma upto_footprint_focal s0 s f :
  upto_footprint las home out s0 = (s, Normal f) ->
  f = frame_of las out
  /\ arc_exists (store (world s))
       (os_path_join (project_ws_of las out) "focal_mosaic") = true.
Proof.
  intros H. pose proof (upto_footprint_frame las home out _ _ _ H) as Hf. cbn in Hf.
  split; [exact Hf|].
  unfold upto_footprint in H. reached H.
  destruct (passes_with_output _ (fun v => focal_check v)
              (fun v st => arc_exists st v) _ _ _ _
              (fun v s' => focal_check_checked v s') E0)
    as (v & s' & Hinv & _ & Hp & _).
  pose proof (focal_invoke_value _ _ _ _ _ Hinv) as Hv. cbn in Hv.
  rewrite Hf in Hv. cbn in Hv. now subst.
Qed.

Lemma upto_segmentation_footprints s0 s fp :
  upto_segmentation las home out s0 = (s, Normal fp) ->
  fst fp = frame_of las out
  /\ snd fp = os_path_join (project_ws_of las out) "final_footprints"
  /\ arc_exists (store (world s)) (snd fp) = true.
Proof.
  intros H. pose proof (upto_segmentation_frame las home out _ _ _ H) as Hf.
  cbn in Hf. split; [exact Hf|].
  unfold upto_segmentation in H. reached H. cbn in Hf. subst.
  destruct (passes_with_output _ (fun v => footprint_check v;; ret v)
              (fun v st => arc_exists st v) _ _ _ _
              (fun v s' => footprint_check_checked v s') E0)
    as (v & s' & Hinv & Hrest & Hp & _).
  pose proof (footprint_invoke_value _ _ _ _ Hinv) as Hv. cbn in Hv.
  assert (Ha : valued (fun a => a = v) (footprint_check v;; ret v))
    by (apply valued_bind; intros _; now apply valued_ret).
  apply Ha in Hrest. subst. cbn. now split.
Qed.

Lemma upto_roofform_segments s0 s f :
  upto_roofform las home out s0 = (s, Normal f) ->
  f = frame_of las out
  /\ arc_exists (store (world s))
       (os_path_join (project_ws_of las out) "roof_segments" ++ "_segmented") = true.
Proof.
  intros H. pose proof (upto_roofform_frame las home out _ _ _ H) as Hf. cbn in Hf.
  split; [exact Hf|].
  unfold upto_roofform in H. reached H.
  destruct (passes_with_output _ (fun v => segmentation_check v)
              (fun v st => arc_exists st (v ++ "_segmented")) _ _ _ _
              (fun v s' => segmentation_check_checked v s') E0)
    as (v & s' & Hinv & _ & Hp & _).
  pose proof (segmentation_invoke_value _ _ _ _ _ Hinv) as Hv. cbn in Hv.
  rewrite Hf in Hv. cbn in Hv. now subst.
Qed.

Lemma upto_mosaic_rasters s0 s f :
  upto_mosaic las home out s0 = (s, Normal f) ->
  f = frame_of las out
  /\ forall p,
      In p (elevation_rasters (os_path_join (project_ws_of las out) "elev")) ->
      arc_exists (store (world s)) p = true.
Proof.
  intros H. pose proof (upto_mosaic_frame las home out _ _ _ H) as Hf. cbn in Hf.
  split; [exact Hf|].
  unfold upto_mosaic in H. reached H.
  match goal with
  | E0 : elevation_stage _ _ _ _ = (_, Normal ?u) |- _ =>
      destruct u; exact (elevation_stage_Normal las home _ _ _ E0)
  end.
Qed.

(** Every stage starts with the output of the stage before it in place:
    when the run reaches the mosaic stage the three elevation rasters
    exist, when it reaches the focal stage [building_mosaic] does, then
    [focal_mosaic], [final_footprints] and [roof_segments_segmented] (as
    [roof_segments] with the suffix appended), all in the project
    workspace [<output directory>/<dataset name>_processing.gdb], which is
    the workspace every stage is given. *)
Theorem each_stage_starts_with_its_input s0 s :
  (forall f,
      upto_mosaic las home out s0 = (s, Normal f) ->
      f = frame_of las out
      /\ forall p,
          In p (elevation_rasters (os_path_join (project_ws_of las out) "elev")) ->
          arc_exists (store (world s)) p = true)
  /\ (forall fm,
         upto_focal las home out s0 = (s, Normal fm) ->
         fst fm = frame_of las out
         /\ snd fm = os_path_join (project_ws_of las out) "building_mosaic"
         /\ arc_exists (store (world s)) (snd fm) = true)
  /\ (forall f,
         upto_footprint las home out s0 = (s, Normal f) ->
         f = frame_of las out
         /\ arc_exists (store (world s))
              (os_path_join (project_ws_of las out) "focal_mosaic") = true)
  /\ (forall fp,
         upto_segmentation las home out s0 = (s, Normal fp) ->
         fst fp = frame_of las out
         /\ snd fp = os_path_join (project_ws_of las out) "final_footprints"
         /\ arc_exists (store (world s)) (snd fp) = true)
  /\ (forall f,
         upto_roofform las home out s0 = (s, Normal f) ->
         f = frame_of las out
         /\ arc_exists (store (world s))
              (os_path_join (project_ws_of las out) "roof_segments" ++ "_segmented")
            = true).
Proof.
  repeat apply conj; intros x H.
  - exact (upto_mosaic_rasters _ _ _ H).
  - exact (upto_focal_mosaic _ _ _ H).
  - exact (upto_footprint_focal _ _ _ H).
  - exact (upto_segmentation_footprints _ _ _ H).
  - exact (upto_roofform_segments _ _ _ H).
Qed.

(** The input test of the focal stage cannot fail in a run: whenever the
    run reaches the stage, the mosaic is found and [FocalStatistics] is
    called on it, with a 3 by 3 cell rectangle, [MAJORITY] and [DATA]. *)
Theorem focal_statistics_is_always_called s0 s fm :
  upto_focal las home out s0 = (s, Normal fm) ->
  exists evs,
    trace (fst (focal_stage (fst fm) (snd fm) s))
    = (trace s
       ++ EvExists (snd fm)
          :: EvCall (FocalStatistics
                       {| fo_in_raster := snd fm;
                          fo_neighborhood := (3, 3, "CELL");
                          fo_statistics_type := "MAJORITY";
                          fo_ignore_nodata := "DATA" |})
          :: evs)%list.
Proof.
  intros H. destruct (upto_focal_mosaic _ _ _ H) as (_ & _ & Hex).
  destruct fm as [f m]. cbn [fst snd] in *.
  unfold focal_stage, focal_body, focal_invoke, focal_check.
  unfold try_except, stage_handler, except_Exception, bind, ext, arcpy_Exists,
    when, raise_ValueError, raise, ret, AddMessage, AddError, return_.
  cbn. rewrite Hex. cbn. explore; eexists; show_trace.
Qed.

(** The roof-form stage names its first missing input.  Once its script
    is imported the stage looks for the segmented roofs, the DSM, the DTM
    and the nDSM in that order; when one is missing the stage returns
    [False] with an error that names it, and the roof-form routine is not
    called: after the import the host is only asked whether things
    exist. *)
Theorem roofform_names_its_missing_input f s s1 label p :
  ext (R := bool) (ImportScript "scripts.extract_roof_form") s = (s1, Normal tt) ->
  find (fun lp => negb (arc_exists (store (world s1)) (snd lp)))
    (roofform_inputs (project_ws f)) = Some (label, p) ->
  exists sf probes,
    roofform_stage home f s = (sf, Returned false)
    /\ world sf = world s1
    /\ log sf = (log s1 ++ [Message "Starting roof form extraction...";
                            Error ("Error in roof form extraction: " ++ label ++ p)])%list
    /\ trace sf = (trace s1 ++ probes)%list
    /\ Forall is_probe probes.
Proof.
  intros Himp. unfold roofform_stage, roofform_body, roofform_invoke.
  unfold try_except. unfold bind at 1. unfold bind at 1. rewrite Himp.
  unfold roofform_inputs, find, snd.
  unfold stage_handler, except_Exception, bind, arcpy_Exists, when, raise_ValueError,
    raise, ret, AddMessage, AddError, return_.
  cbn.
  repeat match goal with
         | |- context [arc_exists ?st ?q] => destruct (arc_exists st q); cbn
         end;
    try discriminate;
    intros [= <- <-]; eexists; eexists; (split; [reflexivity|]);
    unfold add_log, add_event; cbn; rewrite <- ?app_assoc; cbn;
    (split; [reflexivity|]); (split; [reflexivity|]);
    (split; [reflexivity|]); repeat (constructor; try exact I).
Qed.

End HandOver.

(** On the test host the focal stage of a good run calls [FocalStatistics]. *)
Lemma focal_statistics_is_always_called_witness :
  exists evs,
    trace (fst (focal_stage Fake.frame "/out/city_processing.gdb/building_mosaic"
                  (fst (upto_focal "/data/city.lasd" "/home" "/out" Fake.good))))
    = (trace (fst (upto_focal "/data/city.lasd" "/home" "/out" Fake.good))
       ++ EvExists "/out/city_processing.gdb/building_mosaic"
          :: EvCall (FocalStatistics
                       {| fo_in_raster := "/out/city_processing.gdb/building_mosaic";
                          fo_neighborhood := (3, 3, "CELL");
                          fo_statistics_type := "MAJORITY";
                          fo_ignore_nodata := "DATA" |})
          :: evs)%list.
Proof.
  apply (focal_statistics_is_always_called "/data/city.lasd" "/home" "/out" Fake.good
           (fst (upto_focal "/data/city.lasd" "/home" "/out" Fake.good))
           (Fake.frame, "/out/city_processing.gdb/building_mosaic")).
  vm_compute. reflexivity.
Defined.

(** When a good run reaches the roof-form stage, the segments are there. *)
Lemma each_stage_starts_with_its_input_witness :
  arc_exists
    (store (world (fst (upto_roofform "/data/city.lasd" "/home" "/out" Fake.good))))
    "/out/city_processing.gdb/roof_segments_segmented" = true.
Proof.
  destruct (proj2 (proj2 (proj2 (proj2
              (each_stage_starts_with_its_input "/data/city.lasd" "/home" "/out"
                 Fake.good
                 (fst (upto_roofform "/data/city.lasd" "/home" "/out" Fake.good))))))
              Fake.frame)
    as [_ H].
  - vm_compute. reflexivity.
  - exact H.
Defined.

(** Segments and DSM are there, the DTM is not: the stage says so. *)
Lemma roofform_names_its_missing_input_witness :
  exists sf probes,
    roofform_stage "/home" Fake.frame Scenario2.no_dtm_left = (sf, Returned false)
    /\ world sf
       = world (fst (ext (R := bool) (ImportScript "scripts.extract_roof_form")
                       Scenario2.no_dtm_left))
    /\ log sf
       = (log (fst (ext (R := bool) (ImportScript "scripts.extract_roof_form")
                      Scenario2.no_dtm_left))
          ++ [Message "Starting roof form extraction...";
              Error ("Error in roof form extraction: " ++ "DTM file not found: "
                     ++ "/out/city_processing.gdb/elev_dtm")])%list
    /\ trace sf
       = (trace (fst (ext (R := bool) (ImportScript "scripts.extract_roof_form")
                        Scenario2.no_dtm_left))
          ++ probes)%list
    /\ Forall is_probe probes.
Proof.
  apply (roofform_names_its_missing_input "/home" Fake.frame Scenario2.no_dtm_left).
  - vm_compute. reflexivity.
  - vm_compute. reflexivity.
Defined.


(** ** [execute] *)

Section ExecuteFacts.
Context {P : Platform}.

Lemma check_in s1 :
  try_except (R := unit) (ext (CheckInExtension "Spatial")) (fun _ => Some (ret tt)) s1
  = (with_world (fst (run_ext (CheckInExtension "Spatial") (world s1)))
       (add_event (EvCall (CheckInExtension "Spatial")) s1),
     Normal tt).
Proof.
  unfold try_except, ext, ret.
  destruct (run_ext (CheckInExtension "Spatial") (world s1)) as [w [e|]]; reflexivity.
Qed.

(** Whatever happens, [execute] checks the Spatial extension back in, and
    that is the last thing it asks of the host.  It never returns a
    value, and the only exceptions it lets out are those that are not of
    class [Exception]; an exception raised by the check-in itself is
    dropped. *)
Theorem extension_is_always_checked_in parameters messages s :
  exists evs,
    trace (fst (BuildingProcessor.execute parameters messages s))
    = (trace s ++ evs ++ [EvCall (CheckInExtension "Spatial")])%list
    /\ match snd (BuildingProcessor.execute parameters messages s) with
       | Normal _ => True
       | Returned _ => False
       | Raised e => isinstance_Exception e = false
       end.
Proof.
  unfold BuildingProcessor.execute, try_finally.
  match goal with
  | |- context [try_except ?b ?h s] =>
      destruct (try_except b h s) as [s1 sig1] eqn:Eb;
      assert (Hev : emits (fun _ => True) (try_except b h))
  end.
  { apply emits_try_except.
    - do 3 (apply emits_bind; [apply emits_index | intros ?]).
      apply emits_bind.
      + apply emits_call.
        eapply emits_weaken; [|apply process_las_dataset_fixed_constants]. auto.
      + intros success. destruct (truthy success);
          [apply emits_AddMessage | apply emits_AddError].
    - intros e k Hk. emits_with ltac:(exact I). }
  destruct (Hev _ _ _ Eb) as (evs & Ht & _).
  rewrite check_in. cbn. exists evs. split.
  - now rewrite Ht, app_assoc.
  - unfold try_except in Eb.
    match type of Eb with
    | context [match ?b s with _ => _ end] => destruct (b s) as [s2 [a|r|e]] eqn:Ei
    end.
    + now injection Eb as <- <-.
    + exfalso. unfold index, bind, call, ret, raise, AddMessage, AddError in Ei.
      destruct parameters as [|p0 [|p1 [|p2 rest]]]; cbn in Ei; try discriminate.
      destruct (process_las_dataset (valueAsText p0) (valueAsText p1)
                  (valueAsText p2) s) as [s3 [[]|b|e]];
        cbn in Ei; try discriminate; destruct b; discriminate.
    + destruct (isinstance_ExecuteError e); [now injection Eb as <- <-|].
      destruct (isinstance_Exception e) eqn:He; now injection Eb as <- <-.
Qed.

(** With fewer than three parameters [execute] does not start the
    processing: it logs the index error as an unexpected error, checks
    the extension in and ends. *)
Theorem too_few_parameters_are_reported parameters messages s :
  (length parameters < 3)%nat ->
  BuildingProcessor.execute parameters messages s
  = (with_world (fst (run_ext (CheckInExtension "Spatial") (world s)))
       (add_event (EvCall (CheckInExtension "Spatial"))
          (add_log (Error "An unexpected error occurred: list index out of range") s)),
     Normal tt).
Proof.
  intros Hlen. unfold BuildingProcessor.execute, try_finally.
  pose proof check_in as Hc.
  set (cleanup := try_except (ext (CheckInExtension "Spatial")) _) in *.
  destruct parameters as [|p0 [|p1 [|p2 rest]]]; cbn in Hlen; try lia;
    unfold try_except, index, bind, raise, ret, AddError; cbn;
    rewrite Hc; reflexivity.
Qed.

(** [execute] ends the log with its verdict: when the three required
    parameters are there and [process_las_dataset] comes back with [v],
    the last message is ["Processing completed successfully"] if [v] is
    [True] and the error ["Processing failed - check messages above"]
    otherwise; then the extension is checked in. *)
Theorem execute_logs_the_verdict parameters messages s p0 p1 p2 s1 v :
  nth_error parameters 0 = Some p0 ->
  nth_error parameters 1 = Some p1 ->
  nth_error parameters 2 = Some p2 ->
  run (valueAsText p0) (valueAsText p1) (valueAsText p2) s = (s1, Normal v) ->
  let sf := fst (BuildingProcessor.execute parameters messages s) in
  snd (BuildingProcessor.execute parameters messages s) = Normal tt
  /\ log sf
     = (log s1 ++ [if truthy v then Message "Processing completed successfully"
                   else Error "Processing failed - check messages above"])%list
  /\ trace sf = (trace s1 ++ [EvCall (CheckInExtension "Spatial")])%list.
Proof.
  intros H0 H1 H2 Hrun sf. subst sf.
  unfold BuildingProcessor.execute, try_finally.
  pose proof check_in as Hc.
  set (cleanup := try_except (ext (CheckInExtension "Spatial")) _) in *.
  unfold try_except, index. rewrite H0, H1, H2.
  unfold bind, ret. unfold run in Hrun. rewrite Hrun.
  destruct (truthy v); cbn; rewrite Hc; cbn; repeat split.
Qed.

End ExecuteFacts.

Lemma too_few_parameters_are_reported_witness :
  log (fst (BuildingProcessor.execute
              [mkToolParameter "/data/city.lasd"; mkToolParameter "/home"]
              tt Fake.good))
  = [Error "An unexpected error occurred: list index out of range"].
Proof.
  rewrite (too_few_parameters_are_reported
             [mkToolParameter "/data/city.lasd"; mkToolParameter "/home"]
             tt Fake.good).
  - reflexivity.
  - cbn. lia.
Defined.

Lemma execute_logs_the_verdict_witness :
  last (log (fst (BuildingProcessor.execute (Fake.parameters "0.3" "6" "0.5") tt
                    Fake.no_ndsm)))
    (Message "-")
  = Error "Processing failed - check messages above".
Proof.
  destruct (execute_logs_the_verdict (Fake.parameters "0.3" "6" "0.5") tt Fake.no_ndsm
              (mkToolParameter "/data/city.lasd") (mkToolParameter "/home")
              (mkToolParameter "/out")
              (fst (run "/data/city.lasd" "/home" "/out" Fake.no_ndsm))
              (Some false))
    as (_ & Hlog & _).
  - reflexivity.
  - reflexivity.
  - reflexivity.
  - vm_compute. reflexivity.
  - rewrite Hlog. apply last_last.
Defined.


(** ** The licence and the validation of the dialog *)

Section ToolClassFacts.
Context {P : Platform} {L : Licensing}.

(** [isLicensed] always answers and never raises, whatever the engine
    does.  It answers [True] exactly when the engine reports the Spatial
    extension as ["Available"] and the check-out raises nothing; when the
    extension is not reported available nothing is checked out and the
    world is as it was. *)
Theorem isLicensed_always_answers s :
  exists b s',
    call (R' := unit) isLicensed s = (s', Normal (Some b))
    /\ (b = true <->
        check_extension "Spatial" (world s) = inr "Available"
        /\ snd (check_out_extension "Spatial" (world s)) = None)
    /\ (check_extension "Spatial" (world s) <> inr "Available" -> s' = s)
    /\ log s' = log s /\ trace s' = trace s.
Proof.
  unfold call, isLicensed, try_except, bind, arcpy_CheckExtension,
    arcpy_CheckOutExtension, raise, return_.
  destruct (check_extension "Spatial" (world s)) as [e|status] eqn:Hc; cbn.
  - exists false, s. repeat split; try discriminate. now intros [? _].
  - destruct (status =? "Available")%string eqn:Hs; cbn.
    + apply String.eqb_eq in Hs. subst status.
      destruct (check_out_extension "Spatial" (world s)) as [w' [e|]] eqn:Ho; cbn.
      * exists false. eexists. repeat split; try discriminate.
        -- now intros [_ ?].
        -- intros H. now elim H.
      * exists true. eexists. repeat split; try reflexivity.
        intros H. now elim H.
    + apply String.eqb_neq in Hs.
      exists false, s. repeat split; try discriminate.
      intros [H _]. injection H as ->. now elim Hs.
Qed.

Lemma setMessage_length i m ps : length (setMessage i m ps) = length ps.
Proof.
  revert i. induction ps as [|p ps IH]; intros [|i]; cbn; auto.
Qed.

Lemma setMessage_values i m ps :
  map param_value (setMessage i m ps) = map param_value ps.
Proof.
  revert i. induction ps as [|p ps IH]; intros [|i]; cbn; auto.
  now rewrite IH.
Qed.

End ToolClassFacts.


(** ** The validation of the dialog *)

Section DialogFacts.
Context {P : Platform}.

Ltac validate_cases :=
  unfold updateMessages, index, try_except, bind, arcpy_Exists, os_path_exists, ext,
    ret, raise;
  cbn;
  repeat match goal with
         | |- context [run_ext ?c ?w] =>
             let w' := fresh "w" in
             let e := fresh "e" in
             destruct (run_ext c w) as [w' [e|]] eqn:?; cbn
         | |- context [arc_exists ?st ?p] => destruct (arc_exists st p) eqn:?; cbn
         | |- context [path_exists ?st ?p] => destruct (path_exists st p) eqn:?; cbn
         end.

(** [updateMessages] only sets messages.  Given at least the three
    parameters it reads, it ends normally whatever the host answers (a
    failure to create the output directory becomes a message), keeps the
    number of parameters and every value, leaves the parameters after
    the third as they were, and logs nothing. *)
Theorem updateMessages_only_sets_messages parameters s :
  (3 <= length parameters)%nat ->
  exists s' parameters',
    updateMessages parameters s = (s', Normal parameters')
    /\ length parameters' = length parameters
    /\ map param_value parameters' = map param_value parameters
    /\ skipn 3 parameters' = skipn 3 parameters
    /\ log s' = log s.
Proof.
  intros Hlen.
  destruct parameters as [|[[v0|] m0] [|[[v1|] m1] [|[[v2|] m2] rest]]];
    cbn in Hlen; try lia.
  all: validate_cases.
  all: eexists; eexists; (split; [reflexivity|]).
  all: cbn; repeat split.
Qed.

(** The only thing [updateMessages] may change in the world is the
    output directory: it asks the host only about the three paths of the
    dialog and the [scripts] folder of the home directory, and the world
    is either untouched or what the creation of the missing output
    directory left. *)
Theorem updateMessages_only_creates_the_output_directory parameters s s' sig :
  updateMessages parameters s = (s', sig) ->
  (exists evs,
      trace s' = (trace s ++ evs)%list /\ Forall (validation_request parameters) evs)
  /\ (world s' = world s
      \/ exists output_directory,
          option_map param_value (nth_error parameters 2) = Some (Some output_directory)
          /\ path_exists (store (world s)) output_directory = false
          /\ world s' = fst (run_ext (Makedirs output_directory) (world s))).
Proof.
  destruct parameters as [|[[v0|] m0] [|[[v1|] m1] [|[[v2|] m2] rest]]];
    validate_cases; intros [= <- <-]; split.
  all: try (eexists; split;
            [show_trace
            | repeat (apply Forall_cons;
                      [cbn; first [reflexivity | left; reflexivity
                                  | right; left; eexists; split; reflexivity
                                  | right; right; reflexivity]|]);
              apply Forall_nil]).
  all: cbn;
    first [left; reflexivity
          | right; eexists; split; [reflexivity|]; split; [assumption|];
            match goal with
            | H : run_ext _ _ = _ |- _ => rewrite H; reflexivity
            end].
Qed.

Lemma validate_input_paths_passes las home out s1 :
  arc_exists (store (world s1)) las = true ->
  path_exists (store (world s1)) home = true ->
  path_exists (store (world s1)) out = true ->
  exists s2, validate_input_paths las home out s1 = (s2, Normal tt).
Proof.
  intros H0 H1 H2.
  unfold validate_input_paths, bind, set_env, arcpy_Exists, os_path_exists, when, ret.
  cbn. rewrite H0. cbn. rewrite H1. cbn. rewrite H2. cbn. eauto.
Qed.

Lemma valid_dialog_paths parameters s s' parameters' las home out :
  option_map param_value (nth_error parameters 0) = Some (Some las) ->
  option_map param_value (nth_error parameters 1) = Some (Some home) ->
  option_map param_value (nth_error parameters 2) = Some (Some out) ->
  updateMessages parameters s = (s', Normal parameters') ->
  forallb (fun p => negb (is_error (param_message p))) (firstn 3 parameters') = true ->
  arc_exists (store (world s)) las = true
  /\ path_exists (store (world s)) home = true
  /\ (path_exists (store (world s)) out = true /\ world s' = world s
      \/ path_exists (store (world s)) out = false
         /\ run_ext (Makedirs out) (world s) = (world s', None)).
Proof.
  destruct parameters as [|[[v0|] m0] [|[[v1|] m1] [|[[v2|] m2] rest]]];
    cbn; try discriminate.
  intros [= ->] [= ->] [= ->].
  validate_cases; intros [= <- <-]; cbn; rewrite ?andb_false_r; try discriminate;
    intros Hmsg; (split; [reflexivity|]); (split; [reflexivity|]);
    first [left; split; reflexivity | right; split; [reflexivity | congruence]].
Qed.

(** The dialog and the run test the same paths.  When the three required
    parameters have values and [updateMessages] leaves none of them with
    an error message, the dataset and the home directory exist, and the
    output directory either exists or has just been created without
    error; if it existed, the path tests of [process_las_dataset] pass
    in any state with the same store. *)
Theorem valid_dialog_passes_path_validation parameters s s' parameters' las home out :
  option_map param_value (nth_error parameters 0) = Some (Some las) ->
  option_map param_value (nth_error parameters 1) = Some (Some home) ->
  option_map param_value (nth_error parameters 2) = Some (Some out) ->
  updateMessages parameters s = (s', Normal parameters') ->
  forallb (fun p => negb (is_error (param_message p))) (firstn 3 parameters') = true ->
  arc_exists (store (world s)) las = true
  /\ path_exists (store (world s)) home = true
  /\ (path_exists (store (world s)) out = true /\ world s' = world s
      \/ path_exists (store (world s)) out = false
         /\ run_ext (Makedirs out) (world s) = (world s', None))
  /\ (path_exists (store (world s)) out = true ->
      forall s1,
        store (world s1) = store (world s) ->
        exists s2, validate_input_paths las home out s1 = (s2, Normal tt)).
Proof.
  intros H0 H1 H2 Hu Hm.
  destruct (valid_dialog_paths _ _ _ _ _ _ _ H0 H1 H2 Hu Hm) as (Hl & Hh & Ho).
  repeat split; try assumption.
  intros Hout s1 Hs1. apply validate_input_paths_passes; now rewrite Hs1.
Qed.

End DialogFacts.

Lemma updateMessages_only_sets_messages_witness :
  exists s' parameters',
    updateMessages FakeLicence.dialog Fake.good = (s', Normal parameters')
    /\ length parameters' = 6%nat.
Proof.
  destruct (updateMessages_only_sets_messages FakeLicence.dialog Fake.good)
    as (s' & parameters' & Hrun & Hlen & _).
  - cbn. lia.
  - exists s', parameters'. split; assumption.
Defined.

Lemma updateMessages_only_creates_the_output_directory_witness :
  exists evs,
    trace (fst (updateMessages FakeLicence.dialog Fake.good))
    = (trace Fake.good ++ evs)%list
    /\ Forall (validation_request (P := Fake.platform) FakeLicence.dialog) evs.
Proof.
  destruct (updateMessages_only_creates_the_output_directory FakeLicence.dialog Fake.good
              (fst (updateMessages FakeLicence.dialog Fake.good))
              (snd (updateMessages FakeLicence.dialog Fake.good)))
    as [Hevs _].
  - vm_compute. reflexivity.
  - exact Hevs.
Defined.

Lemma valid_dialog_passes_path_validation_witness :
  exists s2,
    validate_input_paths "/data/city.lasd" "/home" "/out" Fake.good = (s2, Normal tt).
Proof.
  edestruct (valid_dialog_passes_path_validation FakeLicence.dialog Fake.good)
    as (_ & _ & _ & Hpass).
  - reflexivity.
  - reflexivity.
  - reflexivity.
  - vm_compute. reflexivity.
  - vm_compute. reflexivity.
  - apply Hpass; reflexivity.
Defined.
